(** * ByteNet antibody-only model: shallow embedding and verified properties

    Embedding of [resp_protein_toolkit/protein_ml_models/bytenet_antibody_only.py].

    Python integers are [Z]; a Python number that may be an [int] or a
    [float] is a [pynum]; a raised exception is the [Raise] branch of
    [result].  The tensor runtime (torch) is an interface, [Torch], whose
    primitives the model calls exactly where the source calls them; the
    instance [ShapeRT] interprets a tensor by its shape, following the
    shape rules of the torch primitives.  What depends on the rounding of
    float64, or on how torch treats a layer of width 0, is left open: it
    is a parameter of the runtime, and the properties hold for every
    choice of it. *)

From Stdlib Require Import ZArith List String Bool Lia QArith Qround.
Import ListNotations.
Local Open Scope string_scope.
Local Open Scope Z_scope.

Set Implicit Arguments.

(** ** Exceptions and the error monad *)

Inductive pyerr : Type :=
| RuntimeError (msg : string)
| ValueError
| OverflowError
| ZeroDivisionError
| TypeError
| IndexError
| AttributeError.

Inductive result (A : Type) : Type :=
| Ok (a : A)
| Raise (e : pyerr).

Arguments Ok {A} a.
Arguments Raise {A} e.

Definition bind {A B : Type} (r : result A) (k : A -> result B) : result B :=
  match r with
  | Ok a => k a
  | Raise e => Raise e
  end.

Notation "x <- c ;; k" := (bind c (fun x => k))
  (at level 61, c at next level, right associativity).
Notation "' pat <- c ;; k" := (bind c (fun x => match x with pat => k end))
  (at level 61, pat pattern, c at next level, right associativity).

Definition raises {A : Type} (r : result A) : bool :=
  match r with Ok _ => false | Raise _ => true end.

Fixpoint mapM {A B : Type} (f : A -> result B) (l : list A) : result (list B) :=
  match l with
  | [] => Ok []
  | a :: l' => b <- f a ;; bs <- mapM f l' ;; Ok (b :: bs)
  end.

(** ** Python numbers *)

(** A Python [int] or a finite [float], the latter by its value. *)
Inductive pynum : Type :=
| PyInt (z : Z)
| PyFloat (q : Q).

Definition pynum_value (x : pynum) : Q :=
  match x with
  | PyInt z => inject_Z z
  | PyFloat q => q
  end.

(** The exponent of a rational that is a power of two. *)
Definition power_of_two (q : Q) : option Z :=
  let r := Qred q in
  let n := Qnum r in
  let d := Zpos (Qden r) in
  if (d =? 1) && (0 <? n) && (n =? 2 ^ Z.log2 n) then Some (Z.log2 n)
  else if (n =? 1) && (d =? 2 ^ Z.log2 d) then Some (- Z.log2 d)
  else None.

(** [a % b] on ints: the result has the sign of [b]; [b = 0] raises. *)
Definition py_mod (a b : Z) : result Z :=
  if b =? 0 then Raise ZeroDivisionError else Ok (a mod b).

(** [2 ** e] for an int [e]: an int when [e >= 0], a float otherwise. *)
Definition py_pow2 (e : Z) : pynum :=
  if 0 <=? e then PyInt (2 ^ e)
  else PyFloat (1 # Z.to_pos (2 ^ (- e))).

(** [a * b] and [a // b] with an int right operand. *)
Definition py_mul_int (a : pynum) (b : Z) : pynum :=
  match a with
  | PyInt z => PyInt (z * b)
  | PyFloat q => PyFloat (q * inject_Z b)
  end.

Definition py_floordiv_int (a : pynum) (b : Z) : result pynum :=
  if b =? 0 then Raise ZeroDivisionError
  else match a with
       | PyInt z => Ok (PyInt (z / b))
       | PyFloat q => Ok (PyFloat (inject_Z (Qfloor (q / inject_Z b))))
       end.

(** [range(n)] *)
Definition py_range (n : Z) : list Z :=
  map Z.of_nat (seq 0 (Z.to_nat n)).

(** ** Hyper-parameters that do not depend on the tensor runtime *)

(** Attributes of a [torch.nn.Conv1d]. *)
Record Conv1dConfig : Type := {
  in_channels : Z;
  out_channels : Z;
  kernel_size : Z;
  stride : Z;
  padding : pynum;
  dilation : pynum;
  groups : Z;
  bias : bool
}.

(** Constructor arguments of the last-layer GP, [VanillaRFFLayer]. *)
Record RFFConfig : Type := {
  in_features : Z;
  RFFs : Z;
  out_targets : Z;
  gp_cov_momentum : Q;
  gp_ridge_penalty : Q;
  likelihood : string;
  random_seed : Z
}.

(** Arguments of [ByteNetPairedSeqs.__init__]. *)
Module Args.
Record t : Type := {
  input_dim : Z;
  hidden_dim : Z;
  n_layers : Z;
  kernel_size : Z;
  dil_factor : pynum;
  rep_dim : Z;
  dropout : Q;
  slim : bool;
  llgp : bool;
  antigen_dim : option Z;
  objective : string;
  num_predicted_categories : Z
}.

(** The defaults of the signature. *)
Definition default (input_dim hidden_dim n_layers kernel_size : Z)
           (dil_factor : pynum) : t :=
  {| input_dim := input_dim; hidden_dim := hidden_dim; n_layers := n_layers;
     kernel_size := kernel_size; dil_factor := dil_factor;
     rep_dim := 100; dropout := 0%Q; slim := false; llgp := false;
     antigen_dim := None; objective := "regression";
     num_predicted_categories := 1 |}.
End Args.

(** ** The tensor runtime *)

(** What the module consumes from torch, numpy and the GP-head
    collaborator.  Every primitive may raise, as the library call does. *)
Class Torch : Type := {
  tensor : Type;
  ndarray : Type;
  (** learnable parameters and buffers of one layer *)
  param : Type;
  (** the global random generator, seeded by [torch.manual_seed] *)
  generator : Type;
  (** random features, output weights and precision matrix of the GP head *)
  gp_state : Type;

  manual_seed : Z -> generator;
  (** the values of a fresh parameter of a shape without a negative size *)
  new_param : generator -> list Z -> param * generator;

  (** [int(np.log2(x))] for a positive [x] where the truncation depends
      on the rounding of float64: an int from [2 ^ 47] on, a float that is
      not a power of two *)
  np_log2_far : pynum -> Z;

  (** [x.transpose(d0, d1)] *)
  transpose : tensor -> Z -> Z -> result tensor;
  (** [torch.nn.Conv1d.forward] on a channels-first input; the flag tells
      whether the weight is spectrally normalised *)
  conv1d : Conv1dConfig -> bool -> param -> tensor -> result tensor;
  (** [torch.nn.LayerNorm(d).forward] *)
  layer_norm : Z -> param -> tensor -> result tensor;
  gelu : tensor -> tensor;
  (** [a + b], with broadcasting *)
  tensor_add : tensor -> tensor -> result tensor;
  (** [torch.mean(x, dim=d)] *)
  mean : tensor -> Z -> result tensor;
  (** [torch.nn.Linear(d_in, d_out).forward] *)
  linear : Z -> Z -> bool -> param -> tensor -> result tensor;
  (** [x.squeeze(d)] *)
  squeeze : tensor -> Z -> result tensor;
  sigmoid : tensor -> tensor;
  (** [F.softmax(x)], the dimension left implicit *)
  softmax : tensor -> tensor;
  (** [F.dropout(x, p)] *)
  F_dropout : tensor -> Q -> result tensor;
  (** [torch.from_numpy(x).float()] *)
  from_numpy_float : ndarray -> result tensor;
  (** [x.cuda()] when the parameters live on an accelerator *)
  to_device_of : param -> tensor -> tensor;
  (** [x.cpu().numpy()] *)
  cpu_numpy : tensor -> ndarray;

  (** internals of the GP head: sampling the random features at
      construction, the point prediction, the precision-matrix update and
      the predictive variance *)
  rff_new : RFFConfig -> gp_state;
  rff_predict : RFFConfig -> gp_state -> tensor -> result tensor;
  rff_update_precision : RFFConfig -> gp_state -> tensor -> gp_state;
  rff_variance : RFFConfig -> gp_state -> tensor -> result tensor
}.

Section Model.
Context {RT : Torch}.

(** ** The dilation schedule ([ByteNetPairedSeqs.__init__], lines 193-195) *)

(** [int(np.log2(x))].  numpy takes a Python int as int64 or uint64 and
    raises TypeError for an int outside both ranges; [np.log2] gives
    [-inf] at 0 and [nan] below 0 (a warning, not an exception); [int] of
    an infinity raises OverflowError and [int] of a nan raises ValueError;
    otherwise [int] truncates the logarithm towards zero.  [np.log2] is
    exact at a power of two and accurate to one unit in the last place
    elsewhere: for an int below [2 ^ 47] the logarithm is further than that
    from the next integer, so that the truncation is the floor of the
    exact logarithm.  Everywhere else the result is [np_log2_far]. *)
Definition int_np_log2 (x : pynum) : result Z :=
  match x with
  | PyInt z =>
      if (z <? - 2 ^ 63) || (2 ^ 64 <=? z) then Raise TypeError
      else if z =? 0 then Raise OverflowError
      else if z <? 0 then Raise ValueError
      else if z <? 2 ^ 47 then Ok (Z.log2 z)
      else Ok (np_log2_far x)
  | PyFloat q =>
      if Qnum q =? 0 then Raise OverflowError
      else if Qnum q <? 0 then Raise ValueError
      else match power_of_two q with
           | Some j => if Z.abs j <=? 1022 then Ok j else Ok (np_log2_far x)
           | None => Ok (np_log2_far x)
           end
  end.

Definition dilation_schedule (n_layers : Z) (dil_factor : pynum)
  : result (list pynum) :=
  l <- int_np_log2 dil_factor ;;
  let dil_log2 := l + 1 in
  mapM (fun n => m <- py_mod n dil_log2 ;; Ok (py_pow2 m)) (py_range n_layers).

(** ** torch layers used by the module *)

(** The message of torch for a negative size, which goes on with the size
    and the shape. *)
Definition msg_negative_dimension : string :=
  "Trying to create tensor with negative dimension".

(** [torch.empty(shape)] and the initialisation of the values: torch
    raises RuntimeError on a negative size, and accepts a size 0. *)
Definition torch_empty (g : generator) (shape : list Z)
  : result (param * generator) :=
  if existsb (fun d => d <? 0) shape
  then Raise (RuntimeError msg_negative_dimension)
  else Ok (new_param g shape).

Record Conv1d : Type := {
  conv_cfg : Conv1dConfig;
  conv_weight : param;
  conv_spectral : bool
}.

(** [torch.nn.Conv1d.__init__]: rejects a group count that does not divide
    the channel counts, then allocates the weight, of shape
    [(out_channels, in_channels // groups, kernel_size)]. *)
Definition Conv1d_init (g : generator) (in_channels out_channels kernel_size
                        stride : Z) (padding dilation : pynum) (groups : Z)
                       (bias : bool) : result (Conv1d * generator) :=
  if groups <=? 0 then Raise ValueError
  else if negb (in_channels mod groups =? 0) then Raise ValueError
  else if negb (out_channels mod groups =? 0) then Raise ValueError
  else
    '(w, g') <- torch_empty g [out_channels; in_channels / groups; kernel_size] ;;
    Ok ({| conv_cfg := {| in_channels := in_channels;
                          out_channels := out_channels;
                          kernel_size := kernel_size; stride := stride;
                          padding := padding; dilation := dilation;
                          groups := groups; bias := bias |};
           conv_weight := w; conv_spectral := false |}, g').

(** The call of a convolution.  The power iteration that
    [spectral_norm] runs on its buffers in training mode is inside
    [conv1d] and is not followed as a change of state. *)
Definition Conv1d_forward (c : Conv1d) (x : tensor) : result tensor :=
  conv1d (conv_cfg c) (conv_spectral c) (conv_weight c) x.

(** [torch.nn.utils.spectral_norm] on a convolution. *)
Definition SpectralNorm (c : Conv1d) : Conv1d :=
  {| conv_cfg := conv_cfg c; conv_weight := conv_weight c;
     conv_spectral := true |}.

Record LayerNorm : Type := {
  normalized_shape : Z;
  ln_weight : param
}.

Definition LayerNorm_init (g : generator) (d : Z)
  : result (LayerNorm * generator) :=
  '(w, g') <- torch_empty g [d] ;;
  Ok ({| normalized_shape := d; ln_weight := w |}, g').

Definition LayerNorm_forward (l : LayerNorm) (x : tensor) : result tensor :=
  layer_norm (normalized_shape l) (ln_weight l) x.

Record Linear : Type := {
  lin_in : Z;
  lin_out : Z;
  lin_weight : param;
  lin_spectral : bool
}.

Definition Linear_init (g : generator) (d_in d_out : Z)
  : result (Linear * generator) :=
  '(w, g') <- torch_empty g [d_out; d_in] ;;
  Ok ({| lin_in := d_in; lin_out := d_out; lin_weight := w;
         lin_spectral := false |}, g').

Definition SpectralNorm_linear (l : Linear) : Linear :=
  {| lin_in := lin_in l; lin_out := lin_out l; lin_weight := lin_weight l;
     lin_spectral := true |}.

Definition Linear_forward (l : Linear) (x : tensor) : result tensor :=
  linear (lin_in l) (lin_out l) (lin_spectral l) (lin_weight l) x.

(** ** ConvLayer (lines 15-50) *)

(** [ConvLayer.__init__]: a [Conv1d] whose padding is computed from the
    dilation and the kernel width. *)
Definition ConvLayer_init (g : generator) (in_channels out_channels
                           kernel_size stride : Z) (dilation : pynum)
                          (groups : Z) (bias : bool)
  : result (Conv1d * generator) :=
  padding <- py_floordiv_int (py_mul_int dilation (kernel_size - 1)) 2 ;;
  Conv1d_init g in_channels out_channels kernel_size stride padding dilation
              groups bias.

Definition ConvLayer_forward (self : Conv1d) (xdata : tensor) : result tensor :=
  xt <- transpose xdata 1 2 ;;
  y <- Conv1d_forward self xt ;;
  transpose y 1 2.

(** ** PositionFeedForward (lines 54-80) *)

Record PositionFeedForward : Type := {
  pff_conv : Conv1d;
  factorized : bool
}.

Definition PositionFeedForward_init (g : generator) (d_in d_out : Z)
           (use_spectral_norm : bool)
  : result (PositionFeedForward * generator) :=
  '(c, g') <- Conv1d_init g d_in d_out 1 1 (PyInt 0) (PyInt 1) 1 true ;;
  Ok ({| pff_conv := if use_spectral_norm then SpectralNorm c else c;
         factorized := false |}, g').

Definition PositionFeedForward_forward (self : PositionFeedForward)
           (xdata : tensor) : result tensor :=
  xt <- transpose xdata 1 2 ;;
  y <- Conv1d_forward (pff_conv self) xt ;;
  transpose y 1 2.

(** ** ByteNetBlock (lines 84-131) *)

(** The members of a [torch.nn.Sequential] of the block. *)
Inductive Stage : Type :=
| StLayerNorm (l : LayerNorm)
| StGELU
| StPositionFeedForward (p : PositionFeedForward).

Definition Stage_forward (s : Stage) (x : tensor) : result tensor :=
  match s with
  | StLayerNorm l => LayerNorm_forward l x
  | StGELU => Ok (gelu x)
  | StPositionFeedForward p => PositionFeedForward_forward p x
  end.

(** [torch.nn.Sequential.forward]: the stages in order. *)
Fixpoint Sequential_forward (layers : list Stage) (x : tensor) : result tensor :=
  match layers with
  | [] => Ok x
  | s :: rest => y <- Stage_forward s x ;; Sequential_forward rest y
  end.

Record ByteNetBlock : Type := {
  bnb_conv : Conv1d;
  sequence1 : list Stage;
  sequence2 : list Stage
}.

Definition ByteNetBlock_init (g : generator) (d_in d_h d_out kernel_size : Z)
           (dilation : pynum) (groups : Z) (use_spectral_norm : bool)
  : result (ByteNetBlock * generator) :=
  '(c, g) <- ConvLayer_init g d_h d_h kernel_size 1 dilation groups true ;;
  let conv := if use_spectral_norm then SpectralNorm c else c in
  '(ln1, g) <- LayerNorm_init g d_in ;;
  '(ff1, g) <- PositionFeedForward_init g d_in d_h use_spectral_norm ;;
  '(ln2, g) <- LayerNorm_init g d_h ;;
  '(ln3, g) <- LayerNorm_init g d_h ;;
  '(ff2, g) <- PositionFeedForward_init g d_h d_out use_spectral_norm ;;
  Ok ({| bnb_conv := conv;
         sequence1 := [StLayerNorm ln1; StGELU; StPositionFeedForward ff1;
                       StLayerNorm ln2; StGELU];
         sequence2 := [StLayerNorm ln3; StGELU; StPositionFeedForward ff2] |},
      g).

Definition ByteNetBlock_forward (self : ByteNetBlock) (xdata : tensor)
  : result tensor :=
  h1 <- Sequential_forward (sequence1 self) xdata ;;
  h2 <- ConvLayer_forward (bnb_conv self) h1 ;;
  h3 <- Sequential_forward (sequence2 self) h2 ;;
  tensor_add xdata h3.

(** ** The output head *)

Record VanillaRFFLayer : Type := {
  rff_cfg : RFFConfig;
  rff_state : gp_state
}.

(** What a call of the head returns: a prediction, or a prediction and a
    variance. *)
Inductive head_ret : Type :=
| HPred (preds : tensor)
| HPredVar (preds var : tensor).

(** Modelled from the spec: the constructor of [VanillaRFFLayer], which
    takes the arguments of line 226-229 and samples its random features. *)
Definition VanillaRFFLayer_init (in_features RFFs out_targets : Z)
           (gp_cov_momentum gp_ridge_penalty : Q) (likelihood : string)
           (random_seed : Z) : VanillaRFFLayer :=
  let cfg := {| in_features := in_features; RFFs := RFFs;
                out_targets := out_targets;
                gp_cov_momentum := gp_cov_momentum;
                gp_ridge_penalty := gp_ridge_penalty;
                likelihood := likelihood; random_seed := random_seed |} in
  {| rff_cfg := cfg; rff_state := rff_new cfg |}.

(** Modelled from the spec: [VanillaRFFLayer.forward] of [classic_rffs],
    which is not among the sources.  The head is called as
    [head(representation, update_precision)], returning a point prediction
    and updating its calibration state when [update_precision] is true, or
    as [head(representation, get_var=True)], returning the prediction and
    the variance; both flags default to false. *)
Definition VanillaRFFLayer_forward (self : VanillaRFFLayer) (x : tensor)
           (update_precision get_var : bool)
  : result (head_ret * VanillaRFFLayer) :=
  preds <- rff_predict (rff_cfg self) (rff_state self) x ;;
  let st := if update_precision
            then rff_update_precision (rff_cfg self) (rff_state self) x
            else rff_state self in
  let self' := {| rff_cfg := rff_cfg self; rff_state := st |} in
  if get_var then
    var <- rff_variance (rff_cfg self) st x ;;
    Ok (HPredVar preds var, self')
  else Ok (HPred preds, self').

Inductive OutLayer : Type :=
| HeadRFF (h : VanillaRFFLayer)
| HeadLinear (l : Linear).

(** The arguments passed after the representation in a call of
    [self.out_layer]; [None] is an argument that is not passed. *)
Record HeadArgs : Type := {
  arg_update_precision : option bool;
  arg_get_var : option bool
}.

Definition or_default (o : option bool) (d : bool) : bool :=
  match o with Some b => b | None => d end.

(** A call [self.out_layer(x, ...)].  A linear layer takes no further
    argument. *)
Definition OutLayer_call (ol : OutLayer) (x : tensor) (a : HeadArgs)
  : result (head_ret * OutLayer) :=
  match ol with
  | HeadRFF h =>
      '(r, h') <- VanillaRFFLayer_forward h x
                    (or_default (arg_update_precision a) false)
                    (or_default (arg_get_var a) false) ;;
      Ok (r, HeadRFF h')
  | HeadLinear l =>
      match arg_update_precision a, arg_get_var a with
      | None, None => y <- Linear_forward l x ;; Ok (HPred y, ol)
      | _, _ => Raise TypeError
      end
  end.

(** [preds, var = ...] and the use of a returned value as one tensor. *)
Definition unpack_pair (r : head_ret) : result (tensor * tensor) :=
  match r with
  | HPredVar p v => Ok (p, v)
  | HPred _ => Raise ValueError
  end.

Definition as_tensor (r : head_ret) : result tensor :=
  match r with
  | HPred p => Ok p
  | HPredVar _ _ => Raise AttributeError
  end.

(** ** ByteNetPairedSeqs (lines 134-331) *)

Record ByteNetPairedSeqs : Type := {
  objective : string;
  adjuster : PositionFeedForward;
  antigen_adjuster : option PositionFeedForward;
  antibody_layers : list ByteNetBlock;
  antigen_layers : list ByteNetBlock;
  down_adjuster : PositionFeedForward;
  final_lnorm : LayerNorm;
  out_layer : OutLayer;
  dropout : Q;
  llgp : bool;
  (** the mode flag of [torch.nn.Module], true after construction *)
  training : bool
}.

Definition msg_multiclass : string :=
  "If running in multiclass mode, num_predicted_categories must always be > 2. If there are only two possible categories, binary classification is more appropriate.".

Definition msg_unrecognized : string := "Unrecognized objective supplied.".

Definition msg_invalid_task : string :=
  "Model was initialized with an invalid task / objective.".

(** Lines 171-187: the number of outputs and the likelihood of the
    objective, or the configuration error. *)
Definition check_objective (objective : string) (num_predicted_categories : Z)
  : result (Z * string) :=
  if String.eqb objective "multiclass" then
    if num_predicted_categories <=? 2 then Raise (RuntimeError msg_multiclass)
    else Ok (num_predicted_categories, "multiclass")
  else if String.eqb objective "binary_classifier" then Ok (1, "binary_logistic")
  else if String.eqb objective "regression" then Ok (1, "Gaussian")
  else Raise (RuntimeError msg_unrecognized).

(** [[ByteNetBlock(...) for d in dilations]], the generator threaded
    through the constructions. *)
Fixpoint build_blocks (g : generator) (hidden_dim d_h kernel_size : Z)
         (use_spectral_norm : bool) (dilations : list pynum)
  : result (list ByteNetBlock * generator) :=
  match dilations with
  | [] => Ok ([], g)
  | d :: rest =>
      '(b, g) <- ByteNetBlock_init g hidden_dim d_h hidden_dim kernel_size d 1
                   use_spectral_norm ;;
      '(bs, g) <- build_blocks g hidden_dim d_h kernel_size use_spectral_norm
                    rest ;;
      Ok (b :: bs, g)
  end.

Definition ByteNetPairedSeqs_init (a : Args.t) : result ByteNetPairedSeqs :=
  let g := manual_seed 123 in
  let use_spectral_norm := Args.llgp a in
  '(nclasses, likelihood) <-
     check_objective (Args.objective a) (Args.num_predicted_categories a) ;;
  dilations <- dilation_schedule (Args.n_layers a) (Args.dil_factor a) ;;
  let d_h := if Args.slim a then Args.hidden_dim a / 2 else Args.hidden_dim a in
  '(adjuster, g) <- PositionFeedForward_init g (Args.input_dim a)
                      (Args.hidden_dim a) use_spectral_norm ;;
  '(antigen_adjuster, g) <-
     match Args.antigen_dim a with
     | Some antigen_dim =>
         '(p, g) <- PositionFeedForward_init g antigen_dim (Args.hidden_dim a)
                      use_spectral_norm ;;
         Ok (Some p, g)
     | None => Ok (None, g)
     end ;;
  '(antibody_layers, g) <- build_blocks g (Args.hidden_dim a) d_h
                             (Args.kernel_size a) use_spectral_norm dilations ;;
  '(antigen_layers, g) <- build_blocks g (Args.hidden_dim a) d_h
                            (Args.kernel_size a) use_spectral_norm dilations ;;
  '(down_adjuster, g) <- PositionFeedForward_init g (Args.hidden_dim a)
                           (Args.rep_dim a) use_spectral_norm ;;
  '(final_lnorm, g) <- LayerNorm_init g (Args.rep_dim a) ;;
  out_layer <-
    (if Args.llgp a then
       Ok (HeadRFF (VanillaRFFLayer_init (Args.rep_dim a) 1024 1 (999 # 1000)
                      (1 # 1000) likelihood 123))
     else
       '(lin, _) <- Linear_init g (Args.rep_dim a) nclasses ;;
       Ok (if use_spectral_norm then HeadLinear (SpectralNorm_linear lin)
           else HeadLinear lin)) ;;
  Ok {| objective := Args.objective a;
        adjuster := adjuster;
        antigen_adjuster := antigen_adjuster;
        antibody_layers := antibody_layers;
        antigen_layers := antigen_layers;
        down_adjuster := down_adjuster;
        final_lnorm := final_lnorm;
        out_layer := out_layer;
        dropout := Args.dropout a;
        llgp := Args.llgp a;
        training := true |}.

(** [self.dropout > 0.0] *)
Definition positive_rate (p : Q) : bool := negb (Qle_bool p 0).

(** The loop of lines 262-265. *)
Fixpoint apply_layers (layers : list ByteNetBlock) (rate : Q) (train : bool)
         (x : tensor) : result tensor :=
  match layers with
  | [] => Ok x
  | layer :: rest =>
      y <- ByteNetBlock_forward layer x ;;
      z <- (if positive_rate rate && train then F_dropout y rate else Ok y) ;;
      apply_layers rest rate train z
  end.

(** Lines 260-268: the encoder tower, from the input to the pooled
    representation. *)
Definition encoder_tower (self : ByteNetPairedSeqs) (x_antibody : tensor)
  : result tensor :=
  x <- PositionFeedForward_forward (adjuster self) x_antibody ;;
  x <- apply_layers (antibody_layers self) (dropout self) (training self) x ;;
  x <- PositionFeedForward_forward (down_adjuster self) x ;;
  m <- mean x 1 ;;
  LayerNorm_forward (final_lnorm self) m.

Definition set_out_layer (self : ByteNetPairedSeqs) (ol : OutLayer)
  : ByteNetPairedSeqs :=
  {| objective := objective self;
     adjuster := adjuster self;
     antigen_adjuster := antigen_adjuster self;
     antibody_layers := antibody_layers self;
     antigen_layers := antigen_layers self;
     down_adjuster := down_adjuster self;
     final_lnorm := final_lnorm self;
     out_layer := ol;
     dropout := dropout self;
     llgp := llgp self;
     training := training self |}.

(** [self.eval()] *)
Definition eval (self : ByteNetPairedSeqs) : ByteNetPairedSeqs :=
  {| objective := objective self;
     adjuster := adjuster self;
     antigen_adjuster := antigen_adjuster self;
     antibody_layers := antibody_layers self;
     antigen_layers := antigen_layers self;
     down_adjuster := down_adjuster self;
     final_lnorm := final_lnorm self;
     out_layer := out_layer self;
     dropout := dropout self;
     llgp := llgp self;
     training := false |}.

(** What [forward] returns: one tensor, or a prediction and a variance. *)
Inductive forward_ret : Type :=
| Preds (preds : tensor)
| PredsVar (preds var : tensor).

Definition no_args : HeadArgs :=
  {| arg_update_precision := None; arg_get_var := None |}.
Definition positional (update_precision : bool) : HeadArgs :=
  {| arg_update_precision := Some update_precision; arg_get_var := None |}.
Definition keyword_get_var (get_var : bool) : HeadArgs :=
  {| arg_update_precision := None; arg_get_var := Some get_var |}.

(** Lines 270-294.  The head may update its own state, so the model is
    returned with the prediction. *)
Definition ByteNetPairedSeqs_forward (self : ByteNetPairedSeqs)
           (x_antibody : tensor) (update_precision get_var : bool)
  : result (forward_ret * ByteNetPairedSeqs) :=
  x <- encoder_tower self x_antibody ;;
  if String.eqb (objective self) "regression" then
    if llgp self then
      if get_var then
        '(r, ol) <- OutLayer_call (out_layer self) x (keyword_get_var get_var) ;;
        '(preds, var) <- unpack_pair r ;;
        p <- squeeze preds 1 ;;
        Ok (PredsVar p var, set_out_layer self ol)
      else
        '(r, ol) <- OutLayer_call (out_layer self) x
                      (positional update_precision) ;;
        preds <- as_tensor r ;;
        p <- squeeze preds 1 ;;
        Ok (Preds p, set_out_layer self ol)
    else
      '(r, ol) <- OutLayer_call (out_layer self) x no_args ;;
      preds <- as_tensor r ;;
      p <- squeeze preds 1 ;;
      Ok (Preds p, set_out_layer self ol)
  else if String.eqb (objective self) "binary_classifier" then
    '(r, ol) <- OutLayer_call (out_layer self) x
                  (if llgp self then positional update_precision else no_args) ;;
    preds <- as_tensor r ;;
    p <- squeeze preds 1 ;;
    Ok (Preds (sigmoid p), set_out_layer self ol)
  else if String.eqb (objective self) "multiclass" then
    '(r, ol) <- OutLayer_call (out_layer self) x
                  (if llgp self then positional update_precision else no_args) ;;
    preds <- as_tensor r ;;
    Ok (Preds (softmax preds), set_out_layer self ol)
  else Raise (RuntimeError msg_invalid_task).

(** What [predict] returns, as numpy arrays. *)
Inductive predict_ret : Type :=
| Scores (scores : ndarray)
| ScoresVar (scores var : ndarray).

(** Lines 323-331. *)
Definition ByteNetPairedSeqs_predict (self : ByteNetPairedSeqs) (x : ndarray)
           (get_var : bool) : result (predict_ret * ByteNetPairedSeqs) :=
  let self := eval self in
  x <- from_numpy_float x ;;
  let x := to_device_of (conv_weight (pff_conv (adjuster self))) x in
  if llgp self && get_var && String.eqb (objective self) "regression" then
    '(r, self') <- ByteNetPairedSeqs_forward self x false get_var ;;
    match r with
    | PredsVar preds var => Ok (ScoresVar (cpu_numpy preds) (cpu_numpy var), self')
    | Preds _ => Raise ValueError
    end
  else
    '(r, self') <- ByteNetPairedSeqs_forward self x false false ;;
    match r with
    | Preds preds => Ok (Scores (cpu_numpy preds), self')
    | PredsVar _ _ => Raise AttributeError
    end.

End Model.

(** ** The shape interpretation of the runtime *)

(** What the shape interpretation leaves open: the truncated logarithm
    where it depends on the rounding of float64, and what a layer of width
    0 returns (torch constructs such a layer). *)
Class Unmodelled : Type := {
  log2_far : pynum -> Z;
  conv1d_zero : Conv1dConfig -> list Z -> result (list Z);
  layer_norm_zero : list Z -> result (list Z);
  linear_zero : Z -> Z -> list Z -> result (list Z)
}.

(** A tensor is its shape; parameters and the generator carry nothing; the
    state of the GP head is the number of precision updates it has seen.
    Each primitive follows the shape rule of the library call and raises
    where the call raises on the shape. *)
Module Shape.

Definition shape_error : pyerr := RuntimeError "shape mismatch".

Definition rank (s : list Z) : Z := Z.of_nat (List.length s).

(** A dimension index, negative ones counted from the end. *)
Definition norm_dim (s : list Z) (d : Z) : result nat :=
  if (0 <=? d) && (d <? rank s) then Ok (Z.to_nat d)
  else if (- rank s <=? d) && (d <? 0) then Ok (Z.to_nat (d + rank s))
  else Raise IndexError.

Fixpoint remove_nth (n : nat) (s : list Z) : list Z :=
  match s, n with
  | [], _ => []
  | _ :: r, O => r
  | x :: r, S n' => x :: remove_nth n' r
  end.

Fixpoint set_nth (n : nat) (v : Z) (s : list Z) : list Z :=
  match s, n with
  | [], _ => []
  | _ :: r, O => v :: r
  | x :: r, S n' => x :: set_nth n' v r
  end.

Definition transpose (s : list Z) (d0 d1 : Z) : result (list Z) :=
  i <- norm_dim s d0 ;;
  j <- norm_dim s d1 ;;
  Ok (set_nth i (nth j s 0) (set_nth j (nth i s 0) s)).

(** Length of the output of a 1-d convolution of positive stride. *)
Definition conv_out_length (l k stride p d : Z) : result Z :=
  if l + 2 * p <? d * (k - 1) + 1
  then Raise (RuntimeError "kernel size greater than input size")
  else Ok ((l + 2 * p - d * (k - 1) - 1) / stride + 1).

(** The checks of a convolution on an input of [ch] channels and length
    [l], in the order torch makes them, and the length of the output.  The
    weight has [out_channels] rows, which may not be fewer than the
    groups. *)
Definition conv_checks (c : Conv1dConfig) (p d ch l : Z) : result Z :=
  if p <? 0 then Raise (RuntimeError "negative padding")
  else if stride c <=? 0 then Raise (RuntimeError "non-positive stride")
  else if d <=? 0 then Raise (RuntimeError "non-positive dilation")
  else if groups c <=? 0 then Raise (RuntimeError "non-positive groups")
  else if out_channels c <? groups c then Raise shape_error
  else if negb (ch =? in_channels c) then Raise shape_error
  else conv_out_length l (kernel_size c) (stride c) p d.

Definition conv1d {U : Unmodelled} (c : Conv1dConfig) (_ : bool) (_ : unit)
           (s : list Z) : result (list Z) :=
  match padding c, dilation c with
  | PyInt p, PyInt d =>
      match s with
      | [n; ch; l] =>
          l' <- conv_checks c p d ch l ;;
          if ch =? 0 then conv1d_zero c s else Ok [n; out_channels c; l']
      | [ch; l] =>
          l' <- conv_checks c p d ch l ;;
          if ch =? 0 then conv1d_zero c s else Ok [out_channels c; l']
      | _ => Raise shape_error
      end
  | _, _ => Raise TypeError
  end.

Definition last_dim (s : list Z) : option Z :=
  match rev s with
  | [] => None
  | x :: _ => Some x
  end.

Definition layer_norm {U : Unmodelled} (d : Z) (_ : unit) (s : list Z)
  : result (list Z) :=
  match last_dim s with
  | Some x => if x =? d then (if d =? 0 then layer_norm_zero s else Ok s)
              else Raise shape_error
  | None => Raise shape_error
  end.

(** Broadcasting of two shapes, given last dimension first. *)
Fixpoint broadcast_rev (a b : list Z) : result (list Z) :=
  match a, b with
  | [], _ => Ok b
  | _, [] => Ok a
  | x :: a', y :: b' =>
      if x =? y then r <- broadcast_rev a' b' ;; Ok (x :: r)
      else if x =? 1 then r <- broadcast_rev a' b' ;; Ok (y :: r)
      else if y =? 1 then r <- broadcast_rev a' b' ;; Ok (x :: r)
      else Raise shape_error
  end.

Definition tensor_add (a b : list Z) : result (list Z) :=
  r <- broadcast_rev (rev a) (rev b) ;; Ok (rev r).

Definition mean (s : list Z) (d : Z) : result (list Z) :=
  i <- norm_dim s d ;; Ok (remove_nth i s).

Definition linear {U : Unmodelled} (d_in d_out : Z) (_ : bool) (_ : unit)
           (s : list Z) : result (list Z) :=
  match last_dim s with
  | Some x => if x =? d_in
              then (if (d_in =? 0) || (d_out =? 0) then linear_zero d_in d_out s
                    else Ok ((removelast s ++ [d_out])%list))
              else Raise shape_error
  | None => Raise shape_error
  end.

Definition squeeze (s : list Z) (d : Z) : result (list Z) :=
  i <- norm_dim s d ;;
  if nth i s 0 =? 1 then Ok (remove_nth i s) else Ok s.

Definition F_dropout (s : list Z) (p : Q) : result (list Z) :=
  if Qle_bool 0 p && Qle_bool p 1 then Ok s else Raise ValueError.

(** Modelled from the spec: the shapes of what [VanillaRFFLayer.forward]
    returns.  The head maps a batch of representations to [out_targets]
    values per row, and gives one variance per row. *)
Definition rff_predict (c : RFFConfig) (_ : Z) (s : list Z)
  : result (list Z) :=
  match s with
  | [b; f] => if f =? in_features c then Ok [b; out_targets c]
              else Raise shape_error
  | _ => Raise shape_error
  end.

(** Modelled from the spec: the variance of [VanillaRFFLayer.forward],
    of shape [(batch,)]. *)
Definition rff_variance (c : RFFConfig) (_ : Z) (s : list Z)
  : result (list Z) :=
  match s with
  | [b; f] => if f =? in_features c then Ok [b] else Raise shape_error
  | _ => Raise shape_error
  end.

End Shape.

#[export] Instance ShapeRT {U : Unmodelled} : Torch := {|
  tensor := list Z;
  ndarray := list Z;
  param := unit;
  generator := unit;
  gp_state := Z;
  manual_seed := fun _ => tt;
  new_param := fun g _ => (tt, g);
  np_log2_far := log2_far;
  transpose := Shape.transpose;
  conv1d := Shape.conv1d;
  layer_norm := Shape.layer_norm;
  gelu := fun s => s;
  tensor_add := Shape.tensor_add;
  mean := Shape.mean;
  linear := Shape.linear;
  squeeze := Shape.squeeze;
  sigmoid := fun s => s;
  softmax := fun s => s;
  F_dropout := Shape.F_dropout;
  from_numpy_float := fun s => Ok s;
  to_device_of := fun _ s => s;
  cpu_numpy := fun s => s;
  rff_new := fun _ => 0;
  rff_predict := Shape.rff_predict;
  rff_update_precision := fun _ n _ => n + 1;
  rff_variance := Shape.rff_variance
|}.

(** One choice of the open parts, for the examples, none of which reaches
    them: the floor of the exact logarithm, and an error for a layer of
    width 0. *)
Definition open_parts_example : Unmodelled :=
  {| log2_far := fun x => Z.log2 (Qfloor (pynum_value x));
     conv1d_zero := fun _ _ => Raise Shape.shape_error;
     layer_norm_zero := fun _ => Raise Shape.shape_error;
     linear_zero := fun _ _ _ => Raise Shape.shape_error |}.

#[export] Existing Instance open_parts_example.

(** The shape of what [forward] returns, without the model. *)
Definition returned {A B : Type} (r : result (A * B)) : result A :=
  match r with
  | Ok (a, _) => Ok a
  | Raise e => Raise e
  end.

(** Construct, then run [forward]. *)
Definition construct_and_forward {RT : Torch} (a : Args.t) (x : tensor)
           (update_precision get_var : bool) : result forward_ret :=
  m <- ByteNetPairedSeqs_init a ;;
  returned (ByteNetPairedSeqs_forward m x update_precision get_var).

(** ** Structure of the constructed layers *)

(** The configuration of a position-wise feed-forward from [d_in] to
    [d_out]: a convolution of width 1. *)
Definition pff_cfg (d_in d_out : Z) : Conv1dConfig :=
  {| in_channels := d_in; out_channels := d_out; kernel_size := 1;
     stride := 1; padding := PyInt 0; dilation := PyInt 1; groups := 1;
     bias := true |}.

Definition pff_spec {RT : Torch} (d_in d_out : Z) (p : PositionFeedForward)
  : Prop :=
  conv_cfg (pff_conv p) = pff_cfg d_in d_out.

(** The stages of a block from [d_in] through [d_h] to [d_out] with a
    convolution of configuration [cc]. *)
Definition block_spec {RT : Torch} (d_in d_h d_out : Z) (cc : Conv1dConfig)
           (b : ByteNetBlock) : Prop :=
  exists ln1 ff1 ln2 ln3 ff2,
    sequence1 b = [StLayerNorm ln1; StGELU; StPositionFeedForward ff1;
                   StLayerNorm ln2; StGELU] /\
    sequence2 b = [StLayerNorm ln3; StGELU; StPositionFeedForward ff2] /\
    normalized_shape ln1 = d_in /\ pff_spec d_in d_h ff1 /\
    normalized_shape ln2 = d_h /\ conv_cfg (bnb_conv b) = cc /\
    normalized_shape ln3 = d_h /\ pff_spec d_h d_out ff2.

(** The configuration [ConvLayer.__init__] gives a convolution of stride
    1, for an int dilation. *)
Definition conv_layer_cfg (c_in c_out kernel_size d groups : Z)
  : Conv1dConfig :=
  {| in_channels := c_in; out_channels := c_out; kernel_size := kernel_size;
     stride := 1; padding := PyInt (d * (kernel_size - 1) / 2);
     dilation := PyInt d; groups := groups; bias := true |}.

(** Two models that agree on everything but the antigen adjuster and the
    antigen layers. *)
Definition agree_except_antigen {RT : Torch} (m1 m2 : ByteNetPairedSeqs)
  : Prop :=
  objective m1 = objective m2 /\ adjuster m1 = adjuster m2 /\
  antibody_layers m1 = antibody_layers m2 /\
  down_adjuster m1 = down_adjuster m2 /\ final_lnorm m1 = final_lnorm m2 /\
  out_layer m1 = out_layer m2 /\ dropout m1 = dropout m2 /\
  llgp m1 = llgp m2 /\ training m1 = training m2.

(** ** Example configurations *)

Definition args_ex (k : Z) (dil : pynum) (gp : bool) (obj : string) (c : Z)
  : Args.t :=
  {| Args.input_dim := 21; Args.hidden_dim := 16; Args.n_layers := 5;
     Args.kernel_size := k; Args.dil_factor := dil; Args.rep_dim := 10;
     Args.dropout := 0%Q; Args.slim := true; Args.llgp := gp;
     Args.antigen_dim := Some 7; Args.objective := obj;
     Args.num_predicted_categories := c |}.

(** Construct, then run the encoder tower. *)
Definition construct_and_encode {RT : Torch} (a : Args.t) (x : tensor)
  : result tensor :=
  m <- ByteNetPairedSeqs_init a ;;
  encoder_tower m x.

(** A block alone, constructed and run on an input. *)
Definition construct_block_and_forward {RT : Torch} (d_in d_h d_out k : Z)
           (dil : pynum) (groups : Z) (sn : bool) (x : tensor)
  : result tensor :=
  '(b, _) <- ByteNetBlock_init (manual_seed 123) d_in d_h d_out k dil groups sn ;;
  ByteNetBlock_forward b x.

(** A convolution layer alone, constructed and run on an input. *)
Definition construct_conv_and_forward {RT : Torch} (c_in c_out k : Z)
           (dil : pynum) (x : tensor) : result tensor :=
  '(c, _) <- ConvLayer_init (manual_seed 123) c_in c_out k 1 dil 1 true ;;
  ConvLayer_forward c x.

(** What a successful construction yields. *)
Record constructed {RT : Torch} (a : Args.t) (nclasses : Z) (lik : string)
       (dilations : list pynum) (m : ByteNetPairedSeqs) : Prop := {
  c_objective : objective m = Args.objective a;
  c_adjuster : pff_spec (Args.input_dim a) (Args.hidden_dim a) (adjuster m);
  c_dilations :
    map (fun b => dilation (conv_cfg (bnb_conv b))) (antibody_layers m)
    = dilations;
  c_layers :
    Forall2 (fun b dil => forall d, dil = PyInt d ->
               block_spec (Args.hidden_dim a)
                 (if Args.slim a then Args.hidden_dim a / 2
                  else Args.hidden_dim a)
                 (Args.hidden_dim a)
                 (conv_layer_cfg
                    (if Args.slim a then Args.hidden_dim a / 2
                     else Args.hidden_dim a)
                    (if Args.slim a then Args.hidden_dim a / 2
                     else Args.hidden_dim a) (Args.kernel_size a) d 1) b)
            (antibody_layers m) dilations;
  c_down : pff_spec (Args.hidden_dim a) (Args.rep_dim a) (down_adjuster m);
  c_lnorm : normalized_shape (final_lnorm m) = Args.rep_dim a;
  c_head :
    if Args.llgp a then
      out_layer m = HeadRFF (VanillaRFFLayer_init (Args.rep_dim a) 1024 1
                               (999 # 1000) (1 # 1000) lik 123)
    else exists l, out_layer m = HeadLinear l /\
                   lin_in l = Args.rep_dim a /\ lin_out l = nclasses;
  c_dropout : dropout m = Args.dropout a;
  c_llgp : llgp m = Args.llgp a;
  c_training : training m = true
}.

(** An objective that is none of the three the constructor knows. *)
Definition unknown_objective (obj : string) : Prop :=
  obj <> "regression" /\ obj <> "binary_classifier" /\ obj <> "multiclass".

(** The width of the blocks: [d_h] of line 196-198. *)
Definition block_width (a : Args.t) : Z :=
  if Args.slim a then Args.hidden_dim a / 2 else Args.hidden_dim a.

(** Every width of the model is positive. *)
Definition widths_positive (a : Args.t) : Prop :=
  1 <= Args.input_dim a /\ 1 <= Args.hidden_dim a /\ 1 <= block_width a /\
  1 <= Args.rep_dim a /\
  match Args.antigen_dim a with Some d => 1 <= d | None => True end.

(** The conditions under which the tower is shown to pool to
    [(B, rep_dim)]: an int growth factor from 1 to below [2 ^ 47], an odd
    kernel, a dropout rate of at most 1 and positive widths. *)
Definition tower_ready (a : Args.t) : Prop :=
  (exists d, Args.dil_factor a = PyInt d /\ 1 <= d < 2 ^ 47) /\
  1 <= Args.kernel_size a /\ Z.odd (Args.kernel_size a) = true /\
  Qle_bool (Args.dropout a) 1 = true /\
  widths_positive a.


(** ** Example models *)

(** The smallest model: what [ByteNetPairedSeqs(1, 1, 0, 1, 1, rep_dim=1)]
    constructs, no block and every width 1. *)
Definition unit_args : Args.t :=
  {| Args.input_dim := 1; Args.hidden_dim := 1; Args.n_layers := 0;
     Args.kernel_size := 1; Args.dil_factor := PyInt 1; Args.rep_dim := 1;
     Args.dropout := 0%Q; Args.slim := false; Args.llgp := false;
     Args.antigen_dim := None; Args.objective := "regression";
     Args.num_predicted_categories := 1 |}.

Definition unit_pff {U : Unmodelled} : PositionFeedForward (RT := ShapeRT) :=
  {| pff_conv := {| conv_cfg := pff_cfg 1 1; conv_weight := tt;
                    conv_spectral := false |};
     factorized := false |}.

Definition unit_model {U : Unmodelled} : ByteNetPairedSeqs (RT := ShapeRT) :=
  {| objective := "regression"; adjuster := unit_pff;
     antigen_adjuster := None;
     antibody_layers := []; antigen_layers := [];
     down_adjuster := unit_pff;
     final_lnorm := {| normalized_shape := 1; ln_weight := tt |};
     out_layer := HeadLinear {| lin_in := 1; lin_out := 1; lin_weight := tt;
                                lin_spectral := false |};
     dropout := 0%Q; llgp := false; training := true |}.

(** The model a construction yields, for use in examples (the smallest
    model where the construction raises). *)
Definition constructed_model {U : Unmodelled} (a : Args.t)
  : ByteNetPairedSeqs (RT := ShapeRT) :=
  match ByteNetPairedSeqs_init a with
  | Ok m => m
  | Raise _ => unit_model
  end.

(** A regression model with the GP head, and its head. *)
Definition model_gp {U : Unmodelled} : ByteNetPairedSeqs (RT := ShapeRT) :=
  constructed_model (args_ex 3 (PyInt 4) true "regression" 1).

Definition head_gp {U : Unmodelled} : VanillaRFFLayer (RT := ShapeRT) :=
  VanillaRFFLayer_init 10 1024 1 (999 # 1000) (1 # 1000) "Gaussian" 123.

(** A model with its antigen adjuster and antigen layers taken away. *)
Definition without_antigen {RT : Torch} (m : ByteNetPairedSeqs)
  : ByteNetPairedSeqs :=
  {| objective := objective m; adjuster := adjuster m;
     antigen_adjuster := None; antibody_layers := antibody_layers m;
     antigen_layers := []; down_adjuster := down_adjuster m;
     final_lnorm := final_lnorm m; out_layer := out_layer m;
     dropout := dropout m; llgp := llgp m; training := training m |}.

(** ** Further definitions for the properties of the whole module *)

(** A model with another dropout rate. *)
Definition with_dropout {RT : Torch} (m : ByteNetPairedSeqs) (p : Q)
  : ByteNetPairedSeqs :=
  {| objective := objective m; adjuster := adjuster m;
     antigen_adjuster := antigen_adjuster m;
     antibody_layers := antibody_layers m;
     antigen_layers := antigen_layers m; down_adjuster := down_adjuster m;
     final_lnorm := final_lnorm m; out_layer := out_layer m;
     dropout := p; llgp := llgp m; training := training m |}.

(** The convolution of a block, and the projections around it. *)
Definition block_built {RT : Torch} (d_in d_h d_out k grp : Z) (dil : pynum) (sn : bool)
           (b : ByteNetBlock) : Prop :=
  in_channels (conv_cfg (bnb_conv b)) = d_h /\
  out_channels (conv_cfg (bnb_conv b)) = d_h /\
  kernel_size (conv_cfg (bnb_conv b)) = k /\
  stride (conv_cfg (bnb_conv b)) = 1 /\
  dilation (conv_cfg (bnb_conv b)) = dil /\
  groups (conv_cfg (bnb_conv b)) = grp /\
  conv_spectral (bnb_conv b) = sn /\
  py_floordiv_int (py_mul_int dil (k - 1)) 2
  = Ok (padding (conv_cfg (bnb_conv b))) /\
  bias (conv_cfg (bnb_conv b)) = true /\
  exists ln1 ff1 ln2 ln3 ff2,
    sequence1 b = [StLayerNorm ln1; StGELU; StPositionFeedForward ff1;
                   StLayerNorm ln2; StGELU] /\
    sequence2 b = [StLayerNorm ln3; StGELU; StPositionFeedForward ff2] /\
    pff_spec d_in d_h ff1 /\ conv_spectral (pff_conv ff1) = sn /\
    pff_spec d_h d_out ff2 /\ conv_spectral (pff_conv ff2) = sn /\
    normalized_shape ln1 = d_in /\ normalized_shape ln2 = d_h /\
    normalized_shape ln3 = d_h.

(** Everything the constructor puts in the model. *)
Record built {RT : Torch} (a : Args.t) (nclasses : Z) (lik : string)
       (dilations : list pynum) (m : ByteNetPairedSeqs) : Prop := {
  b_adjuster : pff_spec (Args.input_dim a) (Args.hidden_dim a) (adjuster m) /\
               conv_spectral (pff_conv (adjuster m)) = Args.llgp a;
  b_antigen_adjuster :
    match Args.antigen_dim a, antigen_adjuster m with
    | Some d, Some p => pff_spec d (Args.hidden_dim a) p /\
                        conv_spectral (pff_conv p) = Args.llgp a
    | None, None => True
    | _, _ => False
    end;
  b_antibody :
    Forall2 (fun b dil => block_built (Args.hidden_dim a) (block_width a)
                            (Args.hidden_dim a) (Args.kernel_size a) 1 dil
                            (Args.llgp a) b)
            (antibody_layers m) dilations;
  b_antigen :
    Forall2 (fun b dil => block_built (Args.hidden_dim a) (block_width a)
                            (Args.hidden_dim a) (Args.kernel_size a) 1 dil
                            (Args.llgp a) b)
            (antigen_layers m) dilations;
  b_down : pff_spec (Args.hidden_dim a) (Args.rep_dim a) (down_adjuster m) /\
           conv_spectral (pff_conv (down_adjuster m)) = Args.llgp a;
  b_head :
    if Args.llgp a then
      out_layer m = HeadRFF (VanillaRFFLayer_init (Args.rep_dim a) 1024 1
                               (999 # 1000) (1 # 1000) lik 123)
    else exists l, out_layer m = HeadLinear l /\
                   lin_in l = Args.rep_dim a /\ lin_out l = nclasses /\
                   lin_spectral l = false;
  b_lnorm : normalized_shape (final_lnorm m) = Args.rep_dim a;
  b_objective : objective m = Args.objective a;
  b_dropout : dropout m = Args.dropout a;
  b_llgp : llgp m = Args.llgp a;
  b_training : training m = true
}.

(** The exception [int(np.log2(x))] raises for an [x] that is not
    positive. *)
Definition log2_error (x : pynum) : pyerr :=
  match x with
  | PyInt z => if z <? - 2 ^ 63 then TypeError
               else if z =? 0 then OverflowError else ValueError
  | PyFloat q => if Qnum q =? 0 then OverflowError else ValueError
  end.

(** An int that numpy takes neither as int64 nor as uint64. *)
Definition beyond_int64 (x : pynum) : Prop :=
  match x with
  | PyInt z => z < - 2 ^ 63 \/ 2 ^ 64 <= z
  | PyFloat _ => False
  end.

(** The sizes the constructor allocates are not negative. *)
Definition sizes_nonnegative (a : Args.t) : Prop :=
  0 <= Args.input_dim a /\ 0 <= Args.hidden_dim a /\ 0 <= Args.rep_dim a /\
  0 <= Args.kernel_size a /\
  match Args.antigen_dim a with Some d => 0 <= d | None => True end.

(** How a block was configured. *)
Definition block_configured {RT : Torch} (a : Args.t) (b : ByteNetBlock) : Prop :=
  in_channels (conv_cfg (bnb_conv b)) = block_width a /\
  out_channels (conv_cfg (bnb_conv b)) = block_width a /\
  kernel_size (conv_cfg (bnb_conv b)) = Args.kernel_size a /\
  stride (conv_cfg (bnb_conv b)) = 1 /\
  groups (conv_cfg (bnb_conv b)) = 1 /\
  conv_spectral (bnb_conv b) = Args.llgp a /\
  exists ln1 ff1 ln2 ln3 ff2,
    sequence1 b = [StLayerNorm ln1; StGELU; StPositionFeedForward ff1;
                   StLayerNorm ln2; StGELU] /\
    sequence2 b = [StLayerNorm ln3; StGELU; StPositionFeedForward ff2] /\
    pff_spec (Args.hidden_dim a) (block_width a) ff1 /\
    conv_spectral (pff_conv ff1) = Args.llgp a /\
    pff_spec (block_width a) (Args.hidden_dim a) ff2 /\
    conv_spectral (pff_conv ff2) = Args.llgp a.

(** Arguments of a regression model with the linear head and with the GP
    head, of a binary classifier and of a multiclass model. *)
Definition args_lin : Args.t := args_ex 3 (PyInt 4) false "regression" 1.
Definition args_gp : Args.t := args_ex 3 (PyInt 4) true "regression" 1.
Definition args_bin : Args.t := args_ex 3 (PyInt 4) true "binary_classifier" 1.
Definition args_multi : Args.t := args_ex 3 (PyInt 4) false "multiclass" 4.

Definition model_lin {U : Unmodelled} : ByteNetPairedSeqs (RT := ShapeRT) :=
  constructed_model args_lin.

(** A configuration without an antigen input, and its model. *)
Definition args_no_antigen : Args.t :=
  Args.default 21 16 5 3 (PyInt 4).

Definition model_no_antigen {U : Unmodelled}
  : ByteNetPairedSeqs (RT := ShapeRT) :=
  constructed_model args_no_antigen.

Definition model_multi {U : Unmodelled} : ByteNetPairedSeqs (RT := ShapeRT) :=
  constructed_model args_multi.


(** No layer of the model is spectrally normalised, and the head is a
    linear layer. *)
Definition block_plain {RT : Torch} (b : ByteNetBlock) : Prop :=
  conv_spectral (bnb_conv b) = false /\
  Forall (fun s => match s with
                   | StPositionFeedForward p =>
                       conv_spectral (pff_conv p) = false
                   | _ => True
                   end) (sequence1 b ++ sequence2 b).

Definition spectral_free {RT : Torch} (m : ByteNetPairedSeqs) : Prop :=
  llgp m = false /\
  conv_spectral (pff_conv (adjuster m)) = false /\
  Forall block_plain (antibody_layers m) /\
  conv_spectral (pff_conv (down_adjuster m)) = false /\
  exists l, out_layer m = HeadLinear l /\ lin_spectral l = false.

(** * Properties *)

(** ** The error monad *)

Lemma bind_Ok_inv {A B : Type} (r : result A) (k : A -> result B) (b : B) :
  bind r k = Ok b -> exists a, r = Ok a /\ k a = Ok b.
Proof.
  destruct r as [a|e]; simpl; intros H; [eauto | discriminate].
Qed.

Lemma mapM_pointwise {A B : Type} (f : A -> result B) (h : A -> B)
      (l : list A) :
  (forall x, In x l -> f x = Ok (h x)) -> mapM f l = Ok (map h l).
Proof.
  induction l as [|a l IH]; intros Hf; simpl; [reflexivity|].
  rewrite (Hf a (or_introl eq_refl)); simpl.
  rewrite IH; [reflexivity|].
  intros x Hx. apply Hf. now right.
Qed.

Lemma mapM_raise {A B : Type} (f : A -> result B) (l : list A) (e : pyerr) :
  mapM f l = Raise e -> exists x, In x l /\ f x = Raise e.
Proof.
  induction l as [|a l IH]; simpl; [discriminate|].
  destruct (f a) as [b|e0] eqn:Hfa; simpl.
  - destruct (mapM f l) as [bs|e1]; simpl; [discriminate|].
    intros [= <-]. destruct (IH eq_refl) as (x & Hx & Hfx). eauto.
  - intros [= <-]. eauto.
Qed.

Lemma mapM_length {A B : Type} (f : A -> result B) (l : list A) (r : list B) :
  mapM f l = Ok r -> List.length r = List.length l.
Proof.
  revert r. induction l as [|a l IH]; simpl; intros r.
  - now intros [= <-].
  - destruct (f a) as [b|e]; simpl; [|discriminate].
    destruct (mapM f l) as [bs|e]; simpl; [|discriminate].
    intros [= <-]. simpl. now rewrite (IH bs eq_refl).
Qed.

(** ** The dilation schedule *)

Lemma py_range_length (n : Z) :
  0 <= n -> Z.of_nat (List.length (py_range n)) = n.
Proof.
  intros Hn. unfold py_range.
  rewrite length_map, length_seq. lia.
Qed.

Lemma py_range_nth (n i : Z) :
  0 <= i < n -> nth_error (py_range n) (Z.to_nat i) = Some i.
Proof.
  intros Hi. unfold py_range.
  rewrite nth_error_map, nth_error_seq.
  destruct (Nat.ltb_spec (Z.to_nat i) (Z.to_nat n)) as [_|Hge]; [|lia].
  simpl. f_equal. lia.
Qed.

Lemma py_pow2_nonneg (e : Z) : 0 <= e -> py_pow2 e = PyInt (2 ^ e).
Proof.
  intros He. unfold py_pow2.
  destruct (Z.leb_spec 0 e); [reflexivity|lia].
Qed.

Lemma pow2_mod_period_le (d n : Z) :
  1 <= d -> 2 ^ (n mod (Z.log2 d + 1)) <= d.
Proof.
  intros Hd.
  pose proof (Z.log2_nonneg d) as Hl.
  assert (Hm : 0 <= n mod (Z.log2 d + 1) < Z.log2 d + 1)
    by (apply Z.mod_pos_bound; lia).
  apply Z.le_trans with (2 ^ Z.log2 d).
  - apply Z.pow_le_mono_r; lia.
  - apply Z.log2_spec. lia.
Qed.

Section Schedule.
Context {RT : Torch}.

Lemma int_np_log2_int_pos (d : Z) :
  1 <= d < 2 ^ 47 -> int_np_log2 (PyInt d) = Ok (Z.log2 d).
Proof.
  intros Hd. unfold int_np_log2.
  destruct (Z.ltb_spec d (- 2 ^ 63)) as [?|_]; [lia|].
  destruct (Z.leb_spec (2 ^ 64) d) as [?|_]; [lia|]. cbn [orb].
  destruct (Z.eqb_spec d 0) as [?|_]; [lia|].
  destruct (Z.ltb_spec d 0) as [?|_]; [lia|].
  destruct (Z.ltb_spec d (2 ^ 47)) as [_|?]; [reflexivity|lia].
Qed.

Lemma int_np_log2_nonpositive (x : pynum) :
  (pynum_value x <= 0)%Q -> int_np_log2 x = Raise (log2_error x).
Proof.
  destruct x as [z|q]; unfold int_np_log2, log2_error; cbn [pynum_value].
  - intros Hz. assert (z <= 0).
    { unfold Qle, inject_Z in Hz. simpl in Hz. lia. }
    destruct (Z.ltb_spec z (- 2 ^ 63)) as [?|?]; [reflexivity|].
    destruct (Z.leb_spec (2 ^ 64) z) as [?|_]; [lia|]. cbn [orb].
    destruct (Z.eqb_spec z 0) as [?|?]; [reflexivity|].
    destruct (Z.ltb_spec z 0) as [_|?]; [reflexivity|lia].
  - intros Hq. assert (Qnum q <= 0).
    { unfold Qle in Hq. simpl in Hq. lia. }
    destruct (Z.eqb_spec (Qnum q) 0) as [?|?]; [reflexivity|].
    destruct (Z.ltb_spec (Qnum q) 0) as [_|?]; [reflexivity|lia].
Qed.

(** The errors of the truncated logarithm, by the argument. *)
Lemma int_np_log2_raise (x : pynum) (e : pyerr) :
  int_np_log2 x = Raise e ->
  (e = TypeError /\ beyond_int64 x) \/
  (e = OverflowError /\ Qnum (pynum_value x) = 0 /\ ~ beyond_int64 x) \/
  (e = ValueError /\ Qnum (pynum_value x) < 0 /\ ~ beyond_int64 x).
Proof.
  destruct x as [z|q]; unfold int_np_log2, beyond_int64; cbn [pynum_value].
  - change (Qnum (inject_Z z)) with z.
    destruct (Z.ltb_spec z (- 2 ^ 63)) as [?|?];
      [intros [= <-]; left; split; [reflexivity|lia]|].
    destruct (Z.leb_spec (2 ^ 64) z) as [?|?];
      [intros [= <-]; left; split; [reflexivity|lia]|].
    cbn [orb].
    destruct (Z.eqb_spec z 0) as [?|?];
      [intros [= <-]; right; left; repeat split; lia|].
    destruct (Z.ltb_spec z 0) as [?|?];
      [intros [= <-]; right; right; repeat split; lia|].
    destruct (z <? 2 ^ 47); discriminate.
  - destruct (Z.eqb_spec (Qnum q) 0) as [?|?];
      [intros [= <-]; right; left; repeat split; tauto|].
    destruct (Z.ltb_spec (Qnum q) 0) as [?|?];
      [intros [= <-]; right; right; repeat split; tauto|].
    destruct (power_of_two q) as [j|]; [destruct (Z.abs j <=? 1022)|];
      discriminate.
Qed.

(** The schedule for an int growth factor [d] from 1 to below [2 ^ 47], in
    closed form. *)
Lemma dilation_schedule_int (n_layers d : Z) :
  1 <= d < 2 ^ 47 ->
  dilation_schedule n_layers (PyInt d) =
  Ok (map (fun n => PyInt (2 ^ (n mod (Z.log2 d + 1)))) (py_range n_layers)).
Proof.
  intros Hd. unfold dilation_schedule.
  rewrite (int_np_log2_int_pos Hd). simpl.
  apply mapM_pointwise. intros n _.
  pose proof (Z.log2_nonneg d) as Hl.
  unfold py_mod.
  destruct (Z.eqb_spec (Z.log2 d + 1) 0) as [?|_]; [lia|]. simpl.
  rewrite py_pow2_nonneg; [reflexivity|].
  apply Z.mod_pos_bound. lia.
Qed.

(** The schedule never raises a RuntimeError. *)
Lemma dilation_schedule_raise (n : Z) (x : pynum) (e : pyerr) :
  dilation_schedule n x = Raise e ->
  e = OverflowError \/ e = ValueError \/ e = ZeroDivisionError \/
  e = TypeError.
Proof.
  unfold dilation_schedule.
  destruct (int_np_log2 x) as [l|e0] eqn:Hl; simpl.
  - intros H. apply mapM_raise in H. destruct H as (i & _ & Hi).
    unfold py_mod in Hi. destruct (l + 1 =? 0); simpl in Hi; [|discriminate].
    injection Hi as <-. auto.
  - intros [= <-]. apply int_np_log2_raise in Hl.
    destruct Hl as [(-> & _)|[(-> & _)|(-> & _)]]; auto.
Qed.

Lemma dilation_schedule_length (n : Z) (x : pynum) (l : list pynum) :
  dilation_schedule n x = Ok l -> List.length l = Z.to_nat n.
Proof.
  unfold dilation_schedule.
  destruct (int_np_log2 x) as [k|e]; simpl; [|discriminate].
  intros H. apply mapM_length in H. rewrite H.
  unfold py_range. now rewrite length_map, length_seq.
Qed.

Lemma dilation_schedule_int_positive (n d : Z) (dilations : list pynum) :
  1 <= d < 2 ^ 47 -> dilation_schedule n (PyInt d) = Ok dilations ->
  Forall (fun dil => exists d', dil = PyInt d' /\ 1 <= d') dilations.
Proof.
  intros Hd. rewrite (dilation_schedule_int _ Hd). intros [= <-].
  apply Forall_forall. intros x Hx. apply in_map_iff in Hx.
  destruct Hx as (i & <- & _).
  eexists. split; [reflexivity|].
  pose proof (Z.log2_nonneg d).
  assert (0 <= i mod (Z.log2 d + 1)) by (apply Z.mod_pos_bound; lia).
  assert (0 < 2 ^ (i mod (Z.log2 d + 1))) by (apply Z.pow_pos_nonneg; lia).
  lia.
Qed.

End Schedule.

(** ** Construction *)

Section Construction.
Context {RT : Torch}.

Lemma torch_empty_ok (g : generator) (shape : list Z) :
  Forall (fun d => 0 <= d) shape ->
  torch_empty g shape = Ok (new_param g shape).
Proof.
  intros H. unfold torch_empty.
  replace (existsb (fun d => d <? 0) shape) with false; [reflexivity|].
  symmetry. induction H as [|d l Hd _ IH]; [reflexivity|].
  cbn [existsb]. rewrite IH.
  destruct (Z.ltb_spec d 0); [lia|reflexivity].
Qed.

Lemma torch_empty_inv (g g' : generator) (shape : list Z) (w : param) :
  torch_empty g shape = Ok (w, g') -> Forall (fun d => 0 <= d) shape.
Proof.
  unfold torch_empty.
  destruct (existsb (fun d => d <? 0) shape) eqn:E; [discriminate|].
  intros _. apply Forall_forall. intros d Hd.
  destruct (Z.ltb_spec d 0) as [Hlt|?]; [|assumption].
  assert (Ht : existsb (fun d => d <? 0) shape = true).
  { apply existsb_exists. exists d. split; [exact Hd|].
    now apply Z.ltb_lt. }
  congruence.
Qed.

Lemma torch_empty_raise (g : generator) (shape : list Z) (e : pyerr) :
  torch_empty g shape = Raise e -> e = RuntimeError msg_negative_dimension.
Proof.
  unfold torch_empty.
  destruct (existsb (fun d => d <? 0) shape); [|discriminate].
  now intros [= <-].
Qed.

Lemma Conv1d_init_inv (g g' : generator) (c_in c_out k s grp : Z)
      (p d : pynum) (b : bool) (c : Conv1d) :
  Conv1d_init g c_in c_out k s p d grp b = Ok (c, g') ->
  conv_cfg c = {| in_channels := c_in; out_channels := c_out;
                  kernel_size := k; stride := s; padding := p;
                  dilation := d; groups := grp; bias := b |} /\
  conv_spectral c = false /\
  0 < grp /\ c_in mod grp = 0 /\ c_out mod grp = 0 /\
  0 <= c_out /\ 0 <= c_in / grp /\ 0 <= k.
Proof.
  unfold Conv1d_init.
  destruct (Z.leb_spec grp 0) as [?|Hg]; [discriminate|].
  destruct (Z.eqb_spec (c_in mod grp) 0) as [Hi|?]; [|discriminate].
  destruct (Z.eqb_spec (c_out mod grp) 0) as [Ho|?]; [|discriminate].
  cbn [negb].
  destruct (torch_empty g [c_out; c_in / grp; k]) as [[w g1]|e] eqn:Hw;
    cbn [bind]; [|discriminate].
  apply torch_empty_inv in Hw.
  inversion Hw as [|? ? H1 Hw1]; subst.
  inversion Hw1 as [|? ? H2 Hw2]; subst.
  inversion Hw2 as [|? ? H3 _]; subst.
  intros [= <- <-]. auto 10.
Qed.

Lemma Conv1d_init_ok (g : generator) (c_in c_out k s grp : Z)
      (p d : pynum) (b : bool) :
  0 < grp -> c_in mod grp = 0 -> c_out mod grp = 0 ->
  0 <= c_in -> 0 <= c_out -> 0 <= k ->
  exists c g', Conv1d_init g c_in c_out k s p d grp b = Ok (c, g').
Proof.
  intros Hg Hi Ho Hci Hco Hk. unfold Conv1d_init.
  destruct (Z.leb_spec grp 0) as [?|_]; [lia|].
  rewrite Hi, Ho. cbn [Z.eqb negb].
  rewrite torch_empty_ok.
  - cbn [bind]. destruct (new_param g [c_out; c_in / grp; k]) as [w g'].
    eexists _, _. reflexivity.
  - repeat constructor; try assumption. apply Z.div_pos; lia.
Qed.

(** A convolution refuses its group count before it allocates. *)
Lemma Conv1d_init_raise (g : generator) (c_in c_out k s grp : Z)
      (p d : pynum) (b : bool) (e : pyerr) :
  Conv1d_init g c_in c_out k s p d grp b = Raise e ->
  (e = ValueError /\
   ~ (0 < grp /\ c_in mod grp = 0 /\ c_out mod grp = 0)) \/
  (e = RuntimeError msg_negative_dimension /\
   0 < grp /\ c_in mod grp = 0 /\ c_out mod grp = 0).
Proof.
  unfold Conv1d_init.
  destruct (Z.leb_spec grp 0) as [?|Hg];
    [intros [= <-]; left; split; [reflexivity|lia]|].
  destruct (Z.eqb_spec (c_in mod grp) 0) as [Hi|?];
    [|intros [= <-]; left; split; [reflexivity|tauto]].
  destruct (Z.eqb_spec (c_out mod grp) 0) as [Ho|?];
    [|intros [= <-]; left; split; [reflexivity|tauto]].
  cbn [negb].
  destruct (torch_empty g [c_out; c_in / grp; k]) as [[w g1]|e0] eqn:Hw;
    cbn [bind]; [discriminate|].
  apply torch_empty_raise in Hw. subst e0.
  intros [= <-]. right. auto.
Qed.

Lemma SpectralNorm_cfg (c : Conv1d) (sn : bool) :
  conv_cfg (if sn then SpectralNorm c else c) = conv_cfg c.
Proof. now destruct sn. Qed.

Lemma SpectralNorm_flag (c : Conv1d) (sn : bool) :
  conv_spectral c = false ->
  conv_spectral (if sn then SpectralNorm c else c) = sn.
Proof. intros H. now destruct sn. Qed.

Lemma PositionFeedForward_init_inv (g g' : generator) (d_in d_out : Z)
      (sn : bool) (p : PositionFeedForward) :
  PositionFeedForward_init g d_in d_out sn = Ok (p, g') ->
  pff_spec d_in d_out p /\ conv_spectral (pff_conv p) = sn.
Proof.
  unfold PositionFeedForward_init.
  destruct (Conv1d_init g d_in d_out 1 1 (PyInt 0) (PyInt 1) 1 true)
    as [[c g1]|e] eqn:Hc; cbn [bind]; [|discriminate].
  apply Conv1d_init_inv in Hc. destruct Hc as (Hcfg & Hsn & _).
  intros [= <- <-]. unfold pff_spec. cbn [pff_conv].
  rewrite SpectralNorm_cfg. split; [exact Hcfg|].
  now apply SpectralNorm_flag.
Qed.

Lemma PositionFeedForward_init_ok (g : generator) (d_in d_out : Z) (sn : bool) :
  0 <= d_in -> 0 <= d_out ->
  exists p g',
    PositionFeedForward_init g d_in d_out sn = Ok (p, g') /\
    pff_spec d_in d_out p.
Proof.
  intros Hi Ho. unfold PositionFeedForward_init.
  destruct (@Conv1d_init_ok g d_in d_out 1 1 1 (PyInt 0) (PyInt 1) true)
    as (c & g' & Hc); try lia; try apply Z.mod_1_r.
  rewrite Hc. cbn [bind]. eexists _, _. split; [reflexivity|].
  apply Conv1d_init_inv in Hc. destruct Hc as (Hcfg & _).
  unfold pff_spec. cbn [pff_conv]. now rewrite SpectralNorm_cfg.
Qed.

Lemma PositionFeedForward_init_raise (g : generator) (d_in d_out : Z)
      (sn : bool) (e : pyerr) :
  PositionFeedForward_init g d_in d_out sn = Raise e ->
  e = RuntimeError msg_negative_dimension.
Proof.
  unfold PositionFeedForward_init.
  destruct (Conv1d_init g d_in d_out 1 1 (PyInt 0) (PyInt 1) 1 true)
    as [[c g1]|e0] eqn:Hc; cbn [bind]; [discriminate|].
  intros [= <-]. apply Conv1d_init_raise in Hc.
  destruct Hc as [(_ & Hn)|(-> & _)]; [|reflexivity].
  exfalso. apply Hn. rewrite !Z.mod_1_r. lia.
Qed.

Lemma LayerNorm_init_inv (g g' : generator) (d : Z) (l : LayerNorm) :
  LayerNorm_init g d = Ok (l, g') -> normalized_shape l = d.
Proof.
  unfold LayerNorm_init.
  destruct (torch_empty g [d]) as [[w g1]|e]; cbn [bind]; [|discriminate].
  now intros [= <- <-].
Qed.

Lemma LayerNorm_init_ok (g : generator) (d : Z) :
  0 <= d -> exists l g', LayerNorm_init g d = Ok (l, g').
Proof.
  intros Hd. unfold LayerNorm_init.
  rewrite torch_empty_ok by (repeat constructor; assumption).
  cbn [bind]. destruct (new_param g [d]) as [w g']. eauto.
Qed.

Lemma LayerNorm_init_raise (g : generator) (d : Z) (e : pyerr) :
  LayerNorm_init g d = Raise e -> e = RuntimeError msg_negative_dimension.
Proof.
  unfold LayerNorm_init.
  destruct (torch_empty g [d]) as [[w g1]|e0] eqn:Hw; cbn [bind];
    [discriminate|].
  intros [= <-]. now apply torch_empty_raise in Hw.
Qed.

Lemma py_floordiv_two (x : pynum) :
  exists pad, py_floordiv_int x 2 = Ok pad.
Proof.
  unfold py_floordiv_int. change (2 =? 0) with false. cbv iota.
  destruct x; eauto.
Qed.

Lemma ByteNetBlock_init_inv (g g' : generator) (d_in d_h d_out k grp : Z)
      (dil : pynum) (sn : bool) (b : ByteNetBlock) :
  ByteNetBlock_init g d_in d_h d_out k dil grp sn = Ok (b, g') ->
  block_built d_in d_h d_out k grp dil sn b /\
  0 < grp /\ d_h mod grp = 0.
Proof.
  unfold ByteNetBlock_init, ConvLayer_init.
  destruct (py_floordiv_int (py_mul_int dil (k - 1)) 2) as [pad|e] eqn:Hpad;
    cbn [bind]; [|discriminate].
  destruct (Conv1d_init g d_h d_h k 1 pad dil grp true)
    as [[c g1]|e] eqn:Hc; cbn [bind]; [|discriminate].
  apply Conv1d_init_inv in Hc. destruct Hc as (Hcfg & Hsn & Hg & Hi & _).
  destruct (LayerNorm_init g1 d_in) as [[ln1 g2]|e] eqn:L1; cbn [bind];
    [|discriminate].
  destruct (PositionFeedForward_init g2 d_in d_h sn)
    as [[ff1 g3]|e] eqn:H1; cbn [bind]; [|discriminate].
  destruct (LayerNorm_init g3 d_h) as [[ln2 g4]|e] eqn:L2; cbn [bind];
    [|discriminate].
  destruct (LayerNorm_init g4 d_h) as [[ln3 g5]|e] eqn:L3; cbn [bind];
    [|discriminate].
  destruct (PositionFeedForward_init g5 d_h d_out sn)
    as [[ff2 g6]|e] eqn:H2; cbn [bind]; [|discriminate].
  apply PositionFeedForward_init_inv in H1, H2.
  apply LayerNorm_init_inv in L1, L2, L3.
  destruct H1 as (Hs1 & Hn1). destruct H2 as (Hs2 & Hn2).
  intros [= <- <-]. split; [|auto].
  unfold block_built. cbn [bnb_conv sequence1 sequence2].
  rewrite SpectralNorm_cfg, Hcfg. cbn [in_channels out_channels kernel_size
    stride dilation groups padding bias].
  repeat (split; [reflexivity|]).
  split; [now apply SpectralNorm_flag|].
  split; [exact Hpad|]. split; [reflexivity|].
  eexists _, _, _, _, _. repeat split; eassumption.
Qed.

Lemma ByteNetBlock_init_ok (g : generator) (d_in d_h d_out k grp : Z)
      (dil : pynum) (sn : bool) :
  0 < grp -> d_h mod grp = 0 ->
  0 <= d_in -> 0 <= d_h -> 0 <= d_out -> 0 <= k ->
  exists b g', ByteNetBlock_init g d_in d_h d_out k dil grp sn = Ok (b, g').
Proof.
  intros Hg Hm Hi Hh Ho Hk. unfold ByteNetBlock_init, ConvLayer_init.
  destruct (py_floordiv_two (py_mul_int dil (k - 1))) as (pad & ->).
  cbn [bind].
  destruct (@Conv1d_init_ok g d_h d_h k 1 grp pad dil true)
    as (c & g1 & ->); try assumption.
  cbn [bind].
  destruct (@LayerNorm_init_ok g1 d_in Hi) as (ln1 & g2 & ->). cbn [bind].
  destruct (@PositionFeedForward_init_ok g2 d_in d_h sn Hi Hh)
    as (ff1 & g3 & -> & _). cbn [bind].
  destruct (@LayerNorm_init_ok g3 d_h Hh) as (ln2 & g4 & ->). cbn [bind].
  destruct (@LayerNorm_init_ok g4 d_h Hh) as (ln3 & g5 & ->). cbn [bind].
  destruct (@PositionFeedForward_init_ok g5 d_h d_out sn Hh Ho)
    as (ff2 & g6 & -> & _). cbn [bind].
  eexists _, _. reflexivity.
Qed.

(** A block refuses its group count before it allocates anything. *)
Lemma ByteNetBlock_init_raise (g : generator) (d_in d_h d_out k grp : Z)
      (dil : pynum) (sn : bool) (e : pyerr) :
  ByteNetBlock_init g d_in d_h d_out k dil grp sn = Raise e ->
  (e = ValueError /\ ~ (0 < grp /\ d_h mod grp = 0)) \/
  (e = RuntimeError msg_negative_dimension /\ 0 < grp /\ d_h mod grp = 0).
Proof.
  unfold ByteNetBlock_init, ConvLayer_init.
  destruct (py_floordiv_two (py_mul_int dil (k - 1))) as (pad & ->).
  cbn [bind].
  destruct (Conv1d_init g d_h d_h k 1 pad dil grp true)
    as [[c g1]|e0] eqn:Hc; cbn [bind].
  - apply Conv1d_init_inv in Hc. destruct Hc as (_ & _ & Hg & Hm & _).
    intros H. right. split; [|auto].
    destruct (LayerNorm_init g1 d_in) as [[ln1 g2]|e1] eqn:L1; cbn [bind] in H;
      [|injection H as <-; now apply LayerNorm_init_raise in L1].
    destruct (PositionFeedForward_init g2 d_in d_h sn)
      as [[ff1 g3]|e1] eqn:H1; cbn [bind] in H;
      [|injection H as <-; now apply PositionFeedForward_init_raise in H1].
    destruct (LayerNorm_init g3 d_h) as [[ln2 g4]|e1] eqn:L2; cbn [bind] in H;
      [|injection H as <-; now apply LayerNorm_init_raise in L2].
    destruct (LayerNorm_init g4 d_h) as [[ln3 g5]|e1] eqn:L3; cbn [bind] in H;
      [|injection H as <-; now apply LayerNorm_init_raise in L3].
    destruct (PositionFeedForward_init g5 d_h d_out sn)
      as [[ff2 g6]|e1] eqn:H2; cbn [bind] in H;
      [discriminate|injection H as <-;
                    now apply PositionFeedForward_init_raise in H2].
  - intros [= <-]. apply Conv1d_init_raise in Hc.
    destruct Hc as [(-> & Hn)|(-> & Hg & Hm & _)]; [left|right]; split;
      auto; tauto.
Qed.

Lemma build_blocks_inv (hidden d_h k : Z) (sn : bool)
      (dilations : list pynum) :
  forall g g' bs,
    build_blocks g hidden d_h k sn dilations = Ok (bs, g') ->
    Forall2 (fun b dil => block_built hidden d_h hidden k 1 dil sn b)
            bs dilations.
Proof.
  induction dilations as [|dil rest IH]; intros g g' bs; cbn [build_blocks].
  - intros [= <- <-]. constructor.
  - destruct (ByteNetBlock_init g hidden d_h hidden k dil 1 sn)
      as [[b g1]|e] eqn:Hb; cbn [bind]; [|discriminate].
    destruct (build_blocks g1 hidden d_h k sn rest)
      as [[bs' g2]|e] eqn:Hr; cbn [bind]; [|discriminate].
    intros [= <- <-]. constructor.
    + now apply ByteNetBlock_init_inv in Hb.
    + now apply IH in Hr.
Qed.

Lemma build_blocks_ok (hidden d_h k : Z) (sn : bool) (dilations : list pynum) :
  0 <= hidden -> 0 <= d_h -> 0 <= k ->
  forall g, exists bs g',
    build_blocks g hidden d_h k sn dilations = Ok (bs, g').
Proof.
  intros Hh Hd Hk.
  induction dilations as [|dil rest IH]; intros g; cbn [build_blocks].
  - eauto.
  - destruct (@ByteNetBlock_init_ok g hidden d_h hidden k 1 dil sn)
      as (b & g1 & ->); try lia; try apply Z.mod_1_r.
    cbn [bind]. destruct (IH g1) as (bs & g2 & ->). cbn [bind]. eauto.
Qed.

Lemma build_blocks_raise (hidden d_h k : Z) (sn : bool)
      (dilations : list pynum) (e : pyerr) :
  forall g, build_blocks g hidden d_h k sn dilations = Raise e ->
            e = RuntimeError msg_negative_dimension.
Proof.
  induction dilations as [|dil rest IH]; intros g; cbn [build_blocks];
    [discriminate|].
  destruct (ByteNetBlock_init g hidden d_h hidden k dil 1 sn)
    as [[b g1]|e0] eqn:Hb; cbn [bind].
  - destruct (build_blocks g1 hidden d_h k sn rest)
      as [[bs' g2]|e1] eqn:Hr; cbn [bind]; [discriminate|].
    intros [= <-]. now apply IH in Hr.
  - intros [= <-]. apply ByteNetBlock_init_raise in Hb.
    destruct Hb as [(_ & Hn)|(-> & _)]; [|reflexivity].
    exfalso. apply Hn. rewrite Z.mod_1_r. lia.
Qed.

Lemma Linear_init_inv (g g' : generator) (d_in d_out : Z) (l : Linear) :
  Linear_init g d_in d_out = Ok (l, g') ->
  lin_in l = d_in /\ lin_out l = d_out /\ lin_spectral l = false.
Proof.
  unfold Linear_init.
  destruct (torch_empty g [d_out; d_in]) as [[w g1]|e]; cbn [bind];
    [|discriminate].
  intros [= <- <-]. auto.
Qed.

Lemma Linear_init_raise (g : generator) (d_in d_out : Z) (e : pyerr) :
  Linear_init g d_in d_out = Raise e -> e = RuntimeError msg_negative_dimension.
Proof.
  unfold Linear_init.
  destruct (torch_empty g [d_out; d_in]) as [[w g1]|e0] eqn:Hw; cbn [bind];
    [discriminate|].
  intros [= <-]. now apply torch_empty_raise in Hw.
Qed.

Lemma Linear_init_ok (g : generator) (d_in d_out : Z) :
  0 <= d_in -> 0 <= d_out -> exists l g', Linear_init g d_in d_out = Ok (l, g').
Proof.
  intros Hi Ho. unfold Linear_init.
  rewrite torch_empty_ok by (repeat constructor; assumption).
  cbn [bind]. destruct (new_param g [d_out; d_in]) as [w g']. eauto.
Qed.

End Construction.

(** ** The check of the objective *)

Lemma check_objective_cases (obj : string) (npc : Z) :
  (obj = "multiclass" /\ npc <= 2 /\
   check_objective obj npc = Raise (RuntimeError msg_multiclass)) \/
  (obj = "multiclass" /\ 2 < npc /\
   check_objective obj npc = Ok (npc, "multiclass")) \/
  (obj = "binary_classifier" /\
   check_objective obj npc = Ok (1, "binary_logistic")) \/
  (obj = "regression" /\ check_objective obj npc = Ok (1, "Gaussian")) \/
  (obj <> "multiclass" /\ obj <> "binary_classifier" /\ obj <> "regression" /\
   check_objective obj npc = Raise (RuntimeError msg_unrecognized)).
Proof.
  unfold check_objective.
  destruct (String.eqb_spec obj "multiclass") as [->|Hm].
  - destruct (Z.leb_spec npc 2); [left|right; left]; auto.
  - destruct (String.eqb_spec obj "binary_classifier") as [->|Hb];
      [right; right; left; auto|].
    destruct (String.eqb_spec obj "regression") as [->|Hr];
      [right; right; right; left; auto|].
    right; right; right; right. auto.
Qed.

Lemma msg_multiclass_neq : msg_multiclass <> msg_unrecognized.
Proof. discriminate. Qed.

Ltac objective_cases obj npc :=
  pose proof msg_multiclass_neq;
  unfold unknown_objective;
  destruct (check_objective_cases obj npc)
    as [(? & ? & Hc)|[(? & ? & Hc)|[(? & Hc)|[(? & Hc)|(? & ? & ? & Hc)]]]];
  rewrite Hc.

Lemma check_objective_unrecognized (obj : string) (npc : Z) :
  check_objective obj npc = Raise (RuntimeError msg_unrecognized) <->
  unknown_objective obj.
Proof.
  objective_cases obj npc;
    (split; [intros E; try discriminate; try (injection E as E)
            | intros (? & ? & ?)]); subst; try congruence; auto.
Qed.

Lemma check_objective_too_few (obj : string) (npc : Z) :
  check_objective obj npc = Raise (RuntimeError msg_multiclass) <->
  (obj = "multiclass" /\ npc <= 2).
Proof.
  objective_cases obj npc;
    (split; [intros E; try discriminate; try (injection E as E)
            | intros (? & ?)]); subst; try congruence; try lia; auto.
Qed.

Lemma check_objective_error (obj : string) (npc : Z) :
  (exists msg, check_objective obj npc = Raise (RuntimeError msg)) <->
  (unknown_objective obj \/ (obj = "multiclass" /\ npc <= 2)).
Proof.
  objective_cases obj npc;
    (split; [intros [msg E]; try discriminate
            | intros [(? & ? & ?)|(? & ?)]]);
    subst; try congruence; try lia; eauto.
Qed.

(** The check raises nothing but its two errors. *)
Lemma check_objective_raise (obj : string) (npc : Z) (e : pyerr) :
  check_objective obj npc = Raise e ->
  e = RuntimeError msg_unrecognized \/ e = RuntimeError msg_multiclass.
Proof.
  destruct (check_objective_cases obj npc)
    as [(? & ? & Hc)|[(? & ? & Hc)|[(? & Hc)|[(? & Hc)|(? & ? & ? & Hc)]]]];
    rewrite Hc; intros [= <-]; auto.
Qed.

Lemma check_objective_valid (obj : string) (npc : Z) :
  ~ (unknown_objective obj \/ (obj = "multiclass" /\ npc <= 2)) ->
  exists r, check_objective obj npc = Ok r.
Proof.
  intros Hv. destruct (check_objective obj npc) as [r|e] eqn:Hc; [eauto|].
  exfalso. apply Hv. apply check_objective_error.
  destruct (check_objective_cases obj npc)
    as [(? & ? & Hc')|[(? & ? & Hc')|[(? & Hc')|[(? & Hc')|(? & ? & ? & Hc')]]]];
    rewrite Hc' in Hc; try discriminate; injection Hc as <-; eauto.
Qed.

(** An objective that passes the check has at least one output. *)
Lemma check_objective_outputs (obj : string) (npc ncl : Z) (lik : string) :
  check_objective obj npc = Ok (ncl, lik) -> 1 <= ncl.
Proof.
  destruct (check_objective_cases obj npc)
    as [(? & ? & Hc)|[(? & ? & Hc)|[(? & Hc)|[(? & Hc)|(? & ? & ? & Hc)]]]];
    rewrite Hc; intros [= <- <-]; lia.
Qed.

(** ** What the constructor builds, in any runtime *)

Section Built.
Context {RT : Torch}.

(** The optional antigen adjuster of lines 201-205. *)
Lemma antigen_adjuster_inv (g g' : generator) (ad : option Z) (hidden : Z)
      (sn : bool) (oa : option PositionFeedForward) :
  match ad with
  | Some antigen_dim =>
      '(p, g) <- PositionFeedForward_init g antigen_dim hidden sn ;;
      Ok (Some p, g)
  | None => Ok (None, g)
  end = Ok (oa, g') ->
  match ad, oa with
  | Some d, Some p => pff_spec d hidden p /\ conv_spectral (pff_conv p) = sn
  | None, None => True
  | _, _ => False
  end.
Proof.
  destruct ad as [d|].
  - destruct (PositionFeedForward_init g d hidden sn)
      as [[p g1]|e] eqn:Hp; cbn [bind]; [|discriminate].
    intros [= <- <-]. now apply PositionFeedForward_init_inv in Hp.
  - now intros [= <- <-].
Qed.

Lemma antigen_adjuster_raise (g : generator) (ad : option Z) (hidden : Z)
      (sn : bool) (e : pyerr) :
  match ad with
  | Some antigen_dim =>
      '(p, g) <- PositionFeedForward_init g antigen_dim hidden sn ;;
      Ok (Some p, g)
  | None => Ok (None, g)
  end = Raise e ->
  e = RuntimeError msg_negative_dimension.
Proof.
  destruct ad as [d|]; [|discriminate].
  destruct (PositionFeedForward_init g d hidden sn)
    as [[p g1]|e0] eqn:Hp; cbn [bind]; [discriminate|].
  intros [= <-]. now apply PositionFeedForward_init_raise in Hp.
Qed.

Lemma antigen_adjuster_ok (g : generator) (ad : option Z) (hidden : Z)
      (sn : bool) :
  match ad with Some d => 0 <= d | None => True end -> 0 <= hidden ->
  exists oa g',
    match ad with
    | Some antigen_dim =>
        '(p, g) <- PositionFeedForward_init g antigen_dim hidden sn ;;
        Ok (Some p, g)
    | None => Ok (None, g)
    end = Ok (oa, g').
Proof.
  intros Ha Hh. destruct ad as [d|]; [|eauto].
  destruct (@PositionFeedForward_init_ok _ g d hidden sn Ha Hh)
    as (p & g1 & -> & _).
  cbn [bind]. eauto.
Qed.

(** The head of lines 225-234. *)
Lemma out_layer_inv (g : generator) (gp : bool) (rep ncl : Z) (lik : string)
      (ol : OutLayer) :
  (if gp then
     Ok (HeadRFF (VanillaRFFLayer_init rep 1024 1 (999 # 1000) (1 # 1000)
                    lik 123))
   else
     '(lin, _) <- Linear_init g rep ncl ;;
     Ok (if gp then HeadLinear (SpectralNorm_linear lin) else HeadLinear lin))
  = Ok ol ->
  if gp then
    ol = HeadRFF (VanillaRFFLayer_init rep 1024 1 (999 # 1000) (1 # 1000)
                    lik 123)
  else exists l, ol = HeadLinear l /\ lin_in l = rep /\ lin_out l = ncl /\
                 lin_spectral l = false.
Proof.
  destruct gp.
  - now intros [= <-].
  - destruct (Linear_init g rep ncl) as [[lin g1]|e] eqn:Hl; cbn [bind];
      [|discriminate].
    intros [= <-]. apply Linear_init_inv in Hl. eauto.
Qed.

Lemma ByteNetPairedSeqs_init_built (a : Args.t) (m : ByteNetPairedSeqs) :
  ByteNetPairedSeqs_init a = Ok m ->
  exists nclasses lik dilations,
    check_objective (Args.objective a) (Args.num_predicted_categories a)
    = Ok (nclasses, lik) /\
    dilation_schedule (Args.n_layers a) (Args.dil_factor a) = Ok dilations /\
    built a nclasses lik dilations m.
Proof.
  unfold ByteNetPairedSeqs_init. fold (block_width a).
  destruct (check_objective (Args.objective a)
              (Args.num_predicted_categories a)) as [[ncl lik]|e];
    cbn [bind]; [|discriminate].
  destruct (dilation_schedule (Args.n_layers a) (Args.dil_factor a))
    as [dils|e]; cbn [bind]; [|discriminate].
  destruct (PositionFeedForward_init (manual_seed 123) (Args.input_dim a)
              (Args.hidden_dim a) (Args.llgp a))
    as [[adj g1]|e] eqn:Hadj; cbn [bind]; [|discriminate].
  apply PositionFeedForward_init_inv in Hadj.
  match goal with
  | |- context [bind ?c _] =>
      lazymatch c with
      | match Args.antigen_dim a with _ => _ end =>
          destruct c as [[oa g2]|e] eqn:Hoa; cbn [bind]; [|discriminate]
      end
  end.
  apply antigen_adjuster_inv in Hoa.
  destruct (build_blocks g2 (Args.hidden_dim a) (block_width a)
              (Args.kernel_size a) (Args.llgp a) dils)
    as [[ab g3]|e] eqn:Hab; cbn [bind]; [|discriminate].
  destruct (build_blocks g3 (Args.hidden_dim a) (block_width a)
              (Args.kernel_size a) (Args.llgp a) dils)
    as [[ag g4]|e] eqn:Hagl; cbn [bind]; [|discriminate].
  apply build_blocks_inv in Hab, Hagl.
  destruct (PositionFeedForward_init g4 (Args.hidden_dim a) (Args.rep_dim a)
              (Args.llgp a))
    as [[down g5]|e] eqn:Hdown; cbn [bind]; [|discriminate].
  apply PositionFeedForward_init_inv in Hdown.
  destruct (LayerNorm_init g5 (Args.rep_dim a)) as [[ln g6]|e] eqn:Hln;
    cbn [bind]; [|discriminate].
  apply LayerNorm_init_inv in Hln.
  match goal with
  | |- bind ?c _ = _ -> _ =>
      destruct c as [ol|e] eqn:Hol; cbn [bind]; [|discriminate]
  end.
  apply out_layer_inv in Hol.
  intros [= <-]. exists ncl, lik, dils.
  split; [reflexivity|]. split; [reflexivity|].
  constructor; cbn [adjuster antigen_adjuster antibody_layers antigen_layers
    down_adjuster final_lnorm out_layer objective dropout llgp training];
    try assumption; reflexivity.
Qed.

Lemma ByteNetPairedSeqs_init_ok (a : Args.t) (nclasses : Z) (lik : string)
      (dilations : list pynum) :
  check_objective (Args.objective a) (Args.num_predicted_categories a)
  = Ok (nclasses, lik) ->
  dilation_schedule (Args.n_layers a) (Args.dil_factor a) = Ok dilations ->
  sizes_nonnegative a ->
  exists m, ByteNetPairedSeqs_init a = Ok m.
Proof.
  intros Hobj Hdil (Hi & Hh & Hr & Hk & Ha).
  assert (Hw : 0 <= block_width a).
  { unfold block_width. destruct (Args.slim a); [|exact Hh].
    apply Z.div_pos; lia. }
  pose proof (check_objective_outputs _ _ Hobj) as Hncl.
  unfold ByteNetPairedSeqs_init. fold (block_width a).
  rewrite Hobj. cbn [bind]. rewrite Hdil. cbn [bind].
  destruct (@PositionFeedForward_init_ok _ (manual_seed 123) (Args.input_dim a)
              (Args.hidden_dim a) (Args.llgp a) Hi Hh) as (adj & g1 & -> & _).
  cbn [bind].
  destruct (@antigen_adjuster_ok g1 (Args.antigen_dim a) (Args.hidden_dim a)
              (Args.llgp a) Ha Hh) as (oa & g2 & ->).
  cbn [bind].
  destruct (@build_blocks_ok _ (Args.hidden_dim a) (block_width a)
              (Args.kernel_size a) (Args.llgp a) dilations Hh Hw Hk g2)
    as (ab & g3 & ->).
  cbn [bind].
  destruct (@build_blocks_ok _ (Args.hidden_dim a) (block_width a)
              (Args.kernel_size a) (Args.llgp a) dilations Hh Hw Hk g3)
    as (ag & g4 & ->).
  cbn [bind].
  destruct (@PositionFeedForward_init_ok _ g4 (Args.hidden_dim a)
              (Args.rep_dim a) (Args.llgp a) Hh Hr) as (down & g5 & -> & _).
  cbn [bind].
  destruct (@LayerNorm_init_ok _ g5 (Args.rep_dim a) Hr) as (ln & g6 & ->).
  cbn [bind].
  destruct (Args.llgp a).
  - cbn [bind]. eauto.
  - destruct (@Linear_init_ok _ g6 (Args.rep_dim a) nclasses Hr ltac:(lia))
      as (lin & g7 & ->).
    cbn [bind]. eauto.
Qed.

(** The objective is checked first: its error is the constructor's. *)
Lemma init_check_raise (a : Args.t) (e : pyerr) :
  check_objective (Args.objective a) (Args.num_predicted_categories a)
  = Raise e ->
  ByteNetPairedSeqs_init a = Raise e.
Proof.
  intros H. unfold ByteNetPairedSeqs_init. now rewrite H.
Qed.

(** The schedule is computed next, before any layer is built. *)
Lemma init_schedule_raise (a : Args.t) (r : Z * string) (e : pyerr) :
  check_objective (Args.objective a) (Args.num_predicted_categories a)
  = Ok r ->
  dilation_schedule (Args.n_layers a) (Args.dil_factor a) = Raise e ->
  ByteNetPairedSeqs_init a = Raise e.
Proof.
  intros Hc Hs. unfold ByteNetPairedSeqs_init. rewrite Hc. destruct r.
  cbn [bind]. now rewrite Hs.
Qed.

(** Where an error of the constructor comes from: the check of the
    objective, the schedule, or torch on a negative size. *)
Lemma init_raise_source (a : Args.t) (e : pyerr) :
  ByteNetPairedSeqs_init a = Raise e ->
  check_objective (Args.objective a) (Args.num_predicted_categories a)
  = Raise e \/
  dilation_schedule (Args.n_layers a) (Args.dil_factor a) = Raise e \/
  e = RuntimeError msg_negative_dimension.
Proof.
  unfold ByteNetPairedSeqs_init. fold (block_width a).
  destruct (check_objective (Args.objective a)
              (Args.num_predicted_categories a)) as [[ncl lik]|e0];
    cbn [bind]; [|intros [= <-]; now left].
  destruct (dilation_schedule (Args.n_layers a) (Args.dil_factor a))
    as [dils|e0]; cbn [bind]; [|intros [= <-]; right; now left].
  intros H. right. right.
  destruct (PositionFeedForward_init (manual_seed 123) (Args.input_dim a)
              (Args.hidden_dim a) (Args.llgp a))
    as [[adj g1]|e0] eqn:Hadj; cbn [bind] in H;
    [|injection H as <-; now apply PositionFeedForward_init_raise in Hadj].
  match type of H with
  | bind ?c _ = _ =>
      destruct c as [[oa g2]|e0] eqn:Hoa; cbn [bind] in H;
      [|injection H as <-; now apply antigen_adjuster_raise in Hoa]
  end.
  destruct (build_blocks g2 (Args.hidden_dim a) (block_width a)
              (Args.kernel_size a) (Args.llgp a) dils)
    as [[ab g3]|e0] eqn:Hab; cbn [bind] in H;
    [|injection H as <-; now apply build_blocks_raise in Hab].
  destruct (build_blocks g3 (Args.hidden_dim a) (block_width a)
              (Args.kernel_size a) (Args.llgp a) dils)
    as [[ag g4]|e0] eqn:Hagl; cbn [bind] in H;
    [|injection H as <-; now apply build_blocks_raise in Hagl].
  destruct (PositionFeedForward_init g4 (Args.hidden_dim a) (Args.rep_dim a)
              (Args.llgp a))
    as [[down g5]|e0] eqn:Hdown; cbn [bind] in H;
    [|injection H as <-; now apply PositionFeedForward_init_raise in Hdown].
  destruct (LayerNorm_init g5 (Args.rep_dim a)) as [[ln g6]|e0] eqn:Hln;
    cbn [bind] in H;
    [|injection H as <-; now apply LayerNorm_init_raise in Hln].
  destruct (Args.llgp a); cbn [bind] in H; [discriminate|].
  destruct (Linear_init g6 (Args.rep_dim a) ncl) as [[lin g7]|e0] eqn:Hlin;
    cbn [bind] in H; [discriminate|].
  injection H as <-. now apply Linear_init_raise in Hlin.
Qed.

(** The configuration of the convolution of a block built for an int
    dilation. *)
Lemma block_built_spec (d_in d_h d_out k grp d : Z) (sn : bool)
      (b : ByteNetBlock) :
  block_built d_in d_h d_out k grp (PyInt d) sn b ->
  block_spec d_in d_h d_out (conv_layer_cfg d_h d_h k d grp) b.
Proof.
  intros (H1 & H2 & H3 & H4 & H5 & H6 & _ & Hp & Hb & ln1 & ff1 & ln2 & ln3
          & ff2 & Hs1 & Hs2 & Hf1 & _ & Hf2 & _ & Hn1 & Hn2 & Hn3).
  exists ln1, ff1, ln2, ln3, ff2. repeat (split; [assumption|]).
  split; [|split; assumption].
  unfold py_floordiv_int in Hp. cbn in Hp. injection Hp as Hp.
  destruct (conv_cfg (bnb_conv b)). cbn in *. subst. reflexivity.
Qed.

Lemma built_dilations (d_in d_h d_out k : Z) (sn : bool)
      (bs : list ByteNetBlock) (dils : list pynum) :
  Forall2 (fun b dil => block_built d_in d_h d_out k 1 dil sn b) bs dils ->
  map (fun b => dilation (conv_cfg (bnb_conv b))) bs = dils.
Proof.
  induction 1 as [|b dil bs dils Hb _ IH]; [reflexivity|].
  simpl. rewrite IH. f_equal. apply Hb.
Qed.

Lemma init_Ok_inv (a : Args.t) (m : ByteNetPairedSeqs) :
  ByteNetPairedSeqs_init a = Ok m ->
  exists nclasses lik dilations,
    check_objective (Args.objective a) (Args.num_predicted_categories a)
    = Ok (nclasses, lik) /\
    dilation_schedule (Args.n_layers a) (Args.dil_factor a) = Ok dilations /\
    constructed a nclasses lik dilations m.
Proof.
  intros Hm. apply ByteNetPairedSeqs_init_built in Hm.
  destruct Hm as (ncl & lik & dils & Hc & Hs & Hb).
  exists ncl, lik, dils. split; [exact Hc|]. split; [exact Hs|].
  destruct Hb. constructor; try assumption.
  - apply b_adjuster0.
  - now apply built_dilations in b_antibody0.
  - fold (block_width a).
    clear - b_antibody0.
    induction b_antibody0 as [|b dil bs dils Hb _ IH]; constructor;
      [|exact IH].
    intros d ->. now apply block_built_spec in Hb.
  - apply b_down0.
  - destruct (Args.llgp a); [exact b_head0|].
    destruct b_head0 as (l & Hl & Hin & Hout & _). eauto.
Qed.

End Built.

(** ** The schedule in closed form *)

(** C2, as the code has it: for [n_layers >= 1] and an int [dil_factor]
    from 1 to below [2 ^ 47] the schedule has [n_layers] elements, the
    [n]-th being [2 ^ (n mod period)] with
    [period = floor(log2 dil_factor) + 1]; every element is a power of two
    and at most [dil_factor]; a model constructed with these arguments has
    one block per element, with that dilation.  From [2 ^ 47] to below
    [2 ^ 64] the schedule has the same form, with the period that the
    truncation of the float64 logarithm gives; from [2 ^ 64] on there is
    no schedule: [np.log2] raises TypeError, and so does the
    constructor unless the objective is refused first. *)
Theorem dilation_schedule_closed_form {RT : Torch} (n_layers dil_factor : Z) :
  1 <= n_layers -> 1 <= dil_factor ->
  (dil_factor < 2 ^ 47 ->
   exists (period : Z) (dilations : list pynum),
     2 ^ (period - 1) <= dil_factor < 2 ^ period /\
     dilation_schedule n_layers (PyInt dil_factor) = Ok dilations /\
     Z.of_nat (List.length dilations) = n_layers /\
     (forall n, 0 <= n < n_layers ->
        nth_error dilations (Z.to_nat n) = Some (PyInt (2 ^ (n mod period)))) /\
     (forall x, In x dilations ->
        exists j, 0 <= j /\ x = PyInt (2 ^ j) /\ 2 ^ j <= dil_factor) /\
     (forall (a : Args.t) (m : ByteNetPairedSeqs),
        Args.n_layers a = n_layers -> Args.dil_factor a = PyInt dil_factor ->
        ByteNetPairedSeqs_init a = Ok m ->
        map (fun b => dilation (conv_cfg (bnb_conv b))) (antibody_layers m)
        = dilations)) /\
  (2 ^ 47 <= dil_factor < 2 ^ 64 ->
   let period := np_log2_far (PyInt dil_factor) + 1 in
   int_np_log2 (PyInt dil_factor) = Ok (period - 1) /\
   (1 <= period ->
    dilation_schedule n_layers (PyInt dil_factor) =
    Ok (map (fun n => PyInt (2 ^ (n mod period))) (py_range n_layers)))) /\
  (2 ^ 64 <= dil_factor ->
   dilation_schedule n_layers (PyInt dil_factor) = Raise TypeError /\
   forall a : Args.t,
     Args.dil_factor a = PyInt dil_factor ->
     raises (ByteNetPairedSeqs_init a) = true).
Proof.
  intros Hn H1. split; [|split].
  - intros H47. assert (Hd : 1 <= dil_factor < 2 ^ 47) by lia.
    pose proof (Z.log2_nonneg dil_factor) as Hl.
    exists (Z.log2 dil_factor + 1).
    eexists. split; [|split; [apply (dilation_schedule_int _ Hd)|]].
    + replace (Z.log2 dil_factor + 1 - 1) with (Z.log2 dil_factor) by lia.
      apply Z.log2_spec. lia.
    + split; [|split; [|split]].
      * rewrite length_map. apply py_range_length. lia.
      * intros n Hrange.
        rewrite nth_error_map, (py_range_nth Hrange). reflexivity.
      * intros x Hx. apply in_map_iff in Hx. destruct Hx as [n [<- _]].
        exists (n mod (Z.log2 dil_factor + 1)). split; [|split].
        -- apply Z.mod_pos_bound. lia.
        -- reflexivity.
        -- apply pow2_mod_period_le. lia.
      * intros a m Han Had Hm. apply init_Ok_inv in Hm.
        destruct Hm as (ncl & lik & dils & _ & Hs & Hc).
        rewrite Han, Had, (dilation_schedule_int _ Hd) in Hs.
        injection Hs as <-. apply Hc.
  - intros Hmid period.
    assert (Hlog : int_np_log2 (PyInt dil_factor) = Ok (period - 1)).
    { unfold int_np_log2.
      destruct (Z.ltb_spec dil_factor (- 2 ^ 63)) as [?|_]; [lia|].
      destruct (Z.leb_spec (2 ^ 64) dil_factor) as [?|_]; [lia|]. cbn [orb].
      destruct (Z.eqb_spec dil_factor 0) as [?|_]; [lia|].
      destruct (Z.ltb_spec dil_factor 0) as [?|_]; [lia|].
      destruct (Z.ltb_spec dil_factor (2 ^ 47)) as [?|_]; [lia|].
      subst period. f_equal. lia. }
    split; [exact Hlog|].
    intros Hp. unfold dilation_schedule. rewrite Hlog. cbn [bind].
    replace (period - 1 + 1) with period by lia.
    apply mapM_pointwise. intros n _. unfold py_mod.
    destruct (Z.eqb_spec period 0) as [?|_]; [lia|]. cbn [bind].
    rewrite py_pow2_nonneg; [reflexivity|].
    apply Z.mod_pos_bound. lia.
  - intros H64.
    assert (Hs : forall n, dilation_schedule n (PyInt dil_factor)
                           = Raise TypeError).
    { intros n. unfold dilation_schedule, int_np_log2.
      destruct (Z.leb_spec (2 ^ 64) dil_factor) as [_|?]; [|lia].
      now rewrite orb_true_r. }
    split; [apply Hs|].
    intros a Ha.
    destruct (check_objective (Args.objective a)
                (Args.num_predicted_categories a)) as [r|e0] eqn:Hc.
    + rewrite (@init_schedule_raise _ a r TypeError Hc); [reflexivity|].
      rewrite Ha. apply Hs.
    + now rewrite (init_check_raise a Hc).
Qed.

Lemma dilation_schedule_closed_form_witness :
  exists (period : Z) (dilations : list pynum),
    2 ^ (period - 1) <= 4 < 2 ^ period /\
    dilation_schedule (RT := ShapeRT) 7 (PyInt 4) = Ok dilations /\
    Z.of_nat (List.length dilations) = 7 /\
    (forall n, 0 <= n < 7 ->
       nth_error dilations (Z.to_nat n) = Some (PyInt (2 ^ (n mod period)))) /\
    (forall x, In x dilations ->
       exists j, 0 <= j /\ x = PyInt (2 ^ j) /\ 2 ^ j <= 4) /\
    (forall (a : Args.t) (m : ByteNetPairedSeqs),
       Args.n_layers a = 7 -> Args.dil_factor a = PyInt 4 ->
       ByteNetPairedSeqs_init a = Ok m ->
       map (fun b => dilation (conv_cfg (bnb_conv b))) (antibody_layers m)
       = dilations).
Proof.
  apply (proj1 (@dilation_schedule_closed_form ShapeRT 7 4 ltac:(lia)
                  ltac:(lia))).
  lia.
Defined.

(** C2 as stated fails: [2 ** 64] is an integer of at least 1, numpy takes
    it neither as int64 nor as uint64, [np.log2] raises TypeError, and
    there is no schedule and no model. *)
Lemma dilation_schedule_rejects_two_to_64 :
  1 <= 3 /\ 1 <= 2 ^ 64 /\
  dilation_schedule (RT := ShapeRT) 3 (PyInt (2 ^ 64)) = Raise TypeError /\
  ByteNetPairedSeqs_init (RT := ShapeRT)
    (args_ex 3 (PyInt (2 ^ 64)) false "regression" 1) = Raise TypeError.
Proof. repeat split; try lia; reflexivity. Qed.

Example dilation_schedule_7_4 {U : Unmodelled} :
  dilation_schedule (RT := ShapeRT) 7 (PyInt 4) =
  Ok [PyInt 1; PyInt 2; PyInt 4; PyInt 1; PyInt 2; PyInt 4; PyInt 1].
Proof. reflexivity. Qed.

(** ** Validation of the objective and of the growth factor *)

Section Validation.
Context {RT : Torch}.

Lemma init_validation_error (a : Args.t) (msg : string) :
  msg <> msg_negative_dimension ->
  ByteNetPairedSeqs_init a = Raise (RuntimeError msg) <->
  check_objective (Args.objective a) (Args.num_predicted_categories a)
  = Raise (RuntimeError msg).
Proof.
  intros Hmsg. split.
  - intros H. apply init_raise_source in H.
    destruct H as [H|[H|H]]; [exact H| |congruence].
    apply dilation_schedule_raise in H.
    destruct H as [H|[H|[H|H]]]; discriminate.
  - apply init_check_raise.
Qed.

(** C3: the constructor raises the configuration error of lines 171-187
    exactly when the objective is none of "regression",
    "binary_classifier", "multiclass" ("Unrecognized objective supplied."),
    or is "multiclass" with at most two categories (the message about
    binary classification); the error is the constructor's own result,
    whatever the other arguments are.  For every other combination the
    check passes; without the GP head the constructor then raises only what
    the dilation schedule raises or what torch raises on a negative size,
    and it returns a model when the sizes are positive and the growth
    factor is an int from 1 to below [2 ^ 47]. *)
Theorem init_configuration_error (a : Args.t) :
  let obj := Args.objective a in
  let npc := Args.num_predicted_categories a in
  let invalid := unknown_objective obj \/ (obj = "multiclass" /\ npc <= 2) in
  ((ByteNetPairedSeqs_init a = Raise (RuntimeError msg_unrecognized) \/
    ByteNetPairedSeqs_init a = Raise (RuntimeError msg_multiclass)) <->
   invalid) /\
  (ByteNetPairedSeqs_init a = Raise (RuntimeError msg_unrecognized) <->
   unknown_objective obj) /\
  (ByteNetPairedSeqs_init a = Raise (RuntimeError msg_multiclass) <->
   (obj = "multiclass" /\ npc <= 2)) /\
  (~ invalid ->
   raises (check_objective obj npc) = false /\
   (Args.llgp a = false ->
    (forall e, ByteNetPairedSeqs_init a = Raise e ->
       dilation_schedule (Args.n_layers a) (Args.dil_factor a) = Raise e \/
       e = RuntimeError msg_negative_dimension) /\
    (forall d, Args.dil_factor a = PyInt d -> 1 <= d < 2 ^ 47 ->
       widths_positive a -> 1 <= Args.kernel_size a ->
       exists m, ByteNetPairedSeqs_init a = Ok m /\ objective m = obj))).
Proof.
  intros obj npc invalid.
  assert (H2 : ByteNetPairedSeqs_init a = Raise (RuntimeError msg_unrecognized)
               <-> unknown_objective obj).
  { rewrite init_validation_error by discriminate.
    apply check_objective_unrecognized. }
  assert (H3 : ByteNetPairedSeqs_init a = Raise (RuntimeError msg_multiclass)
               <-> (obj = "multiclass" /\ npc <= 2)).
  { rewrite init_validation_error by discriminate.
    apply check_objective_too_few. }
  split; [|split; [exact H2|split; [exact H3|]]].
  - subst invalid. rewrite H2, H3. reflexivity.
  - intros Hv. destruct (check_objective_valid Hv) as [[ncl lik] Hc].
    fold obj npc in Hc |- *. rewrite Hc. split; [reflexivity|].
    intros _. split.
    + intros e He. apply init_raise_source in He.
      destruct He as [He|He]; [|exact He].
      fold obj npc in He. congruence.
    + intros d Hd Hrange (Hi & Hh & Hw & Hr & Ha) Hk.
      destruct (@ByteNetPairedSeqs_init_ok _ a ncl lik _ Hc
                  (eq_trans (f_equal _ Hd)
                     (dilation_schedule_int (Args.n_layers a) Hrange)))
        as (m & Hm).
      * unfold sizes_nonnegative. repeat split; try lia.
        destruct (Args.antigen_dim a); [lia|exact I].
      * exists m. split; [exact Hm|].
        apply ByteNetPairedSeqs_init_built in Hm.
        destruct Hm as (? & ? & ? & _ & _ & Hb). apply Hb.
Qed.

(** C8, as the code has it: for a [dil_factor] that is not positive, int
    or float, the schedule raises for every [n_layers] (OverflowError at
    0, ValueError below, TypeError for an int below [- 2 ^ 63]), so the
    constructor raises whatever its other arguments are.  A positive
    [dil_factor] whose truncated logarithm is -1 gives period 0, and the
    schedule divides by zero as soon as there is a layer. *)
Theorem init_raises_on_nonpositive_dil_factor (a : Args.t) :
  let x := Args.dil_factor a in
  ((pynum_value x <= 0)%Q ->
   raises (ByteNetPairedSeqs_init a) = true /\
   forall n_layers, dilation_schedule n_layers x = Raise (log2_error x)) /\
  (int_np_log2 x = Ok (-1) -> 1 <= Args.n_layers a ->
   raises (ByteNetPairedSeqs_init a) = true /\
   dilation_schedule (Args.n_layers a) x = Raise ZeroDivisionError).
Proof.
  intros x.
  assert (Hraise : forall e,
            dilation_schedule (Args.n_layers a) x = Raise e ->
            raises (ByteNetPairedSeqs_init a) = true).
  { intros e Hs.
    destruct (check_objective (Args.objective a)
                (Args.num_predicted_categories a)) as [r|e0] eqn:Hc.
    - now rewrite (init_schedule_raise a Hc Hs).
    - now rewrite (init_check_raise a Hc). }
  split.
  - intros Hx.
    assert (Hs : forall n_layers,
               dilation_schedule n_layers x = Raise (log2_error x)).
    { intros n. unfold dilation_schedule.
      now rewrite (int_np_log2_nonpositive _ Hx). }
    split; [|exact Hs]. apply (Hraise _ (Hs _)).
  - intros Hl Hn.
    assert (Hs : dilation_schedule (Args.n_layers a) x
                 = Raise ZeroDivisionError).
    { unfold dilation_schedule. rewrite Hl. cbn [bind].
      change (-1 + 1) with 0. unfold py_range.
      destruct (Z.to_nat (Args.n_layers a)) as [|k] eqn:Hnat; [lia|].
      reflexivity. }
    split; [|exact Hs]. apply (Hraise _ Hs).
Qed.

End Validation.

Lemma init_raises_on_nonpositive_dil_factor_witness :
  (raises (ByteNetPairedSeqs_init (RT := ShapeRT)
             (args_ex 3 (PyFloat (- 3 # 2)) false "regression" 1)) = true /\
   forall n_layers,
     dilation_schedule (RT := ShapeRT) n_layers (PyFloat (- 3 # 2))
     = Raise ValueError) /\
  (raises (ByteNetPairedSeqs_init (RT := ShapeRT)
             (args_ex 3 (PyFloat (1 # 2)) false "regression" 1)) = true /\
   dilation_schedule (RT := ShapeRT) 5 (PyFloat (1 # 2))
   = Raise ZeroDivisionError).
Proof.
  split.
  - apply (proj1 (@init_raises_on_nonpositive_dil_factor ShapeRT
                    (args_ex 3 (PyFloat (- 3 # 2)) false "regression" 1))).
    discriminate.
  - apply (proj2 (@init_raises_on_nonpositive_dil_factor ShapeRT
                    (args_ex 3 (PyFloat (1 # 2)) false "regression" 1))).
    + reflexivity.
    + cbn. lia.
Defined.

(** C8 as stated fails: the growth factor 0.25 is below 1, its logarithm
    is -2, the period is -1, every layer gets dilation 1 and the
    construction succeeds. *)
Lemma init_accepts_dil_factor_quarter :
  (pynum_value (PyFloat (1 # 4)) < 1)%Q /\
  dilation_schedule (RT := ShapeRT) 5 (PyFloat (1 # 4))
  = Ok [PyInt 1; PyInt 1; PyInt 1; PyInt 1; PyInt 1] /\
  raises (ByteNetPairedSeqs_init (RT := ShapeRT)
            (args_ex 3 (PyFloat (1 # 4)) false "regression" 1)) = false.
Proof.
  split; [reflexivity|]. split; reflexivity.
Qed.

(** The growth factor 1/2 gives period 0: the schedule divides by zero as
    soon as there is a layer, and is empty without one. *)
Example dilation_schedule_half {U : Unmodelled} :
  dilation_schedule (RT := ShapeRT) 3 (PyFloat (1 # 2))
  = Raise ZeroDivisionError /\
  dilation_schedule (RT := ShapeRT) 0 (PyFloat (1 # 2)) = Ok [].
Proof. split; reflexivity. Qed.

(** The constructor on a negative width: the objective is valid, and
    torch raises RuntimeError when the adjuster allocates its weight. *)
Example init_negative_hidden_dim {U : Unmodelled} :
  ByteNetPairedSeqs_init (RT := ShapeRT)
    {| Args.input_dim := 21; Args.hidden_dim := -4; Args.n_layers := 5;
       Args.kernel_size := 3; Args.dil_factor := PyInt 4; Args.rep_dim := 10;
       Args.dropout := 0%Q; Args.slim := false; Args.llgp := false;
       Args.antigen_dim := None; Args.objective := "regression";
       Args.num_predicted_categories := 1 |}
  = Raise (RuntimeError msg_negative_dimension).
Proof. reflexivity. Qed.

(** ** The forward pass and [predict], in any runtime *)

(** One step of a case analysis on a monadic computation: the scrutinee of
    the outermost [bind], a pair or a condition. *)
Ltac step_result :=
  match goal with
  | |- context [bind ?r _] =>
      lazymatch r with
      | bind _ _ => fail
      | _ => destruct r as [?|?] eqn:?; simpl
      end
  | |- context [match ?p with (_, _) => _ end] => destruct p; simpl
  | |- context [if ?b then _ else _] => destruct b eqn:?; simpl
  end.

(** Inversion of a successful chain of [bind]s in a hypothesis. *)
Ltac chain_inv H :=
  repeat match type of H with
         | bind ?c _ = Ok _ =>
             destruct c as [?|?] eqn:?; simpl in H; [|discriminate]
         | match ?p with (_, _) => _ end = Ok _ => destruct p; simpl in H
         end;
  injection H as <- <-.

Section Forward.
Context {RT : Torch}.

Lemma encoder_tower_agree (m1 m2 : ByteNetPairedSeqs) (x : tensor) :
  agree_except_antigen m1 m2 -> encoder_tower m1 x = encoder_tower m2 x.
Proof.
  intros (_ & Ha & Hl & Hd & Hn & _ & Hp & _ & Ht).
  unfold encoder_tower. now rewrite Ha, Hl, Hd, Hn, Hp, Ht.
Qed.

Lemma forward_agree (m1 m2 : ByteNetPairedSeqs) (x : tensor) (up gv : bool) :
  agree_except_antigen m1 m2 ->
  returned (ByteNetPairedSeqs_forward m1 x up gv) =
  returned (ByteNetPairedSeqs_forward m2 x up gv).
Proof.
  intros H. pose proof (encoder_tower_agree x H) as He.
  destruct H as (Ho & _ & _ & _ & _ & Hh & _ & Hg & _).
  unfold ByteNetPairedSeqs_forward. rewrite He, Ho, Hh, Hg.
  destruct (encoder_tower m2 x) as [rep|e]; cbn [bind]; [|reflexivity].
  destruct (String.eqb (objective m2) "regression");
    [destruct (llgp m2); [destruct gv|]; repeat step_result; reflexivity|].
  destruct (String.eqb (objective m2) "binary_classifier");
    [repeat step_result; reflexivity|].
  destruct (String.eqb (objective m2) "multiclass");
    [repeat step_result; reflexivity|reflexivity].
Qed.

Lemma eval_agree (m1 m2 : ByteNetPairedSeqs) :
  agree_except_antigen m1 m2 -> agree_except_antigen (eval m1) (eval m2).
Proof.
  unfold agree_except_antigen. simpl. intuition.
Qed.

Lemma returned_Ok_inv {A B : Type} (r : result (A * B)) (a : A) :
  returned r = Ok a -> exists b, r = Ok (a, b).
Proof.
  destruct r as [[a' b]|e]; simpl; intros [= <-]. eauto.
Qed.

Lemma returned_Raise_inv {A B : Type} (r : result (A * B)) (e : pyerr) :
  returned r = Raise e -> r = Raise e.
Proof.
  destruct r as [[a' b]|e']; simpl; intros [= <-]. reflexivity.
Qed.

(** C9: two models that differ only in the antigen adjuster and the
    antigen layers return the same from [forward] and from [predict], on
    every input and for every flag. *)
Theorem antigen_tower_never_used (m1 m2 : ByteNetPairedSeqs) (x : tensor)
        (nx : ndarray) (update_precision get_var : bool) :
  agree_except_antigen m1 m2 ->
  returned (ByteNetPairedSeqs_forward m1 x update_precision get_var) =
  returned (ByteNetPairedSeqs_forward m2 x update_precision get_var) /\
  returned (ByteNetPairedSeqs_predict m1 nx get_var) =
  returned (ByteNetPairedSeqs_predict m2 nx get_var).
Proof.
  intros H. split; [now apply forward_agree|].
  pose proof (eval_agree H) as He.
  unfold ByteNetPairedSeqs_predict. cbv zeta.
  assert (Hadj : adjuster (eval m1) = adjuster (eval m2)) by apply He.
  assert (Hg : llgp (eval m1) = llgp (eval m2)) by apply He.
  assert (Ho : objective (eval m1) = objective (eval m2)) by apply He.
  rewrite Hadj, Hg, Ho.
  destruct (from_numpy_float nx) as [t|e]; cbn [bind]; [|reflexivity].
  set (t' := to_device_of (conv_weight (pff_conv (adjuster (eval m2)))) t).
  destruct (llgp (eval m2) && get_var
            && String.eqb (objective (eval m2)) "regression").
  - pose proof (forward_agree t' false get_var He) as Hf.
    destruct (ByteNetPairedSeqs_forward (eval m1) t' false get_var)
      as [[r1 s1]|e1];
      destruct (ByteNetPairedSeqs_forward (eval m2) t' false get_var)
      as [[r2 s2]|e2]; simpl in Hf; try discriminate.
    + injection Hf as <-. simpl. destruct r1; reflexivity.
    + injection Hf as <-. reflexivity.
  - pose proof (forward_agree t' false false He) as Hf.
    destruct (ByteNetPairedSeqs_forward (eval m1) t' false false)
      as [[r1 s1]|e1];
      destruct (ByteNetPairedSeqs_forward (eval m2) t' false false)
      as [[r2 s2]|e2]; simpl in Hf; try discriminate.
    + injection Hf as <-. simpl. destruct r1; reflexivity.
    + injection Hf as <-. reflexivity.
Qed.

(** Which of its two forms [forward] returns. *)
Lemma forward_ret_kind (m m' : ByteNetPairedSeqs) (x : tensor)
      (up gv : bool) (r : forward_ret) :
  ByteNetPairedSeqs_forward m x up gv = Ok (r, m') ->
  if llgp m && gv && String.eqb (objective m) "regression"
  then exists p v, r = PredsVar p v
  else exists p, r = Preds p.
Proof.
  unfold ByteNetPairedSeqs_forward. intros H.
  apply bind_Ok_inv in H. destruct H as (rep & _ & H).
  destruct (String.eqb (objective m) "regression").
  - rewrite andb_true_r.
    destruct (llgp m); [destruct gv|]; simpl; chain_inv H; eauto.
  - rewrite andb_false_r.
    destruct (String.eqb (objective m) "binary_classifier");
      [chain_inv H; eauto|].
    destruct (String.eqb (objective m) "multiclass"); [|discriminate].
    chain_inv H; eauto.
Qed.

(** Outside the GP regression configuration [get_var] is not looked at. *)
Lemma forward_get_var_ignored (m : ByteNetPairedSeqs) (x : tensor) (up : bool) :
  llgp m && String.eqb (objective m) "regression" = false ->
  ByteNetPairedSeqs_forward m x up true = ByteNetPairedSeqs_forward m x up false.
Proof.
  intros H. unfold ByteNetPairedSeqs_forward.
  destruct (encoder_tower m x) as [rep|e]; simpl; [|reflexivity].
  destruct (String.eqb (objective m) "regression"); [|reflexivity].
  rewrite andb_true_r in H. now rewrite H.
Qed.

Lemma predict_ret_kind (m m' : ByteNetPairedSeqs) (nx : ndarray) (gv : bool)
      (r : predict_ret) :
  ByteNetPairedSeqs_predict m nx gv = Ok (r, m') ->
  if llgp m && gv && String.eqb (objective m) "regression"
  then exists s v, r = ScoresVar s v
  else exists s, r = Scores s.
Proof.
  unfold ByteNetPairedSeqs_predict. cbv zeta.
  change (llgp (eval m)) with (llgp m).
  change (objective (eval m)) with (objective m).
  intros H.
  destruct (from_numpy_float nx) as [t|e]; cbn [bind] in H; [|discriminate].
  destruct (llgp m && gv && String.eqb (objective m) "regression").
  - destruct (ByteNetPairedSeqs_forward _ _ _ _) as [[fr s]|e];
      simpl in H; [|discriminate].
    destruct fr; [discriminate|]. injection H as <- <-. eauto.
  - destruct (ByteNetPairedSeqs_forward _ _ _ _) as [[fr s]|e];
      simpl in H; [|discriminate].
    destruct fr; [|discriminate]. injection H as <- <-. eauto.
Qed.

Lemma predict_get_var_ignored (m : ByteNetPairedSeqs) (nx : ndarray) :
  llgp m && String.eqb (objective m) "regression" = false ->
  ByteNetPairedSeqs_predict m nx true = ByteNetPairedSeqs_predict m nx false.
Proof.
  intros H. unfold ByteNetPairedSeqs_predict. cbv zeta.
  change (llgp (eval m)) with (llgp m).
  change (objective (eval m)) with (objective m).
  rewrite andb_false_r.
  replace (llgp m && true && String.eqb (objective m) "regression")
    with false by (now rewrite andb_true_r, H).
  reflexivity.
Qed.

Lemma gp_regression_true (m : ByteNetPairedSeqs) :
  llgp m && String.eqb (objective m) "regression" = true <->
  (llgp m = true /\ objective m = "regression").
Proof.
  rewrite andb_true_iff, String.eqb_eq. reflexivity.
Qed.

(** C7: with [get_var = True], [forward] and [predict] return a variance
    next to the prediction exactly when the model has the GP head and the
    regression objective; in every other configuration they return one
    value and the call equals the one with [get_var = False].  With the GP
    head and the regression objective the variance is returned: when the
    encoder tower gives a representation, the head called with [get_var]
    gives a prediction and a variance, and the prediction can be squeezed,
    [forward] returns the squeezed prediction and that variance; and when
    [forward] does so on the model in evaluation mode, [predict] returns
    both as arrays.  In every other configuration [predict] returns the
    one array of what [forward] returns. *)
Theorem variance_returned_iff_gp_regression (m : ByteNetPairedSeqs)
        (x : tensor) (nx : ndarray) (update_precision : bool) :
  let gp_regression := llgp m = true /\ objective m = "regression" in
  (forall r m', ByteNetPairedSeqs_forward m x update_precision true = Ok (r, m') ->
     ((exists p v, r = PredsVar p v) <-> gp_regression) /\
     ((exists p, r = Preds p) <-> ~ gp_regression)) /\
  (~ gp_regression ->
     ByteNetPairedSeqs_forward m x update_precision true =
     ByteNetPairedSeqs_forward m x update_precision false) /\
  (forall r m', ByteNetPairedSeqs_predict m nx true = Ok (r, m') ->
     ((exists s v, r = ScoresVar s v) <-> gp_regression) /\
     ((exists s, r = Scores s) <-> ~ gp_regression)) /\
  (~ gp_regression ->
     ByteNetPairedSeqs_predict m nx true = ByteNetPairedSeqs_predict m nx false) /\
  (gp_regression ->
   forall rep hp hv ol p,
     encoder_tower m x = Ok rep ->
     OutLayer_call (out_layer m) rep (keyword_get_var true)
     = Ok (HPredVar hp hv, ol) ->
     squeeze hp 1 = Ok p ->
     ByteNetPairedSeqs_forward m x update_precision true
     = Ok (PredsVar p hv, set_out_layer m ol)) /\
  (gp_regression ->
   forall t p v m',
     from_numpy_float nx = Ok t ->
     ByteNetPairedSeqs_forward (eval m)
       (to_device_of (conv_weight (pff_conv (adjuster m))) t) false true
     = Ok (PredsVar p v, m') ->
     ByteNetPairedSeqs_predict m nx true
     = Ok (ScoresVar (cpu_numpy p) (cpu_numpy v), m')) /\
  (~ gp_regression ->
   forall t p m',
     from_numpy_float nx = Ok t ->
     ByteNetPairedSeqs_forward (eval m)
       (to_device_of (conv_weight (pff_conv (adjuster m))) t) false false
     = Ok (Preds p, m') ->
     ByteNetPairedSeqs_predict m nx true = Ok (Scores (cpu_numpy p), m')).
Proof.
  intros gp_regression. subst gp_regression.
  assert (Hn : ~ (llgp m = true /\ objective m = "regression") ->
               llgp m && String.eqb (objective m) "regression" = false).
  { intros Hn.
    destruct (llgp m && String.eqb (objective m) "regression") eqn:E;
      [|reflexivity].
    apply gp_regression_true in E. contradiction. }
  split; [|split; [|split; [|split; [|split; [|split]]]]].
  - intros r m' H. apply forward_ret_kind in H.
    rewrite andb_true_r in H.
    destruct (llgp m && String.eqb (objective m) "regression") eqn:E.
    + apply gp_regression_true in E.
      destruct H as (p & v & ->). split; split; eauto.
      * intros [p' [=]].
      * intros Hc. contradiction.
    + destruct H as (p & ->).
      assert (Hc : ~ (llgp m = true /\ objective m = "regression")).
      { rewrite <- gp_regression_true, E. discriminate. }
      split; split; eauto.
      * intros (p' & v' & [=]).
      * intros Hc'. contradiction.
  - intros H. apply forward_get_var_ignored. now apply Hn.
  - intros r m' H. apply predict_ret_kind in H.
    rewrite andb_true_r in H.
    destruct (llgp m && String.eqb (objective m) "regression") eqn:E.
    + apply gp_regression_true in E.
      destruct H as (p & v & ->). split; split; eauto.
      * intros [p' [=]].
      * intros Hc. contradiction.
    + destruct H as (p & ->).
      assert (Hc : ~ (llgp m = true /\ objective m = "regression")).
      { rewrite <- gp_regression_true, E. discriminate. }
      split; split; eauto.
      * intros (p' & v' & [=]).
      * intros Hc'. contradiction.
  - intros H. apply predict_get_var_ignored. now apply Hn.
  - intros (Hg & Ho) rep hp hv ol p He Hc Hs.
    unfold ByteNetPairedSeqs_forward. rewrite He. cbn [bind].
    rewrite Ho, Hg. simpl String.eqb. cbv iota.
    rewrite Hc. cbn [bind unpack_pair]. now rewrite Hs.
  - intros (Hg & Ho) t p v m' Ht Hf.
    unfold ByteNetPairedSeqs_predict. cbv zeta. rewrite Ht. cbn [bind].
    change (llgp (eval m)) with (llgp m).
    change (objective (eval m)) with (objective m).
    change (adjuster (eval m)) with (adjuster m).
    rewrite Hg, Ho. simpl String.eqb. cbn [andb].
    now rewrite Hf.
  - intros Hc t p m' Ht Hf.
    unfold ByteNetPairedSeqs_predict. cbv zeta. rewrite Ht. cbn [bind].
    change (llgp (eval m)) with (llgp m).
    change (objective (eval m)) with (objective m).
    change (adjuster (eval m)) with (adjuster m).
    rewrite andb_true_r, (Hn Hc).
    now rewrite Hf.
Qed.

Lemma VanillaRFFLayer_forward_no_update (h h' : VanillaRFFLayer) (x : tensor)
      (gv : bool) (r : head_ret) :
  VanillaRFFLayer_forward h x false gv = Ok (r, h') -> h' = h.
Proof.
  unfold VanillaRFFLayer_forward. destruct h as [cfg st]. simpl.
  destruct (rff_predict cfg st x) as [p|e]; simpl; [|discriminate].
  destruct gv.
  - destruct (rff_variance cfg st x) as [v|e]; simpl; [|discriminate].
    now intros [= <- <-].
  - now intros [= <- <-].
Qed.

Lemma set_out_layer_same (m : ByteNetPairedSeqs) :
  set_out_layer m (out_layer m) = m.
Proof. now destruct m. Qed.

(** C10: in a model with the GP head and the regression objective,
    [forward] with [get_var = True] calls the head with the keyword
    [get_var] alone; [update_precision] is not passed, the result does not
    depend on it, and the model, with the state of its head, is unchanged
    by the call. *)
Theorem gp_variance_call_leaves_precision (m : ByteNetPairedSeqs)
        (h : VanillaRFFLayer) (x : tensor) (update_precision : bool) :
  llgp m = true -> objective m = "regression" -> out_layer m = HeadRFF h ->
  ByteNetPairedSeqs_forward m x update_precision true =
    (rep <- encoder_tower m x ;;
     '(r, ol) <- OutLayer_call (HeadRFF h) rep
                   {| arg_update_precision := None; arg_get_var := Some true |} ;;
     '(preds, var) <- unpack_pair r ;;
     p <- squeeze preds 1 ;;
     Ok (PredsVar p var, set_out_layer m ol)) /\
  (forall rep,
     OutLayer_call (HeadRFF h) rep
       {| arg_update_precision := None; arg_get_var := Some true |} =
     ('(r, h') <- VanillaRFFLayer_forward h rep false true ;;
      Ok (r, HeadRFF h'))) /\
  (forall up', ByteNetPairedSeqs_forward m x update_precision true =
               ByteNetPairedSeqs_forward m x up' true) /\
  (forall r m', ByteNetPairedSeqs_forward m x update_precision true = Ok (r, m') ->
                m' = m /\ out_layer m' = HeadRFF h).
Proof.
  intros Hg Ho Hh.
  assert (Hf : forall up,
    ByteNetPairedSeqs_forward m x up true =
    (rep <- encoder_tower m x ;;
     '(r, ol) <- OutLayer_call (HeadRFF h) rep
                   {| arg_update_precision := None; arg_get_var := Some true |} ;;
     '(preds, var) <- unpack_pair r ;;
     p <- squeeze preds 1 ;;
     Ok (PredsVar p var, set_out_layer m ol))).
  { intros up. unfold ByteNetPairedSeqs_forward.
    rewrite Ho, Hg, Hh. reflexivity. }
  split; [apply Hf|]. split; [reflexivity|]. split.
  - intros up'. now rewrite !Hf.
  - intros r m'. rewrite Hf. intros H.
    apply bind_Ok_inv in H. destruct H as (rep & _ & H).
    unfold OutLayer_call in H. simpl in H.
    destruct (VanillaRFFLayer_forward h rep false true) as [[hr h']|e] eqn:Hv;
      simpl in H; [|discriminate].
    apply VanillaRFFLayer_forward_no_update in Hv. subst h'.
    destruct (unpack_pair hr) as [[preds var]|e]; simpl in H; [|discriminate].
    destruct (squeeze preds 1) as [p|e]; simpl in H; [|discriminate].
    injection H as <- <-. rewrite <- Hh at 1 2.
    rewrite set_out_layer_same. split; [reflexivity|exact Hh].
Qed.

End Forward.

(** ** Shapes *)

Section Shapes.
Context {U : Unmodelled}.

Lemma conv_out_length_unit_stride (l k p d : Z) :
  d * (k - 1) + 1 <= l + 2 * p ->
  Shape.conv_out_length l k 1 p d = Ok (l + 2 * p - d * (k - 1)).
Proof.
  intros Hl. unfold Shape.conv_out_length.
  destruct (Z.ltb_spec (l + 2 * p) (d * (k - 1) + 1)) as [?|_]; [lia|].
  rewrite Z.div_1_r. f_equal. lia.
Qed.

Lemma conv_out_length_too_short (l k p d : Z) :
  l + 2 * p < d * (k - 1) + 1 ->
  Shape.conv_out_length l k 1 p d =
  Raise (RuntimeError "kernel size greater than input size").
Proof.
  intros Hl. unfold Shape.conv_out_length.
  destruct (Z.ltb_spec (l + 2 * p) (d * (k - 1) + 1)) as [_|?]; [|lia].
  reflexivity.
Qed.

(** The checks of a convolution pass on an input of its channel count
    when the padding is not negative, the stride and the dilation are
    positive and the groups are no more than the output channels. *)
Lemma conv_checks_pass (c : Conv1dConfig) (p d ch l : Z) :
  0 <= p -> 1 <= stride c -> 1 <= d -> 1 <= groups c <= out_channels c ->
  ch = in_channels c ->
  Shape.conv_checks c p d ch l =
  Shape.conv_out_length l (kernel_size c) (stride c) p d.
Proof.
  intros Hp Hs Hd Hg ->. unfold Shape.conv_checks.
  destruct (Z.ltb_spec p 0) as [?|_]; [lia|].
  destruct (Z.leb_spec (stride c) 0) as [?|_]; [lia|].
  destruct (Z.leb_spec d 0) as [?|_]; [lia|].
  destruct (Z.leb_spec (groups c) 0) as [?|_]; [lia|].
  destruct (Z.ltb_spec (out_channels c) (groups c)) as [?|_]; [lia|].
  now rewrite Z.eqb_refl.
Qed.

(** Twice the padding of a convolution layer falls short of [d * (k - 1)]
    by the remainder of the division. *)
Lemma twice_padding (d k : Z) :
  2 * (d * (k - 1) / 2) = d * (k - 1) - (d * (k - 1)) mod 2.
Proof.
  pose proof (Z.div_mod (d * (k - 1)) 2). lia.
Qed.

Lemma PositionFeedForward_forward_shape (p : PositionFeedForward (RT := ShapeRT))
      (d_in d_out b l : Z) :
  pff_spec d_in d_out p -> 1 <= d_in -> 1 <= d_out -> 1 <= l ->
  PositionFeedForward_forward p [b; l; d_in] = Ok [b; l; d_out].
Proof.
  intros Hp Hi Ho Hl. unfold PositionFeedForward_forward, Conv1d_forward.
  change (transpose (Torch := ShapeRT) [b; l; d_in] 1 2) with (Ok [b; d_in; l]).
  cbn [bind]. change (conv1d (Torch := ShapeRT)) with Shape.conv1d.
  unfold pff_spec in Hp. rewrite Hp.
  unfold Shape.conv1d. cbn [pff_cfg padding dilation].
  rewrite (@conv_checks_pass (pff_cfg d_in d_out) 0 1 d_in l)
    by (cbn [pff_cfg stride groups out_channels in_channels];
        solve [lia | reflexivity]).
  cbn [pff_cfg kernel_size stride out_channels].
  rewrite conv_out_length_unit_stride by lia. cbn [bind].
  destruct (Z.eqb_spec d_in 0) as [?|_]; [lia|].
  replace (l + 2 * 0 - 1 * (1 - 1)) with l by lia.
  reflexivity.
Qed.

(** A position-wise feed-forward refuses another channel count. *)
Lemma PositionFeedForward_wrong_channels
      (p : PositionFeedForward (RT := ShapeRT)) (d_in d_out b l c : Z) :
  pff_spec d_in d_out p -> c <> d_in ->
  PositionFeedForward_forward p [b; l; c] = Raise Shape.shape_error.
Proof.
  intros Hp Hc. unfold PositionFeedForward_forward, Conv1d_forward.
  change (transpose (Torch := ShapeRT) [b; l; c] 1 2) with (Ok [b; c; l]).
  cbn [bind]. change (conv1d (Torch := ShapeRT)) with Shape.conv1d.
  unfold pff_spec in Hp. rewrite Hp.
  unfold Shape.conv1d, Shape.conv_checks.
  cbn [pff_cfg padding dilation in_channels out_channels stride groups].
  change (0 <? 0) with false. change (1 <=? 0) with false. cbv iota.
  destruct (d_out <? 1); [reflexivity|].
  destruct (Z.eqb_spec c d_in); [contradiction|reflexivity].
Qed.

(** The convolution layer of a block on a sequence of length [l]: the
    output has length [l] less the remainder of [d * (k - 1)] by 2. *)
Lemma ConvLayer_forward_shape (c : Conv1d (RT := ShapeRT))
      (c_in c_out k d grp b l : Z) :
  conv_cfg c = conv_layer_cfg c_in c_out k d grp -> 1 <= k -> 1 <= d ->
  1 <= c_in -> 1 <= grp <= c_out ->
  ConvLayer_forward c [b; l; c_in] =
  if 1 <=? l - (d * (k - 1)) mod 2
  then Ok [b; l - (d * (k - 1)) mod 2; c_out]
  else Raise (RuntimeError "kernel size greater than input size").
Proof.
  intros Hc Hk Hd Hi Hg. unfold ConvLayer_forward, Conv1d_forward.
  change (transpose (Torch := ShapeRT) [b; l; c_in] 1 2) with (Ok [b; c_in; l]).
  cbn [bind]. change (conv1d (Torch := ShapeRT)) with Shape.conv1d.
  rewrite Hc.
  unfold Shape.conv1d. cbn [conv_layer_cfg padding dilation].
  assert (Hp : 0 <= d * (k - 1) / 2) by (apply Z.div_pos; nia).
  rewrite (@conv_checks_pass (conv_layer_cfg c_in c_out k d grp)
             (d * (k - 1) / 2) d c_in l)
    by (cbn [conv_layer_cfg stride groups out_channels in_channels];
        solve [lia | reflexivity]).
  cbn [conv_layer_cfg kernel_size stride out_channels].
  destruct (Z.eqb_spec c_in 0) as [?|_]; [lia|].
  pose proof (twice_padding d k) as Ht.
  pose proof (Z.mod_pos_bound (d * (k - 1)) 2 ltac:(lia)) as Hm.
  destruct (Z.leb_spec 1 (l - (d * (k - 1)) mod 2)) as [Hl|Hl].
  - rewrite conv_out_length_unit_stride by lia. cbn [bind].
    replace (l + 2 * (d * (k - 1) / 2) - d * (k - 1))
      with (l - (d * (k - 1)) mod 2) by lia.
    reflexivity.
  - rewrite conv_out_length_too_short by lia. reflexivity.
Qed.

Lemma LayerNorm_forward_shape3 (ln : LayerNorm (RT := ShapeRT)) (b l c : Z) :
  normalized_shape ln = c -> 1 <= c ->
  LayerNorm_forward ln [b; l; c] = Ok [b; l; c].
Proof.
  intros H Hc. unfold LayerNorm_forward.
  change (layer_norm (Torch := ShapeRT)) with Shape.layer_norm.
  unfold Shape.layer_norm. rewrite H. simpl. rewrite Z.eqb_refl.
  destruct (Z.eqb_spec c 0); [lia|reflexivity].
Qed.

Lemma LayerNorm_forward_shape2 (ln : LayerNorm (RT := ShapeRT)) (b c : Z) :
  normalized_shape ln = c -> 1 <= c ->
  LayerNorm_forward ln [b; c] = Ok [b; c].
Proof.
  intros H Hc. unfold LayerNorm_forward.
  change (layer_norm (Torch := ShapeRT)) with Shape.layer_norm.
  unfold Shape.layer_norm. rewrite H. simpl. rewrite Z.eqb_refl.
  destruct (Z.eqb_spec c 0); [lia|reflexivity].
Qed.

Lemma Linear_forward_shape (lin : Linear (RT := ShapeRT)) (b d_in d_out : Z) :
  lin_in lin = d_in -> lin_out lin = d_out -> 1 <= d_in -> 1 <= d_out ->
  Linear_forward lin [b; d_in] = Ok [b; d_out].
Proof.
  intros Hi Ho H1 H2. unfold Linear_forward.
  change (linear (Torch := ShapeRT)) with Shape.linear.
  unfold Shape.linear. rewrite Hi, Ho. simpl. rewrite Z.eqb_refl.
  destruct (Z.eqb_spec d_in 0); [lia|].
  destruct (Z.eqb_spec d_out 0); [lia|reflexivity].
Qed.

(** The residual sum of two sequences of the same batch and length. *)
Lemma tensor_add_same (b l c : Z) :
  Shape.tensor_add [b; l; c] [b; l; c] = Ok [b; l; c].
Proof.
  unfold Shape.tensor_add. simpl. now rewrite !Z.eqb_refl.
Qed.


(** A block of positive widths on any sequence: the stages give the length
    the convolution leaves, and the result is added to the input. *)
Lemma ByteNetBlock_forward_lengths (blk : ByteNetBlock (RT := ShapeRT))
      (d_in d_h d_out k d grp b l : Z) :
  block_spec d_in d_h d_out (conv_layer_cfg d_h d_h k d grp) blk ->
  1 <= k -> 1 <= d -> 1 <= l ->
  1 <= d_in -> 1 <= grp <= d_h -> 1 <= d_out ->
  ByteNetBlock_forward blk [b; l; d_in] =
  if 1 <=? l - (d * (k - 1)) mod 2
  then Shape.tensor_add [b; l; d_in] [b; l - (d * (k - 1)) mod 2; d_out]
  else Raise (RuntimeError "kernel size greater than input size").
Proof.
  intros (ln1 & ff1 & ln2 & ln3 & ff2 & Hs1 & Hs2 & H1 & Hf1 & H2 & Hc & H3 & Hf2)
         Hk Hd Hl Hi Hg Ho.
  assert (Hh : 1 <= d_h) by lia.
  unfold ByteNetBlock_forward. rewrite Hs1, Hs2.
  cbn [Sequential_forward Stage_forward].
  rewrite (LayerNorm_forward_shape3 _ _ _ H1 Hi). cbn [bind].
  change (gelu (Torch := ShapeRT) [b; l; d_in]) with [b; l; d_in].
  rewrite (PositionFeedForward_forward_shape _ Hf1 Hi Hh Hl). cbn [bind].
  rewrite (LayerNorm_forward_shape3 _ _ _ H2 Hh). cbn [bind].
  change (gelu (Torch := ShapeRT) [b; l; d_h]) with [b; l; d_h].
  rewrite (ConvLayer_forward_shape _ b l Hc Hk Hd Hh Hg).
  destruct (Z.leb_spec 1 (l - (d * (k - 1)) mod 2)) as [Hl'|Hl'];
    cbn [bind]; [|reflexivity].
  rewrite (LayerNorm_forward_shape3 _ _ _ H3 Hh). cbn [bind].
  set (l' := l - (d * (k - 1)) mod 2) in *.
  change (gelu (Torch := ShapeRT) [b; l'; d_h]) with [b; l'; d_h].
  rewrite (PositionFeedForward_forward_shape _ Hf2 Hh Ho Hl'). cbn [bind].
  reflexivity.
Qed.

(** A block on a sequence whose length the convolution keeps: the stages
    give a sequence of [d_out] channels, which is added to the input. *)
Lemma ByteNetBlock_forward_shape (blk : ByteNetBlock (RT := ShapeRT))
      (d_in d_h d_out k d grp b l : Z) :
  block_spec d_in d_h d_out (conv_layer_cfg d_h d_h k d grp) blk ->
  1 <= k -> 1 <= d -> (d * (k - 1)) mod 2 = 0 -> 1 <= l ->
  1 <= d_in -> 1 <= grp <= d_h -> 1 <= d_out ->
  ByteNetBlock_forward blk [b; l; d_in] =
  Shape.tensor_add [b; l; d_in] [b; l; d_out].
Proof.
  intros Hb Hk Hd Hev Hl Hi Hg Ho.
  rewrite (ByteNetBlock_forward_lengths b Hb Hk Hd Hl Hi Hg Ho).
  rewrite Hev, Z.sub_0_r.
  destruct (Z.leb_spec 1 l) as [_|?]; [reflexivity|lia].
Qed.

End Shapes.

(** ** The encoder tower on shapes *)

Section Tower.
Context {U : Unmodelled}.

Lemma odd_kernel_even_extent (d k : Z) :
  Z.odd k = true -> (d * (k - 1)) mod 2 = 0.
Proof.
  intros Hk. apply Z.odd_spec in Hk. destruct Hk as [q ->].
  replace (d * (2 * q + 1 - 1)) with (d * q * 2) by lia.
  apply Z.mod_mul. lia.
Qed.

Lemma dropout_shape (rate : Q) (train : bool) (s : list Z) :
  Qle_bool rate 1 = true ->
  (if positive_rate rate && train then F_dropout (Torch := ShapeRT) s rate
   else Ok s) = Ok s.
Proof.
  intros Hr. unfold positive_rate.
  destruct (Qle_bool rate 0) eqn:H0; simpl; [reflexivity|].
  destruct train; [|reflexivity].
  unfold Shape.F_dropout. rewrite Hr.
  assert (H : Qle_bool 0 rate = true).
  { apply Qle_bool_iff. apply Qlt_le_weak. apply Qnot_le_lt.
    intros Hle. apply Qle_bool_iff in Hle. congruence. }
  now rewrite H.
Qed.

(** The residual blocks keep the shape of a sequence when the kernel is
    odd. *)
Lemma apply_layers_shape (hidden d_h k : Z) (rate : Q) (train : bool)
      (b l : Z) (layers : list (ByteNetBlock (RT := ShapeRT)))
      (dilations : list pynum) :
  Forall2 (fun blk dil => forall d, dil = PyInt d ->
             block_spec hidden d_h hidden (conv_layer_cfg d_h d_h k d 1) blk)
          layers dilations ->
  Forall (fun dil => exists d, dil = PyInt d /\ 1 <= d) dilations ->
  1 <= k -> Z.odd k = true -> 1 <= l -> Qle_bool rate 1 = true ->
  1 <= hidden -> 1 <= d_h ->
  apply_layers layers rate train [b; l; hidden] = Ok [b; l; hidden].
Proof.
  intros Hall Hd Hk Hodd Hl Hr Hh Hw.
  induction Hall as [|blk dil layers dilations Hb _ IH]; [reflexivity|].
  inversion Hd as [|? ? (d & -> & Hd1) Hd']; subst.
  cbn [apply_layers].
  rewrite (ByteNetBlock_forward_shape b (Hb d eq_refl) Hk Hd1
             (@odd_kernel_even_extent d k Hodd) Hl Hh ltac:(lia) Hh).
  rewrite tensor_add_same. cbn [bind].
  rewrite dropout_shape by exact Hr. cbn [bind].
  now apply IH.
Qed.

(** With an odd kernel and positive widths the tower maps
    [(B, L, input_dim)] to [(B, rep_dim)] for every length [L >= 1]. *)
Lemma encoder_tower_shape (a : Args.t) (m : ByteNetPairedSeqs (RT := ShapeRT))
      (b l : Z) :
  ByteNetPairedSeqs_init a = Ok m -> tower_ready a -> 1 <= l ->
  encoder_tower m [b; l; Args.input_dim a] = Ok [b; Args.rep_dim a].
Proof.
  intros Hm ((d & Hdil & Hd) & Hk & Hodd & Hr & Hi & Hh & Hw & Hrep & _) Hl.
  pose proof Hm as Hinv. apply init_Ok_inv in Hinv.
  destruct Hinv as (ncl & lik & dils & _ & Hs & Hc).
  rewrite Hdil in Hs.
  pose proof (@dilation_schedule_int_positive _ _ d dils Hd Hs) as Hpos.
  destruct Hc. unfold encoder_tower.
  erewrite PositionFeedForward_forward_shape by eassumption. cbn [bind].
  rewrite c_dropout0.
  erewrite apply_layers_shape by eassumption.
  cbn [bind].
  erewrite PositionFeedForward_forward_shape by eassumption. cbn [bind].
  change (mean (Torch := ShapeRT) [b; l; Args.rep_dim a] 1)
    with (Ok [b; Args.rep_dim a]).
  cbn [bind]. now apply LayerNorm_forward_shape2.
Qed.

(** The shape [forward] returns for the multiclass objective: the width of
    the linear head is the category count, the width of the GP head is 1. *)
Lemma multiclass_forward_shape (a : Args.t)
      (m : ByteNetPairedSeqs (RT := ShapeRT)) (b l : Z) (up gv : bool) :
  ByteNetPairedSeqs_init a = Ok m -> tower_ready a -> 1 <= l ->
  Args.objective a = "multiclass" ->
  returned (ByteNetPairedSeqs_forward m [b; l; Args.input_dim a] up gv) =
  Ok (Preds [b; if Args.llgp a then 1
                else Args.num_predicted_categories a]).
Proof.
  intros Hm Hready Hl Hobj.
  pose proof (@encoder_tower_shape a m b l Hm Hready Hl) as Henc.
  assert (Hrep : 1 <= Args.rep_dim a) by apply Hready.
  pose proof Hm as Hinv. apply init_Ok_inv in Hinv.
  destruct Hinv as (ncl & lik & dils & Hc & _ & Hcons).
  rewrite Hobj in Hc. unfold check_objective in Hc. simpl in Hc.
  destruct (Z.leb_spec (Args.num_predicted_categories a) 2) as [?|Hnpc];
    [discriminate|].
  injection Hc as <- <-.
  destruct Hcons. unfold ByteNetPairedSeqs_forward.
  rewrite Henc. cbn [bind]. rewrite c_objective0, Hobj. simpl String.eqb.
  cbv iota. rewrite c_llgp0.
  destruct (Args.llgp a).
  - rewrite c_head0. unfold OutLayer_call, VanillaRFFLayer_forward,
      VanillaRFFLayer_init. simpl. rewrite Z.eqb_refl.
    destruct up; reflexivity.
  - destruct c_head0 as (lin & -> & Hin & Hout).
    unfold OutLayer_call. cbn [arg_update_precision arg_get_var no_args].
    rewrite (Linear_forward_shape _ b Hin Hout Hrep ltac:(lia)).
    reflexivity.
Qed.

(** The shape [forward] returns for the regression and the binary
    objective. *)
Lemma scalar_forward_shape (a : Args.t)
      (m : ByteNetPairedSeqs (RT := ShapeRT)) (b l : Z) (up gv : bool) :
  ByteNetPairedSeqs_init a = Ok m -> tower_ready a -> 1 <= l ->
  (Args.objective a = "regression" ->
   returned (ByteNetPairedSeqs_forward m [b; l; Args.input_dim a] up gv) =
   Ok (if Args.llgp a && gv then PredsVar [b] [b] else Preds [b])) /\
  (Args.objective a = "binary_classifier" ->
   returned (ByteNetPairedSeqs_forward m [b; l; Args.input_dim a] up gv) =
   Ok (Preds [b])).
Proof.
  intros Hm Hready Hl.
  pose proof (@encoder_tower_shape a m b l Hm Hready Hl) as Henc.
  assert (Hrep : 1 <= Args.rep_dim a) by apply Hready.
  pose proof Hm as Hinv. apply init_Ok_inv in Hinv.
  destruct Hinv as (ncl & lik & dils & Hc & _ & Hcons).
  destruct Hcons.
  split; intros Hobj; rewrite Hobj in Hc; unfold check_objective in Hc;
    simpl in Hc; injection Hc as <- <-;
    unfold ByteNetPairedSeqs_forward; rewrite Henc; cbn [bind];
    rewrite c_objective0, Hobj; simpl String.eqb; cbv iota; rewrite c_llgp0;
    destruct (Args.llgp a).
  - rewrite c_head0. unfold OutLayer_call, VanillaRFFLayer_forward,
      VanillaRFFLayer_init.
    destruct gv; simpl; rewrite Z.eqb_refl; [reflexivity|].
    destruct up; reflexivity.
  - destruct c_head0 as (lin & -> & Hin & Hout).
    unfold OutLayer_call. cbn [arg_update_precision arg_get_var no_args].
    rewrite (Linear_forward_shape _ b Hin Hout Hrep ltac:(lia)).
    reflexivity.
  - rewrite c_head0. unfold OutLayer_call, VanillaRFFLayer_forward,
      VanillaRFFLayer_init.
    simpl. rewrite Z.eqb_refl. destruct up; reflexivity.
  - destruct c_head0 as (lin & -> & Hin & Hout).
    unfold OutLayer_call. cbn [arg_update_precision arg_get_var no_args].
    rewrite (Linear_forward_shape _ b Hin Hout Hrep ltac:(lia)).
    reflexivity.
Qed.

End Tower.

(** ** The convolution layer *)

(** C4 at kernel size 2 and dilation 1: the padding is 1 * (2 - 1) // 2 = 0
    on each side, and a sequence of length 5 leaves the layer with
    length 4; with kernel size 3 the length is kept. *)
Theorem conv_layer_even_kernel_loses_a_position {U : Unmodelled} :
  (exists c g,
     ConvLayer_init (RT := ShapeRT) tt 3 8 2 1 (PyInt 1) 1 true = Ok (c, g) /\
     padding (conv_cfg c) = PyInt (1 * (2 - 1) / 2) /\
     padding (conv_cfg c) = PyInt 0 /\
     ConvLayer_forward c [2; 5; 3] = Ok [2; 4; 8]) /\
  construct_conv_and_forward (RT := ShapeRT) 3 8 2 (PyInt 1) [2; 5; 3]
  = Ok [2; 4; 8] /\
  construct_conv_and_forward (RT := ShapeRT) 3 8 3 (PyInt 1) [2; 5; 3]
  = Ok [2; 5; 8].
Proof.
  split; [|split; reflexivity].
  eexists _, _. split; [reflexivity|]. repeat split.
Qed.

(** A convolution layer built for an int dilation. *)
Lemma ConvLayer_init_inv {RT : Torch} (g g' : generator)
      (c_in c_out k d grp : Z) (c : Conv1d) :
  ConvLayer_init g c_in c_out k 1 (PyInt d) grp true = Ok (c, g') ->
  conv_cfg c = conv_layer_cfg c_in c_out k d grp /\
  0 < grp /\ c_out mod grp = 0.
Proof.
  unfold ConvLayer_init, py_floordiv_int. cbn [py_mul_int].
  change (2 =? 0) with false. cbv iota. cbn [bind].
  intros H. apply Conv1d_init_inv in H.
  destruct H as (Hc & _ & Hg & _ & Ho & _). auto.
Qed.

(** The padding and the output length of a convolution layer in general:
    the length drops by the remainder of [d * (k - 1)] by 2. *)
Lemma ConvLayer_padding_and_length {U : Unmodelled} (c_in c_out k d b l : Z) :
  1 <= k -> 1 <= d -> 1 <= c_in -> 1 <= c_out ->
  exists c g,
    ConvLayer_init (RT := ShapeRT) tt c_in c_out k 1 (PyInt d) 1 true
    = Ok (c, g) /\
    padding (conv_cfg c) = PyInt (d * (k - 1) / 2) /\
    ConvLayer_forward c [b; l; c_in] =
    if 1 <=? l - (d * (k - 1)) mod 2
    then Ok [b; l - (d * (k - 1)) mod 2; c_out]
    else Raise (RuntimeError "kernel size greater than input size").
Proof.
  intros Hk Hd Hi Ho.
  destruct (ConvLayer_init (RT := ShapeRT) tt c_in c_out k 1 (PyInt d) 1 true)
    as [[c g]|e] eqn:Hc.
  - exists c, g. split; [reflexivity|].
    apply ConvLayer_init_inv in Hc. destruct Hc as (Hc & _). split.
    + now rewrite Hc.
    + apply ConvLayer_forward_shape with (grp := 1); try assumption. lia.
  - exfalso. revert Hc. unfold ConvLayer_init, py_floordiv_int.
    cbn [py_mul_int]. change (2 =? 0) with false. cbv iota. cbn [bind].
    destruct (@Conv1d_init_ok ShapeRT tt c_in c_out k 1 1
                (PyInt (d * (k - 1) / 2)) (PyInt d) true)
      as (c & g & ->); try lia; try apply Z.mod_1_r.
    discriminate.
Qed.

(** ** The residual block *)

Section Block.
Context {RT : Torch}.


Lemma ByteNetBlock_init_spec (g g' : generator)
      (d_in d_h d_out k d grp : Z) (sn : bool) (blk : ByteNetBlock) :
  ByteNetBlock_init g d_in d_h d_out k (PyInt d) grp sn = Ok (blk, g') ->
  block_spec d_in d_h d_out (conv_layer_cfg d_h d_h k d grp) blk /\
  0 < grp /\ d_h mod grp = 0.
Proof.
  intros H. apply ByteNetBlock_init_inv in H. destruct H as (Hb & Hg).
  split; [now apply block_built_spec in Hb|exact Hg].
Qed.

(** A positive group count that divides a positive width is at most the
    width. *)
Lemma groups_le_width (d_h grp : Z) :
  1 <= d_h -> 0 < grp -> d_h mod grp = 0 -> 1 <= grp <= d_h.
Proof.
  intros Hd Hg Hm. split; [lia|].
  apply Z.mod_divide in Hm; [|lia].
  apply Z.divide_pos_le; [lia|exact Hm].
Qed.

End Block.




(** ** The encoder tower and the heads of constructed models *)

(** C5 at kernel size 2: the construction succeeds, the tower raises on a
    sequence of length 5 (the first block's convolution returns length 4
    and the residual sum fails), pools a sequence of length 2 and raises on
    a sequence of length 1; with kernel size 3 it pools to
    [(B, rep_dim)]. *)
Theorem encoder_tower_even_kernel_depends_on_length {U : Unmodelled} :
  raises (ByteNetPairedSeqs_init (RT := ShapeRT)
            (args_ex 2 (PyInt 4) false "regression" 1)) = false /\
  construct_and_encode (RT := ShapeRT)
    (args_ex 2 (PyInt 4) false "regression" 1) [2; 5; 21]
  = Raise Shape.shape_error /\
  construct_and_encode (RT := ShapeRT)
    (args_ex 2 (PyInt 4) false "regression" 1) [2; 2; 21]
  = Ok [2; 10] /\
  construct_and_encode (RT := ShapeRT)
    (args_ex 2 (PyInt 4) false "regression" 1) [2; 1; 21]
  = Raise (RuntimeError "kernel size greater than input size") /\
  construct_and_encode (RT := ShapeRT)
    (args_ex 3 (PyInt 4) false "regression" 1) [2; 5; 21]
  = Ok [2; 10].
Proof. repeat split; reflexivity. Qed.

Lemma tower_ready_args_ex (gp : bool) (obj : string) (c : Z) :
  tower_ready (args_ex 3 (PyInt 4) gp obj c).
Proof.
  unfold tower_ready, widths_positive, block_width. cbn.
  repeat split; try lia; try discriminate.
  exists 4. split; [reflexivity|lia].
Qed.

Example encoder_tower_shape_example {U : Unmodelled} :
  encoder_tower (constructed_model (args_ex 3 (PyInt 4) false "regression" 1))
    [7; 33; 21] = Ok [7; 10].
Proof.
  apply (@encoder_tower_shape _ (args_ex 3 (PyInt 4) false "regression" 1)).
  - reflexivity.
  - apply tower_ready_args_ex.
  - lia.
Qed.

(** The GP head is constructed for one output whatever the objective. *)
Lemma gp_head_out_targets {RT : Torch} (a : Args.t) (m : ByteNetPairedSeqs) :
  ByteNetPairedSeqs_init a = Ok m -> Args.llgp a = true ->
  exists h, out_layer m = HeadRFF h /\ out_targets (rff_cfg h) = 1.
Proof.
  intros Hm Hg. apply init_Ok_inv in Hm.
  destruct Hm as (ncl & lik & dils & _ & _ & Hc). destruct Hc.
  rewrite Hg in c_head0. rewrite c_head0. eexists. split; reflexivity.
Qed.

(** C1 at [llgp = True] with three categories: [forward] on an input of
    shape [(2, 5, 21)] returns shape [(2, 1)], the softmax of a head output
    of width 1, not [(2, 3)]; with [llgp = False] it returns [(2, 3)]. *)
Theorem multiclass_gp_head_has_width_one {U : Unmodelled} :
  construct_and_forward (RT := ShapeRT)
    (args_ex 3 (PyInt 4) true "multiclass" 3) [2; 5; 21] false false
  = Ok (Preds [2; 1]) /\
  construct_and_forward (RT := ShapeRT)
    (args_ex 3 (PyInt 4) true "multiclass" 3) [2; 5; 21] true false
  = Ok (Preds [2; 1]) /\
  (exists h,
     out_layer (constructed_model (args_ex 3 (PyInt 4) true "multiclass" 3))
     = HeadRFF h /\ out_targets (rff_cfg h) = 1) /\
  construct_and_forward (RT := ShapeRT)
    (args_ex 3 (PyInt 4) false "multiclass" 3) [2; 5; 21] false false
  = Ok (Preds [2; 3]).
Proof.
  split; [reflexivity|].
  split; [reflexivity|].
  split; [|reflexivity].
  apply (@gp_head_out_targets ShapeRT (args_ex 3 (PyInt 4) true "multiclass" 3));
    reflexivity.
Qed.

(** ** Instances of the general statements on an example model *)

Lemma variance_returned_iff_gp_regression_witness :
  ByteNetPairedSeqs_forward (eval model_gp) [3; 40; 21] false true
  = Ok (PredsVar [3] [3], set_out_layer (eval model_gp) (HeadRFF head_gp)) /\
  ByteNetPairedSeqs_predict model_gp [3; 40; 21] true
  = Ok (ScoresVar [3] [3], eval model_gp) /\
  ((exists p v, PredsVar (RT := ShapeRT) [3] [3] = PredsVar p v) <->
   (llgp model_gp = true /\ objective model_gp = "regression")) /\
  ((exists s v, ScoresVar (RT := ShapeRT) [3] [3] = ScoresVar s v) <->
   (llgp model_gp = true /\ objective model_gp = "regression")).
Proof.
  destruct (@variance_returned_iff_gp_regression ShapeRT model_gp
              [3; 40; 21] [3; 40; 21] false)
    as (Hf & _ & Hp & _ & _ & Hpr & _).
  split; [|split; [|split]].
  - destruct (@variance_returned_iff_gp_regression ShapeRT (eval model_gp)
                [3; 40; 21] [3; 40; 21] false)
      as (_ & _ & _ & _ & Hfr & _).
    apply (Hfr (conj eq_refl eq_refl) [3; 10] [3; 1] [3] (HeadRFF head_gp) [3]);
      reflexivity.
  - apply (Hpr (conj eq_refl eq_refl) [3; 40; 21] [3] [3] (eval model_gp));
      reflexivity.
  - apply (Hf (PredsVar (RT := ShapeRT) [3] [3]) model_gp).
    reflexivity.
  - apply (Hp (ScoresVar (RT := ShapeRT) [3] [3]) (eval model_gp)).
    reflexivity.
Defined.

Lemma antigen_tower_never_used_witness :
  returned (ByteNetPairedSeqs_forward model_gp [3; 40; 21] false true) =
  returned (ByteNetPairedSeqs_forward (without_antigen model_gp)
              [3; 40; 21] false true) /\
  returned (ByteNetPairedSeqs_predict model_gp [3; 40; 21] true) =
  returned (ByteNetPairedSeqs_predict (without_antigen model_gp)
              [3; 40; 21] true).
Proof.
  apply (@antigen_tower_never_used ShapeRT model_gp (without_antigen model_gp)).
  unfold agree_except_antigen. simpl. repeat split; reflexivity.
Defined.

Lemma gp_variance_call_leaves_precision_witness :
  ByteNetPairedSeqs_forward model_gp [3; 40; 21] true true =
  ByteNetPairedSeqs_forward model_gp [3; 40; 21] false true.
Proof.
  destruct (@gp_variance_call_leaves_precision ShapeRT model_gp head_gp
              [3; 40; 21] true eq_refl eq_refl eq_refl) as (_ & _ & H & _).
  apply H.
Defined.

Example gp_variance_call_example {U : Unmodelled} :
  ByteNetPairedSeqs_forward model_gp [3; 40; 21] true true
  = Ok (PredsVar [3] [3], model_gp) /\
  (exists m', ByteNetPairedSeqs_forward model_gp [3; 40; 21] true false
              = Ok (Preds [3], m') /\
              out_layer m' = HeadRFF {| rff_cfg := rff_cfg head_gp;
                                        rff_state := 1 |}).
Proof.
  split; [reflexivity|].
  eexists. split; reflexivity.
Qed.

(** The smallest model is what the constructor builds for its
    arguments. *)
Example unit_model_constructed {U : Unmodelled} :
  ByteNetPairedSeqs_init (RT := ShapeRT) unit_args = Ok unit_model.
Proof. reflexivity. Qed.

Lemma init_configuration_error_witness :
  exists m, ByteNetPairedSeqs_init (RT := ShapeRT) args_lin = Ok m /\
            objective m = "regression".
Proof.
  destruct (@init_configuration_error ShapeRT args_lin) as (_ & _ & _ & H).
  destruct H as (_ & H).
  - intros [(H & _)|(H & _)]; [apply H; reflexivity|discriminate H].
  - destruct (H eq_refl) as (_ & Hok).
    apply (Hok 4 eq_refl); [lia| |cbn; lia].
    unfold widths_positive, block_width. cbn. repeat split; lia.
Defined.

(** * Further properties of the module *)

(** ** Errors of the dilation schedule *)

Section ScheduleErrors.
Context {RT : Torch}.

(** The outcome of the truncated logarithm, by the argument. *)
Lemma int_np_log2_cases (x : pynum) :
  (beyond_int64 x /\ int_np_log2 x = Raise TypeError) \/
  (~ beyond_int64 x /\ Qnum (pynum_value x) = 0 /\
   int_np_log2 x = Raise OverflowError) \/
  (~ beyond_int64 x /\ Qnum (pynum_value x) < 0 /\
   int_np_log2 x = Raise ValueError) \/
  (~ beyond_int64 x /\ 0 < Qnum (pynum_value x) /\
   exists k, int_np_log2 x = Ok k).
Proof.
  destruct (int_np_log2 x) as [k|e] eqn:H.
  - right. right. right.
    destruct x as [z|q]; unfold int_np_log2, beyond_int64 in *;
      cbn [pynum_value] in *.
    + change (Qnum (inject_Z z)) with z.
      destruct (Z.ltb_spec z (- 2 ^ 63)) as [?|?]; [discriminate|].
      destruct (Z.leb_spec (2 ^ 64) z) as [?|?]; [discriminate|].
      cbn [orb] in H.
      destruct (Z.eqb_spec z 0) as [?|?]; [discriminate|].
      destruct (Z.ltb_spec z 0) as [?|?]; [discriminate|].
      repeat split; [lia|lia|eauto].
    + destruct (Z.eqb_spec (Qnum q) 0) as [?|?]; [discriminate|].
      destruct (Z.ltb_spec (Qnum q) 0) as [?|?]; [discriminate|].
      repeat split; [tauto|lia|eauto].
  - apply int_np_log2_raise in H.
    destruct H as [(-> & H)|[(-> & H0 & H)|(-> & H0 & H)]]; auto 6.
Qed.

(** X1: which exception the schedule of lines 194-195 raises.  It raises
    TypeError exactly for an int that numpy takes neither as int64 nor as
    uint64, OverflowError exactly at the growth factor 0, ValueError
    exactly for any other negative growth factor, and ZeroDivisionError
    exactly when the truncated logarithm is -1 (the period is 0) and there
    is at least one layer; a schedule that is returned has one dilation per
    layer. *)
Theorem dilation_schedule_errors (n_layers : Z) (dil_factor : pynum) :
  let num := Qnum (pynum_value dil_factor) in
  (dilation_schedule n_layers dil_factor = Raise TypeError <->
   beyond_int64 dil_factor) /\
  (dilation_schedule n_layers dil_factor = Raise OverflowError <-> num = 0) /\
  (dilation_schedule n_layers dil_factor = Raise ValueError <->
   (num < 0 /\ ~ beyond_int64 dil_factor)) /\
  (dilation_schedule n_layers dil_factor = Raise ZeroDivisionError <->
   (int_np_log2 dil_factor = Ok (-1) /\ 1 <= n_layers)) /\
  (forall l, dilation_schedule n_layers dil_factor = Ok l ->
             List.length l = Z.to_nat n_layers).
Proof.
  intros num.
  assert (Hzero : num = 0 -> ~ beyond_int64 dil_factor).
  { subst num. destruct dil_factor as [z|q]; cbn; [|tauto].
    change (Qnum (inject_Z z)) with z. lia. }
  assert (Hmap : forall k e,
            mapM (fun n => m <- py_mod n (k + 1) ;; Ok (py_pow2 m))
                 (py_range n_layers) = Raise e ->
            e = ZeroDivisionError /\ k = -1 /\ 1 <= n_layers).
  { intros k e H. apply mapM_raise in H. destruct H as (i & Hin & Hi).
    unfold py_mod in Hi.
    destruct (Z.eqb_spec (k + 1) 0) as [E|_]; [|discriminate].
    injection Hi as <-. repeat split; [lia|].
    unfold py_range in Hin. apply in_map_iff in Hin.
    destruct Hin as (j & _ & Hj). apply in_seq in Hj. lia. }
  split; [|split; [|split; [|split]]]; [| | | |apply dilation_schedule_length];
    unfold dilation_schedule;
    destruct (int_np_log2_cases dil_factor)
      as [(Hb & ->)|[(Hb & H0 & ->)|[(Hb & H0 & ->)|(Hb & H0 & k & ->)]]];
    fold num in H0 || idtac; cbn [bind].
  - tauto.
  - split; [discriminate|tauto].
  - split; [discriminate|tauto].
  - split; [|tauto]. intros H. apply Hmap in H. destruct H as (H & _).
    discriminate.
  - split; [discriminate|]. intros H. apply Hzero in H. contradiction.
  - tauto.
  - split; [discriminate|lia].
  - split; [|lia]. intros H. apply Hmap in H. destruct H as (H & _).
    discriminate.
  - split; [discriminate|tauto].
  - split; [discriminate|lia].
  - tauto.
  - split; [|lia]. intros H. apply Hmap in H. destruct H as (H & _).
    discriminate.
  - split; [discriminate|]. intros (H & _). discriminate.
  - split; [discriminate|]. intros (H & _). discriminate.
  - split; [discriminate|]. intros (H & _). discriminate.
  - split.
    + intros H. apply Hmap in H. destruct H as (_ & -> & Hn). auto.
    + intros (H & Hn). injection H as ->. change (-1 + 1) with 0.
      unfold py_range.
      destruct (Z.to_nat n_layers) as [|j] eqn:Hnat; [lia|].
      reflexivity.
Qed.

End ScheduleErrors.

(** ** Flags, modes and the state of the model, in any runtime *)

Section Modes.
Context {RT : Torch}.

(** X2: a model without the GP head ignores both [update_precision] and
    [get_var], in [forward] and in [predict]. *)
Theorem flags_ignored_without_gp_head (m : ByteNetPairedSeqs) (x : tensor)
        (nx : ndarray) (up up' gv gv' : bool) :
  llgp m = false ->
  ByteNetPairedSeqs_forward m x up gv = ByteNetPairedSeqs_forward m x up' gv' /\
  ByteNetPairedSeqs_predict m nx gv = ByteNetPairedSeqs_predict m nx gv'.
Proof.
  intros Hg. split.
  - unfold ByteNetPairedSeqs_forward. rewrite Hg. reflexivity.
  - unfold ByteNetPairedSeqs_predict. cbv zeta.
    change (llgp (eval m)) with (llgp m). rewrite Hg. reflexivity.
Qed.

Lemma apply_layers_eval (layers : list ByteNetBlock) (p q : Q) (x : tensor) :
  apply_layers layers p false x = apply_layers layers q false x.
Proof.
  revert x. induction layers as [|b layers IH]; intros x; [reflexivity|].
  cbn [apply_layers]. rewrite !andb_false_r.
  destruct (ByteNetBlock_forward b x) as [y|e]; cbn [bind]; [|reflexivity].
  apply IH.
Qed.

Lemma apply_layers_no_rate (layers : list ByteNetBlock) (p q : Q)
      (train : bool) (x : tensor) :
  positive_rate p = false -> positive_rate q = false ->
  apply_layers layers p train x = apply_layers layers q false x.
Proof.
  intros Hp Hq. revert x.
  induction layers as [|b layers IH]; intros x; [reflexivity|].
  cbn [apply_layers]. rewrite Hp, Hq. cbn [andb].
  destruct (ByteNetBlock_forward b x) as [y|e]; cbn [bind]; [|reflexivity].
  apply IH.
Qed.

Lemma forward_same_tower (m1 m2 : ByteNetPairedSeqs) (x : tensor)
      (up gv : bool) :
  encoder_tower m1 x = encoder_tower m2 x ->
  objective m1 = objective m2 -> llgp m1 = llgp m2 ->
  out_layer m1 = out_layer m2 ->
  returned (ByteNetPairedSeqs_forward m1 x up gv) =
  returned (ByteNetPairedSeqs_forward m2 x up gv).
Proof.
  intros He Ho Hg Hh.
  unfold ByteNetPairedSeqs_forward. rewrite He, Ho, Hh, Hg.
  destruct (encoder_tower m2 x) as [rep|e]; cbn [bind]; [|reflexivity].
  destruct (String.eqb (objective m2) "regression");
    [destruct (llgp m2); [destruct gv|]; repeat step_result; reflexivity|].
  destruct (String.eqb (objective m2) "binary_classifier");
    [repeat step_result; reflexivity|].
  destruct (String.eqb (objective m2) "multiclass");
    [repeat step_result; reflexivity|reflexivity].
Qed.

(** X3: dropout acts only in training mode: in evaluation mode [forward]
    returns the same whatever the dropout rate, and so does [predict] in
    either mode, since it switches the model to evaluation mode. *)
Theorem dropout_only_in_training (m : ByteNetPairedSeqs) (p : Q) (x : tensor)
        (nx : ndarray) (up gv : bool) :
  (training m = false ->
   returned (ByteNetPairedSeqs_forward (with_dropout m p) x up gv) =
   returned (ByteNetPairedSeqs_forward m x up gv)) /\
  returned (ByteNetPairedSeqs_predict (with_dropout m p) nx gv) =
  returned (ByteNetPairedSeqs_predict m nx gv).
Proof.
  assert (Hev : forall m0 : ByteNetPairedSeqs, training m0 = false ->
            forall x0 up0 gv0,
            returned (ByteNetPairedSeqs_forward (with_dropout m0 p) x0 up0 gv0) =
            returned (ByteNetPairedSeqs_forward m0 x0 up0 gv0)).
  { intros m0 Ht x0 up0 gv0. apply forward_same_tower; try reflexivity.
    unfold encoder_tower. cbn [with_dropout adjuster antibody_layers dropout
      training down_adjuster final_lnorm]. rewrite Ht.
    destruct (PositionFeedForward_forward (adjuster m0) x0) as [y|e];
      cbn [bind]; [|reflexivity].
    now rewrite (apply_layers_eval _ p (dropout m0)). }
  split; [intros Ht; now apply Hev|].
  unfold ByteNetPairedSeqs_predict. cbv zeta.
  change (llgp (eval (with_dropout m p))) with (llgp (eval m)).
  change (objective (eval (with_dropout m p))) with (objective (eval m)).
  change (adjuster (eval (with_dropout m p))) with (adjuster (eval m)).
  destruct (from_numpy_float nx) as [t|e]; cbn [bind]; [|reflexivity].
  set (t' := to_device_of (conv_weight (pff_conv (adjuster (eval m)))) t).
  change (eval (with_dropout m p)) with (with_dropout (eval m) p).
  destruct (llgp (eval m) && gv && String.eqb (objective (eval m)) "regression").
  - pose proof (Hev (eval m) eq_refl t' false gv) as Hf.
    destruct (ByteNetPairedSeqs_forward (with_dropout (eval m) p) t' false gv)
      as [[r1 s1]|e1];
      destruct (ByteNetPairedSeqs_forward (eval m) t' false gv)
      as [[r2 s2]|e2]; simpl in Hf; try discriminate.
    + injection Hf as <-. simpl. destruct r1; reflexivity.
    + injection Hf as <-. reflexivity.
  - pose proof (Hev (eval m) eq_refl t' false false) as Hf.
    destruct (ByteNetPairedSeqs_forward (with_dropout (eval m) p) t' false false)
      as [[r1 s1]|e1];
      destruct (ByteNetPairedSeqs_forward (eval m) t' false false)
      as [[r2 s2]|e2]; simpl in Hf; try discriminate.
    + injection Hf as <-. simpl. destruct r1; reflexivity.
    + injection Hf as <-. reflexivity.
Qed.

(** A rate that is not positive switches dropout off in training mode
    too. *)
Lemma encoder_tower_no_rate (m : ByteNetPairedSeqs) (x : tensor) :
  positive_rate (dropout m) = false ->
  encoder_tower m x = encoder_tower (eval m) x.
Proof.
  intros Hp. unfold encoder_tower.
  cbn [eval adjuster antibody_layers dropout training down_adjuster
    final_lnorm].
  destruct (PositionFeedForward_forward (adjuster m) x) as [y|e];
    cbn [bind]; [|reflexivity].
  now rewrite (@apply_layers_no_rate (antibody_layers m) (dropout m)
                 (dropout m) (training m) y Hp Hp).
Qed.

Lemma block_built_plain (d_in d_h d_out k grp : Z) (dil : pynum)
      (b : ByteNetBlock) :
  block_built d_in d_h d_out k grp dil false b -> block_plain b.
Proof.
  intros (_ & _ & _ & _ & _ & _ & Hsn & _ & _ & ln1 & ff1 & ln2 & ln3 & ff2
          & Hs1 & Hs2 & _ & Hn1 & _ & Hn2 & _).
  split; [exact Hsn|]. rewrite Hs1, Hs2. cbn [app].
  repeat constructor; assumption.
Qed.

(** X4: a model constructed without the GP head has no spectrally
    normalised layer, whose weight would depend on the mode; with a
    dropout rate that is not positive the mode then makes no difference:
    [forward] returns the same in training mode and in evaluation mode. *)
Theorem mode_irrelevant_without_dropout (a : Args.t) (m : ByteNetPairedSeqs)
        (x : tensor) (up gv : bool) :
  ByteNetPairedSeqs_init a = Ok m -> Args.llgp a = false ->
  positive_rate (Args.dropout a) = false ->
  spectral_free m /\
  returned (ByteNetPairedSeqs_forward m x up gv) =
  returned (ByteNetPairedSeqs_forward (eval m) x up gv).
Proof.
  intros Hm Hg Hp. apply ByteNetPairedSeqs_init_built in Hm.
  destruct Hm as (ncl & lik & dils & _ & _ & Hb). destruct Hb.
  rewrite Hg in *. split.
  - unfold spectral_free. split; [exact b_llgp0|].
    split; [apply b_adjuster0|]. split; [|split; [apply b_down0|]].
    + clear - b_antibody0.
      induction b_antibody0 as [|b dil bs dils Hb _ IH]; constructor;
        [now apply block_built_plain in Hb|exact IH].
    + destruct b_head0 as (l & Hl & _ & _ & Hsn). eauto.
  - apply forward_same_tower; try reflexivity.
    apply encoder_tower_no_rate. now rewrite b_dropout0.
Qed.

Lemma OutLayer_call_no_update (ol ol' : OutLayer) (x : tensor) (a : HeadArgs)
      (r : head_ret) :
  or_default (arg_update_precision a) false = false ->
  OutLayer_call ol x a = Ok (r, ol') -> ol' = ol.
Proof.
  intros Ha. unfold OutLayer_call. destruct ol as [h|l].
  - rewrite Ha.
    destruct (VanillaRFFLayer_forward h x false
                (or_default (arg_get_var a) false)) as [[hr h']|e] eqn:Hv;
      cbn [bind]; [|discriminate].
    apply VanillaRFFLayer_forward_no_update in Hv. subst h'.
    now intros [= <- <-].
  - destruct (arg_update_precision a); [discriminate|].
    destruct (arg_get_var a); [discriminate|].
    destruct (Linear_forward l x); cbn [bind]; [|discriminate].
    now intros [= <- <-].
Qed.

(** Without [update_precision], [forward] returns the model it was given. *)
Lemma forward_no_update (m m' : ByteNetPairedSeqs) (x : tensor) (gv : bool)
      (r : forward_ret) :
  ByteNetPairedSeqs_forward m x false gv = Ok (r, m') -> m' = m.
Proof.
  unfold ByteNetPairedSeqs_forward. intros H.
  apply bind_Ok_inv in H. destruct H as (rep & _ & H).
  assert (Hargs : forall (ol : OutLayer) (a : HeadArgs) hr,
            or_default (arg_update_precision a) false = false ->
            OutLayer_call (out_layer m) rep a = Ok (hr, ol) ->
            set_out_layer m ol = m).
  { intros ol a hr Ha Hc. apply OutLayer_call_no_update in Hc; [|exact Ha].
    subst ol. apply set_out_layer_same. }
  destruct (String.eqb (objective m) "regression").
  - destruct (llgp m); [destruct gv|];
      (destruct (OutLayer_call (out_layer m) rep _) as [[hr ol]|e] eqn:Hc;
       cbn [bind] in H; [|discriminate]);
      apply Hargs in Hc; try reflexivity;
      chain_inv H; exact Hc.
  - destruct (String.eqb (objective m) "binary_classifier").
    + destruct (OutLayer_call (out_layer m) rep _) as [[hr ol]|e] eqn:Hc;
        cbn [bind] in H; [|discriminate].
      apply Hargs in Hc; [|now destruct (llgp m)].
      chain_inv H; exact Hc.
    + destruct (String.eqb (objective m) "multiclass"); [|discriminate].
      destruct (OutLayer_call (out_layer m) rep _) as [[hr ol]|e] eqn:Hc;
        cbn [bind] in H; [|discriminate].
      apply Hargs in Hc; [|now destruct (llgp m)].
      chain_inv H; exact Hc.
Qed.

(** X5: [predict] leaves the model in evaluation mode and changes nothing
    else, the state of the head included; calling it again on the model
    it leaves returns the same. *)
Theorem predict_leaves_eval_mode (m m' : ByteNetPairedSeqs) (nx : ndarray)
        (gv : bool) (r : predict_ret) :
  ByteNetPairedSeqs_predict m nx gv = Ok (r, m') ->
  m' = eval m /\ training m' = false /\ out_layer m' = out_layer m /\
  ByteNetPairedSeqs_predict m' nx gv = Ok (r, m').
Proof.
  intros H.
  assert (Hm : m' = eval m).
  { unfold ByteNetPairedSeqs_predict in H. cbv zeta in H.
    destruct (from_numpy_float nx) as [t|e]; cbn [bind] in H; [|discriminate].
    destruct (llgp (eval m) && gv && String.eqb (objective (eval m)) "regression").
    - destruct (ByteNetPairedSeqs_forward (eval m) _ false gv)
        as [[fr s]|e] eqn:Hf; cbn [bind] in H; [|discriminate].
      apply forward_no_update in Hf. subst s.
      destruct fr; [discriminate|]. now injection H as _ <-.
    - destruct (ByteNetPairedSeqs_forward (eval m) _ false false)
        as [[fr s]|e] eqn:Hf; cbn [bind] in H; [|discriminate].
      apply forward_no_update in Hf. subst s.
      destruct fr; [|discriminate]. now injection H as _ <-. }
  subst m'. repeat split. exact H.
Qed.


End Modes.

(** ** Layers, widths and head of a constructed model *)

Section BuiltProperties.
Context {RT : Torch}.

Lemma Forall2_length_eq {A B : Type} (P : A -> B -> Prop) (l : list A)
      (l' : list B) :
  Forall2 P l l' -> List.length l = List.length l'.
Proof. induction 1; simpl; congruence. Qed.

(** X7: the antigen tower is always built.  The antigen adjuster exists
    exactly when [antigen_dim] is given, but the antigen layers are
    constructed in either case: as many blocks as antibody layers, one per
    layer of [n_layers], with the same dilations. *)
Theorem antigen_layers_always_built (a : Args.t) (m : ByteNetPairedSeqs) :
  ByteNetPairedSeqs_init a = Ok m ->
  (antigen_adjuster m = None <-> Args.antigen_dim a = None) /\
  List.length (antigen_layers m) = Z.to_nat (Args.n_layers a) /\
  List.length (antibody_layers m) = Z.to_nat (Args.n_layers a) /\
  map (fun b => dilation (conv_cfg (bnb_conv b))) (antigen_layers m) =
  map (fun b => dilation (conv_cfg (bnb_conv b))) (antibody_layers m).
Proof.
  intros Hm. apply ByteNetPairedSeqs_init_built in Hm.
  destruct Hm as (ncl & lik & dils & _ & Hs & Hb). destruct Hb.
  apply dilation_schedule_length in Hs.
  split; [|split; [|split]].
  - destruct (Args.antigen_dim a), (antigen_adjuster m);
      try contradiction; split; congruence.
  - rewrite <- Hs. now apply Forall2_length_eq in b_antigen0.
  - rewrite <- Hs. now apply Forall2_length_eq in b_antibody0.
  - apply built_dilations in b_antigen0, b_antibody0. congruence.
Qed.

Lemma built_configured (a : Args.t) (bs : list ByteNetBlock)
      (dils : list pynum) :
  Forall2 (fun b dil => block_built (Args.hidden_dim a) (block_width a)
                          (Args.hidden_dim a) (Args.kernel_size a) 1 dil
                          (Args.llgp a) b) bs dils ->
  Forall (block_configured a) bs.
Proof.
  induction 1 as [|b dil bs dils Hb _ IH]; constructor; [|exact IH].
  destruct Hb as (H1 & H2 & H3 & H4 & _ & H6 & H7 & _ & _ & ln1 & ff1 & ln2
                  & ln3 & ff2 & Hs1 & Hs2 & Hf1 & Hn1 & Hf2 & Hn2 & _).
  unfold block_configured. repeat (split; [assumption|]).
  exists ln1, ff1, ln2, ln3, ff2. auto 10.
Qed.

(** X8: the widths and the normalisation of a constructed model.  Every
    block, antibody or antigen, projects from [hidden_dim] to the block
    width ([hidden_dim // 2] when [slim], [hidden_dim] otherwise),
    convolves at that width with the given kernel size in one group, and
    projects back; every convolution and projection is spectrally
    normalised exactly when [llgp] is set. *)
Theorem blocks_follow_slim_and_llgp (a : Args.t) (m : ByteNetPairedSeqs) :
  ByteNetPairedSeqs_init a = Ok m ->
  Forall (block_configured a) (antibody_layers m) /\
  Forall (block_configured a) (antigen_layers m) /\
  conv_spectral (pff_conv (adjuster m)) = Args.llgp a /\
  conv_spectral (pff_conv (down_adjuster m)) = Args.llgp a /\
  pff_spec (Args.input_dim a) (Args.hidden_dim a) (adjuster m) /\
  pff_spec (Args.hidden_dim a) (Args.rep_dim a) (down_adjuster m).
Proof.
  intros Hm. apply ByteNetPairedSeqs_init_built in Hm.
  destruct Hm as (ncl & lik & dils & _ & _ & Hb). destruct Hb.
  repeat split; try (now apply built_configured with (dils := dils));
    try apply b_adjuster0; try apply b_down0.
Qed.

(** X9: the head of a constructed model.  With [llgp] it is the GP head,
    built for [rep_dim] features and one output; without, it is a linear
    layer from [rep_dim] to the number of outputs of the objective (the
    category count for "multiclass", 1 otherwise), and it is never
    spectrally normalised. *)
Theorem head_follows_llgp_and_objective (a : Args.t) (m : ByteNetPairedSeqs) :
  ByteNetPairedSeqs_init a = Ok m ->
  (Args.llgp a = true ->
   exists h, out_layer m = HeadRFF h /\
             in_features (rff_cfg h) = Args.rep_dim a /\
             out_targets (rff_cfg h) = 1 /\
             likelihood (rff_cfg h) =
             (if String.eqb (Args.objective a) "multiclass" then "multiclass"
              else if String.eqb (Args.objective a) "binary_classifier"
                   then "binary_logistic" else "Gaussian")) /\
  (Args.llgp a = false ->
   exists l, out_layer m = HeadLinear l /\
             lin_in l = Args.rep_dim a /\
             lin_out l =
             (if String.eqb (Args.objective a) "multiclass"
              then Args.num_predicted_categories a else 1) /\
             lin_spectral l = false).
Proof.
  intros Hm. apply ByteNetPairedSeqs_init_built in Hm.
  destruct Hm as (ncl & lik & dils & Hc & _ & Hb). destruct Hb.
  unfold check_objective in Hc.
  split; intros Hg; rewrite Hg in b_head0.
  - eexists. split; [exact b_head0|]. cbn. repeat split.
    destruct (String.eqb (Args.objective a) "multiclass").
    + destruct (Args.num_predicted_categories a <=? 2); [discriminate|].
      now injection Hc as _ <-.
    + destruct (String.eqb (Args.objective a) "binary_classifier");
        [now injection Hc as _ <-|].
      destruct (String.eqb (Args.objective a) "regression");
        [now injection Hc as _ <-|discriminate].
  - destruct b_head0 as (l & Hl & Hin & Hout & Hsn).
    exists l. repeat split; try assumption. rewrite Hout.
    destruct (String.eqb (Args.objective a) "multiclass").
    + destruct (Args.num_predicted_categories a <=? 2); [discriminate|].
      now injection Hc as <- _.
    + destruct (String.eqb (Args.objective a) "binary_classifier");
        [now injection Hc as <- _|].
      destruct (String.eqb (Args.objective a) "regression");
        [now injection Hc as <- _|discriminate].
Qed.

End BuiltProperties.
(** ** Shapes through the layers *)

(** X10: a convolution layer of stride 1 and positive channel counts keeps
    the length of a sequence exactly when [dilation * (kernel_size - 1)] is
    even. *)
Theorem ConvLayer_keeps_length_iff_even_extent {U : Unmodelled}
        (c_in c_out k d b l : Z) :
  1 <= c_in -> 1 <= c_out -> 1 <= k -> 1 <= d -> 1 <= b -> 1 <= l ->
  construct_conv_and_forward (RT := ShapeRT) c_in c_out k (PyInt d) [b; l; c_in]
  = Ok [b; l; c_out] <->
  (d * (k - 1)) mod 2 = 0.
Proof.
  intros Hi Ho Hk Hd _ Hl. unfold construct_conv_and_forward.
  destruct (@ConvLayer_padding_and_length _ c_in c_out k d b l Hk Hd Hi Ho)
    as (c & g & Hc & _ & Hf).
  change (manual_seed (Torch := ShapeRT) 123) with tt.
  rewrite Hc. cbn [bind]. rewrite Hf.
  pose proof (Z.mod_pos_bound (d * (k - 1)) 2 ltac:(lia)) as Hm.
  destruct (Z.leb_spec 1 (l - (d * (k - 1)) mod 2)) as [H1|H1].
  - split.
    + intros [= E]. lia.
    + intros ->. now rewrite Z.sub_0_r.
  - split; [discriminate|lia].
Qed.

Lemma ConvLayer_keeps_length_iff_even_extent_witness :
  construct_conv_and_forward (RT := ShapeRT) 3 8 5 (PyInt 2) [2; 9; 3]
  = Ok [2; 9; 8] <->
  (2 * (5 - 1)) mod 2 = 0.
Proof.
  apply (@ConvLayer_keeps_length_iff_even_extent _ 3 8 5 2 2 9); lia.
Defined.

(** X11: a position-wise feed-forward of positive widths maps
    [(B, L, d_in)] to [(B, L, d_out)] for every length [L >= 1], with or
    without spectral normalisation; it raises on another channel count and
    on an input without a length axis. *)
Theorem PositionFeedForward_shape {U : Unmodelled}
        (g : generator (Torch := ShapeRT)) (d_in d_out b l c : Z)
        (sn : bool) :
  1 <= d_in -> 1 <= d_out -> 1 <= b -> 1 <= l -> c <> d_in ->
  exists p g',
    PositionFeedForward_init (RT := ShapeRT) g d_in d_out sn = Ok (p, g') /\
    PositionFeedForward_forward p [b; l; d_in] = Ok [b; l; d_out] /\
    PositionFeedForward_forward p [b; l; c] = Raise Shape.shape_error /\
    PositionFeedForward_forward p [b; d_in] = Raise IndexError.
Proof.
  intros Hi Ho _ Hl Hc.
  destruct (@PositionFeedForward_init_ok ShapeRT g d_in d_out sn
              ltac:(lia) ltac:(lia)) as (p & g' & Hp & Hs).
  exists p, g'. split; [exact Hp|]. split; [|split].
  - now apply PositionFeedForward_forward_shape.
  - now apply PositionFeedForward_wrong_channels
      with (d_in := d_in) (d_out := d_out).
  - reflexivity.
Qed.

Lemma PositionFeedForward_shape_witness :
  exists p g',
    PositionFeedForward_init (RT := ShapeRT) tt 21 16 true = Ok (p, g') /\
    PositionFeedForward_forward p [3; 40; 21] = Ok [3; 40; 16] /\
    PositionFeedForward_forward p [3; 40; 20] = Raise Shape.shape_error /\
    PositionFeedForward_forward p [3; 21] = Raise IndexError.
Proof.
  apply (@PositionFeedForward_shape _ tt 21 16 3 40 20 true); lia.
Defined.

(** X12: a block of positive widths whose convolution has an odd
    [dilation * (kernel_size - 1)] (an even kernel with an odd dilation)
    works on no length but 2: on length 1 the convolution raises, on
    length 2 the residual sum broadcasts, and on every longer sequence the
    residual sum raises. *)
Theorem ByteNetBlock_odd_extent_fails {U : Unmodelled}
        (g g' : generator (Torch := ShapeRT))
        (c d_h k d grp b l : Z) (sn : bool)
        (blk : ByteNetBlock (RT := ShapeRT)) :
  ByteNetBlock_init (RT := ShapeRT) g c d_h c k (PyInt d) grp sn = Ok (blk, g') ->
  1 <= c -> 1 <= d_h ->
  1 <= k -> 1 <= d -> (d * (k - 1)) mod 2 = 1 -> 1 <= b -> 3 <= l ->
  ByteNetBlock_forward blk [b; l; c] = Raise Shape.shape_error /\
  ByteNetBlock_forward blk [b; 2; c] = Ok [b; 2; c] /\
  ByteNetBlock_forward blk [b; 1; c] =
  Raise (RuntimeError "kernel size greater than input size").
Proof.
  intros Hi Hc Hh Hk Hd Hodd _ Hl. apply ByteNetBlock_init_spec in Hi.
  destruct Hi as (Hi & Hg & Hm).
  pose proof (groups_le_width Hh Hg Hm) as Hgrp.
  split; [|split].
  - rewrite (ByteNetBlock_forward_lengths b Hi Hk Hd) by lia. rewrite Hodd.
    destruct (Z.leb_spec 1 (l - 1)) as [_|?]; [|lia].
    unfold Shape.tensor_add. cbn [rev app Shape.broadcast_rev].
    rewrite Z.eqb_refl.
    destruct (Z.eqb_spec l (l - 1)) as [?|_]; [lia|].
    destruct (Z.eqb_spec l 1) as [?|_]; [lia|].
    destruct (Z.eqb_spec (l - 1) 1) as [?|_]; [lia|].
    reflexivity.
  - rewrite (ByteNetBlock_forward_lengths b Hi Hk Hd) by lia. rewrite Hodd.
    change (2 - 1) with 1. change (1 <=? 1) with true. cbv iota.
    unfold Shape.tensor_add. cbn [rev app Shape.broadcast_rev].
    rewrite Z.eqb_refl. change (2 =? 1) with false. change (1 =? 1) with true.
    cbv iota. cbn [Shape.broadcast_rev bind]. rewrite Z.eqb_refl.
    reflexivity.
  - rewrite (ByteNetBlock_forward_lengths b Hi Hk Hd) by lia. rewrite Hodd.
    reflexivity.
Qed.

Lemma ByteNetBlock_odd_extent_fails_witness :
  construct_block_and_forward (RT := ShapeRT) 16 8 16 2 (PyInt 1) 1 false
    [3; 40; 16] = Raise Shape.shape_error.
Proof.
  unfold construct_block_and_forward.
  destruct (ByteNetBlock_init (RT := ShapeRT) (manual_seed 123) 16 8 16 2
              (PyInt 1) 1 false) as [[blk g']|e] eqn:Hi; [|discriminate Hi].
  cbn [bind].
  apply (@ByteNetBlock_odd_extent_fails _ _ g' 16 8 2 1 1 3 40 false blk Hi
           ltac:(lia) ltac:(lia) ltac:(lia) ltac:(lia) eq_refl ltac:(lia)
           ltac:(lia)).
Defined.

(** ** Shapes through the model *)

Section ModelShapes.
Context {U : Unmodelled}.

Lemma apply_layers_mode (layers : list (ByteNetBlock (RT := ShapeRT)))
      (rate : Q) (train : bool) (x : list Z) :
  Qle_bool rate 1 = true ->
  apply_layers layers rate train x = apply_layers layers rate false x.
Proof.
  intros Hr. revert x.
  induction layers as [|blk layers IH]; intros x; [reflexivity|].
  cbn [apply_layers].
  destruct (ByteNetBlock_forward blk x) as [y|e]; cbn [bind]; [|reflexivity].
  rewrite dropout_shape by exact Hr. rewrite andb_false_r. cbn [bind].
  apply IH.
Qed.

Lemma encoder_tower_mode (m : ByteNetPairedSeqs (RT := ShapeRT)) (x : list Z) :
  Qle_bool (dropout m) 1 = true ->
  encoder_tower (eval m) x = encoder_tower m x.
Proof.
  intros Hr. unfold encoder_tower.
  cbn [eval adjuster antibody_layers dropout training down_adjuster
    final_lnorm].
  destruct (PositionFeedForward_forward (adjuster m) x) as [y|e];
    cbn [bind]; [|reflexivity].
  now rewrite (@apply_layers_mode (antibody_layers m) (dropout m)
                 (training m) y Hr).
Qed.

(** X13: with positive widths, an odd kernel size, an int growth factor
    from 1 to below [2 ^ 47] and a dropout rate of at most 1, the encoder
    tower of a constructed model pools every input of shape
    [(B, L, input_dim)], [L >= 1], to [(B, rep_dim)], in training mode and
    in evaluation mode: two inputs that differ only in their length give
    the same shape. *)
Theorem encoder_tower_pools_any_length (a : Args.t)
        (m : ByteNetPairedSeqs (RT := ShapeRT)) (b l l' : Z) :
  ByteNetPairedSeqs_init a = Ok m -> tower_ready a ->
  1 <= b -> 1 <= l -> 1 <= l' ->
  encoder_tower m [b; l; Args.input_dim a] = Ok [b; Args.rep_dim a] /\
  encoder_tower (eval m) [b; l; Args.input_dim a] = Ok [b; Args.rep_dim a] /\
  encoder_tower m [b; l; Args.input_dim a] =
  encoder_tower m [b; l'; Args.input_dim a].
Proof.
  intros Hm Hr _ Hl Hl'.
  pose proof (@encoder_tower_shape _ a m b l Hm Hr Hl) as H1.
  pose proof (@encoder_tower_shape _ a m b l' Hm Hr Hl') as H2.
  split; [exact H1|]. split; [|congruence].
  rewrite encoder_tower_mode; [exact H1|].
  apply init_Ok_inv in Hm. destruct Hm as (? & ? & ? & _ & _ & Hc).
  destruct Hc. rewrite c_dropout0. apply Hr.
Qed.

Lemma predict_from_forward (m : ByteNetPairedSeqs (RT := ShapeRT))
      (nx : list Z) (gv : bool) (v : forward_ret) :
  returned (ByteNetPairedSeqs_forward (eval m) nx false
              (llgp m && gv && String.eqb (objective m) "regression")) = Ok v ->
  returned (ByteNetPairedSeqs_forward (eval m) nx false gv) = Ok v ->
  returned (ByteNetPairedSeqs_predict m nx gv) =
  match v with
  | Preds p =>
      if llgp m && gv && String.eqb (objective m) "regression"
      then Raise ValueError else Ok (Scores p)
  | PredsVar p q =>
      if llgp m && gv && String.eqb (objective m) "regression"
      then Ok (ScoresVar p q) else Raise AttributeError
  end.
Proof.
  intros H1 H2. unfold ByteNetPairedSeqs_predict. cbv zeta.
  change (from_numpy_float (Torch := ShapeRT) nx) with (Ok nx). cbn [bind].
  change (llgp (eval m)) with (llgp m).
  change (objective (eval m)) with (objective m).
  change (to_device_of (Torch := ShapeRT)
            (conv_weight (pff_conv (adjuster (eval m)))) nx) with nx.
  destruct (llgp m && gv && String.eqb (objective m) "regression").
  - apply returned_Ok_inv in H2. destruct H2 as (s & ->). cbn [bind].
    destruct v; reflexivity.
  - apply returned_Ok_inv in H1. destruct H1 as (s & ->). cbn [bind].
    destruct v; reflexivity.
Qed.

Lemma forward_eval_shape (a : Args.t) (m : ByteNetPairedSeqs (RT := ShapeRT))
      (x : list Z) (up gv : bool) :
  ByteNetPairedSeqs_init a = Ok m -> tower_ready a ->
  returned (ByteNetPairedSeqs_forward (eval m) x up gv) =
  returned (ByteNetPairedSeqs_forward m x up gv).
Proof.
  intros Hm Hr. apply forward_same_tower; try reflexivity.
  apply encoder_tower_mode.
  apply init_Ok_inv in Hm. destruct Hm as (? & ? & ? & _ & _ & Hc).
  destruct Hc. rewrite c_dropout0. apply Hr.
Qed.

(** X14: the shapes [forward] documents.  For a constructed model with
    positive widths and an odd kernel, on an input of shape
    [(B, L, input_dim)]: regression returns shape [(B,)], and with the GP
    head and [get_var], in evaluation mode, a prediction and a variance of
    shape [(B,)] each; the binary classifier returns [(B,)]; multiclass
    with the linear head returns [(B, categories)]. *)
Theorem forward_returns_documented_shapes (a : Args.t)
        (m : ByteNetPairedSeqs (RT := ShapeRT)) (b l : Z) (up gv : bool) :
  ByteNetPairedSeqs_init a = Ok m -> tower_ready a -> 1 <= b -> 1 <= l ->
  (Args.objective a = "regression" ->
   returned (ByteNetPairedSeqs_forward m [b; l; Args.input_dim a] up false) =
   Ok (Preds [b]) /\
   (Args.llgp a = false ->
    returned (ByteNetPairedSeqs_forward m [b; l; Args.input_dim a] up gv) =
    Ok (Preds [b])) /\
   (Args.llgp a = true ->
    returned (ByteNetPairedSeqs_forward (eval m) [b; l; Args.input_dim a]
                up true) =
    Ok (PredsVar [b] [b]))) /\
  (Args.objective a = "binary_classifier" ->
   returned (ByteNetPairedSeqs_forward m [b; l; Args.input_dim a] up gv) =
   Ok (Preds [b])) /\
  (Args.objective a = "multiclass" -> Args.llgp a = false ->
   returned (ByteNetPairedSeqs_forward m [b; l; Args.input_dim a] up gv) =
   Ok (Preds [b; Args.num_predicted_categories a])).
Proof.
  intros Hm Hready _ Hl.
  split; [|split].
  - intros Hobj. split; [|split].
    + destruct (@scalar_forward_shape _ a m b l up false Hm Hready Hl)
        as (Hr & _).
      rewrite (Hr Hobj). now rewrite andb_false_r.
    + intros Hg.
      destruct (@scalar_forward_shape _ a m b l up gv Hm Hready Hl)
        as (Hr & _).
      rewrite (Hr Hobj). now rewrite Hg.
    + intros Hg. rewrite (@forward_eval_shape a m _ up true Hm Hready).
      destruct (@scalar_forward_shape _ a m b l up true Hm Hready Hl)
        as (Hr & _).
      rewrite (Hr Hobj). now rewrite Hg.
  - intros Hobj.
    destruct (@scalar_forward_shape _ a m b l up gv Hm Hready Hl)
      as (_ & Hb).
    now apply Hb.
  - intros Hobj Hg.
    rewrite (@multiclass_forward_shape _ a m b l up gv Hm Hready Hl Hobj).
    now rewrite Hg.
Qed.

(** X15: [predict] returns arrays with the batch dimension of its input.
    For a constructed model with positive widths and an odd kernel, on an
    array of shape [(B, L, input_dim)]: regression and the binary
    classifier give shape [(B,)], regression with the GP head and
    [get_var] gives scores and variance of shape [(B,)] each, and
    multiclass with the linear head gives [(B, categories)]. *)
Theorem predict_returns_documented_shapes (a : Args.t)
        (m : ByteNetPairedSeqs (RT := ShapeRT)) (b l : Z) (gv : bool) :
  ByteNetPairedSeqs_init a = Ok m -> tower_ready a -> 1 <= b -> 1 <= l ->
  (Args.objective a = "regression" ->
   returned (ByteNetPairedSeqs_predict m [b; l; Args.input_dim a] gv) =
   Ok (if Args.llgp a && gv then ScoresVar [b] [b] else Scores [b])) /\
  (Args.objective a = "binary_classifier" ->
   returned (ByteNetPairedSeqs_predict m [b; l; Args.input_dim a] gv) =
   Ok (Scores [b])) /\
  (Args.objective a = "multiclass" -> Args.llgp a = false ->
   returned (ByteNetPairedSeqs_predict m [b; l; Args.input_dim a] gv) =
   Ok (Scores [b; Args.num_predicted_categories a])).
Proof.
  intros Hm Hready _ Hl.
  pose proof Hm as Hinv. apply init_Ok_inv in Hinv.
  destruct Hinv as (ncl & lik & dils & _ & _ & Hcons). destruct Hcons.
  assert (Hf : forall g,
            returned (ByteNetPairedSeqs_forward (eval m)
                        [b; l; Args.input_dim a] false g) =
            returned (ByteNetPairedSeqs_forward m
                        [b; l; Args.input_dim a] false g))
    by (intros g; now apply forward_eval_shape with (a := a)).
  split; [|split].
  - intros Hobj.
    assert (Hall : forall g,
              returned (ByteNetPairedSeqs_forward (eval m)
                          [b; l; Args.input_dim a] false g) =
              Ok (if Args.llgp a && g then PredsVar [b] [b] else Preds [b])).
    { intros g. rewrite Hf.
      now apply (@scalar_forward_shape _ a m b l false g Hm Hready Hl). }
    assert (Hcond : llgp m && gv && String.eqb (objective m) "regression"
                    = Args.llgp a && gv).
    { rewrite c_objective0, Hobj, c_llgp0. simpl String.eqb.
      apply andb_true_r. }
    rewrite (@predict_from_forward m _ gv
               (if Args.llgp a && gv then PredsVar (RT := ShapeRT) [b] [b]
                else Preds (RT := ShapeRT) [b])).
    + rewrite Hcond. destruct (Args.llgp a && gv); reflexivity.
    + rewrite Hcond, Hall. destruct (Args.llgp a), gv; reflexivity.
    + apply Hall.
  - intros Hobj.
    assert (Hall : forall g,
              returned (ByteNetPairedSeqs_forward (eval m)
                          [b; l; Args.input_dim a] false g) = Ok (Preds [b])).
    { intros g. rewrite Hf.
      now apply (@scalar_forward_shape _ a m b l false g Hm Hready Hl). }
    rewrite (@predict_from_forward m _ gv (Preds (RT := ShapeRT) [b]));
      try apply Hall.
    rewrite c_objective0, Hobj. simpl String.eqb. now rewrite andb_false_r.
  - intros Hobj Hg.
    assert (Hall : forall g,
              returned (ByteNetPairedSeqs_forward (eval m)
                          [b; l; Args.input_dim a] false g) =
              Ok (Preds [b; Args.num_predicted_categories a])).
    { intros g. rewrite Hf.
      rewrite (@multiclass_forward_shape _ a m b l false g Hm Hready Hl Hobj).
      now rewrite Hg. }
    rewrite (@predict_from_forward m _ gv
               (Preds (RT := ShapeRT) [b; Args.num_predicted_categories a]));
      try apply Hall.
    rewrite c_objective0, Hobj. simpl String.eqb. now rewrite andb_false_r.
Qed.

(** X16: a malformed input is rejected at the first layer.  On a
    constructed model, [forward] and [predict] raise a shape error on an
    input whose channel count is not [input_dim], and IndexError on an
    input of two axes. *)
Theorem malformed_input_raises (a : Args.t)
        (m : ByteNetPairedSeqs (RT := ShapeRT)) (b l c : Z) (up gv : bool) :
  ByteNetPairedSeqs_init a = Ok m -> c <> Args.input_dim a ->
  ByteNetPairedSeqs_forward m [b; l; c] up gv = Raise Shape.shape_error /\
  ByteNetPairedSeqs_predict m [b; l; c] gv = Raise Shape.shape_error /\
  ByteNetPairedSeqs_forward m [b; c] up gv = Raise IndexError /\
  ByteNetPairedSeqs_predict m [b; c] gv = Raise IndexError.
Proof.
  intros Hm Hc. apply init_Ok_inv in Hm.
  destruct Hm as (ncl & lik & dils & _ & _ & Hcons). destruct Hcons.
  assert (H3 : forall (m0 : ByteNetPairedSeqs (RT := ShapeRT)) u g,
            adjuster m0 = adjuster m ->
            ByteNetPairedSeqs_forward m0 [b; l; c] u g
            = Raise Shape.shape_error).
  { intros m0 u g Ha. unfold ByteNetPairedSeqs_forward, encoder_tower.
    rewrite Ha.
    now rewrite (@PositionFeedForward_wrong_channels _ (adjuster m)
                   (Args.input_dim a) (Args.hidden_dim a) b l c c_adjuster0 Hc). }
  assert (H2 : forall (m0 : ByteNetPairedSeqs (RT := ShapeRT)) u g,
            ByteNetPairedSeqs_forward m0 [b; c] u g = Raise IndexError).
  { intros m0 u g. reflexivity. }
  split; [now apply H3|]. split; [|split; [apply H2|]].
  - unfold ByteNetPairedSeqs_predict. cbv zeta.
    change (from_numpy_float (Torch := ShapeRT) [b; l; c]) with (Ok [b; l; c]).
    cbn [bind].
    change (to_device_of (Torch := ShapeRT)
              (conv_weight (pff_conv (adjuster (eval m)))) [b; l; c])
      with [b; l; c].
    rewrite !(H3 (eval m)) by reflexivity.
    now destruct (llgp (eval m) && gv
                  && String.eqb (objective (eval m)) "regression").
  - unfold ByteNetPairedSeqs_predict. cbv zeta.
    change (from_numpy_float (Torch := ShapeRT) [b; c]) with (Ok [b; c]).
    cbn [bind].
    change (to_device_of (Torch := ShapeRT)
              (conv_weight (pff_conv (adjuster (eval m)))) [b; c])
      with [b; c].
    rewrite !(H2 (eval m)).
    now destruct (llgp (eval m) && gv
                  && String.eqb (objective (eval m)) "regression").
Qed.

End ModelShapes.

Lemma encoder_tower_pools_any_length_witness :
  encoder_tower model_lin [3; 40; 21] = Ok [3; 10] /\
  encoder_tower (eval model_lin) [3; 40; 21] = Ok [3; 10] /\
  encoder_tower model_lin [3; 40; 21] = encoder_tower model_lin [3; 7; 21].
Proof.
  apply (@encoder_tower_pools_any_length _ args_lin model_lin 3 40 7).
  - reflexivity.
  - apply tower_ready_args_ex.
  - lia.
  - lia.
  - lia.
Defined.

Lemma forward_returns_documented_shapes_witness :
  returned (ByteNetPairedSeqs_forward model_multi [3; 40; 21] false false) =
  Ok (Preds [3; 4]).
Proof.
  destruct (@forward_returns_documented_shapes _ args_multi model_multi 3 40
              false false eq_refl (tower_ready_args_ex false "multiclass" 4)
              ltac:(lia) ltac:(lia)) as (_ & _ & H).
  apply H; reflexivity.
Defined.

Lemma predict_returns_documented_shapes_witness :
  returned (ByteNetPairedSeqs_predict model_gp [3; 40; 21] true) =
  Ok (ScoresVar [3] [3]).
Proof.
  destruct (@predict_returns_documented_shapes _ args_gp model_gp 3 40 true
              eq_refl (tower_ready_args_ex true "regression" 1)
              ltac:(lia) ltac:(lia)) as (H & _).
  apply H. reflexivity.
Defined.

Lemma malformed_input_raises_witness :
  ByteNetPairedSeqs_forward model_lin [3; 40; 20] false false
  = Raise Shape.shape_error /\
  ByteNetPairedSeqs_predict model_lin [3; 40; 20] false
  = Raise Shape.shape_error /\
  ByteNetPairedSeqs_forward model_lin [3; 20] false false = Raise IndexError /\
  ByteNetPairedSeqs_predict model_lin [3; 20] false = Raise IndexError.
Proof.
  apply (@malformed_input_raises _ args_lin model_lin 3 40 20 false false).
  - reflexivity.
  - cbn. lia.
Defined.

(** ** Instances of the further properties on example models *)

Lemma flags_ignored_without_gp_head_witness :
  ByteNetPairedSeqs_forward model_lin [3; 40; 21] true true =
  ByteNetPairedSeqs_forward model_lin [3; 40; 21] false false /\
  ByteNetPairedSeqs_predict model_lin [3; 40; 21] true =
  ByteNetPairedSeqs_predict model_lin [3; 40; 21] false.
Proof.
  apply (@flags_ignored_without_gp_head ShapeRT model_lin). reflexivity.
Defined.

Lemma dropout_only_in_training_witness :
  returned (ByteNetPairedSeqs_forward (with_dropout (eval model_lin) (1 # 2))
              [3; 40; 21] false false) =
  returned (ByteNetPairedSeqs_forward (eval model_lin) [3; 40; 21] false false).
Proof.
  apply (proj1 (@dropout_only_in_training ShapeRT (eval model_lin) (1 # 2)
                  [3; 40; 21] [3; 40; 21] false false)).
  reflexivity.
Defined.

Lemma mode_irrelevant_without_dropout_witness :
  spectral_free model_lin /\
  returned (ByteNetPairedSeqs_forward model_lin [3; 40; 21] false false) =
  returned (ByteNetPairedSeqs_forward (eval model_lin) [3; 40; 21] false false).
Proof.
  apply (@mode_irrelevant_without_dropout ShapeRT args_lin model_lin);
    reflexivity.
Defined.

Lemma predict_leaves_eval_mode_witness :
  ByteNetPairedSeqs_predict (eval model_gp) [3; 40; 21] true =
  Ok (ScoresVar (RT := ShapeRT) [3] [3], eval model_gp).
Proof.
  destruct (@predict_leaves_eval_mode ShapeRT model_gp (eval model_gp)
              [3; 40; 21] true (ScoresVar (RT := ShapeRT) [3] [3]) eq_refl)
    as (_ & _ & _ & H).
  exact H.
Defined.


Lemma antigen_layers_always_built_witness :
  (antigen_adjuster model_no_antigen = None <->
   Args.antigen_dim args_no_antigen = None) /\
  List.length (antigen_layers model_no_antigen) = Z.to_nat 5 /\
  List.length (antibody_layers model_no_antigen) = Z.to_nat 5 /\
  map (fun b => dilation (conv_cfg (bnb_conv b)))
      (antigen_layers model_no_antigen) =
  map (fun b => dilation (conv_cfg (bnb_conv b)))
      (antibody_layers model_no_antigen).
Proof.
  apply (@antigen_layers_always_built ShapeRT args_no_antigen model_no_antigen).
  reflexivity.
Defined.

Lemma blocks_follow_slim_and_llgp_witness :
  Forall (block_configured args_gp) (antibody_layers model_gp) /\
  Forall (block_configured args_gp) (antigen_layers model_gp) /\
  conv_spectral (pff_conv (adjuster model_gp)) = true /\
  conv_spectral (pff_conv (down_adjuster model_gp)) = true /\
  pff_spec 21 16 (adjuster model_gp) /\
  pff_spec 16 10 (down_adjuster model_gp).
Proof.
  apply (@blocks_follow_slim_and_llgp ShapeRT args_gp model_gp). reflexivity.
Defined.

Lemma head_follows_llgp_and_objective_witness :
  exists l, out_layer model_multi = HeadLinear l /\
            lin_in l = 10 /\ lin_out l = 4 /\ lin_spectral l = false.
Proof.
  destruct (@head_follows_llgp_and_objective ShapeRT args_multi model_multi
              eq_refl) as (_ & H).
  apply H. reflexivity.
Defined.

(** ** The group count of a block *)

(** X17: a block passes its group count to the dilated convolution only,
    which is built first.  A count that is not positive or does not divide
    the hidden width raises ValueError, whatever the other arguments are;
    with positive widths and kernel size, the construction succeeds
    exactly when the count is positive and divides the hidden width. *)
Theorem ByteNetBlock_init_groups {RT : Torch} (g : generator)
        (d_in d_h d_out k grp : Z) (dil : pynum) (sn : bool) :
  (0 < grp /\ d_h mod grp = 0 ->
   1 <= d_in -> 1 <= d_h -> 1 <= d_out -> 1 <= k ->
   exists b g',
     ByteNetBlock_init g d_in d_h d_out k dil grp sn = Ok (b, g') /\
     groups (conv_cfg (bnb_conv b)) = grp) /\
  (~ (0 < grp /\ d_h mod grp = 0) ->
   ByteNetBlock_init g d_in d_h d_out k dil grp sn = Raise ValueError).
Proof.
  split.
  - intros (Hg & Hd) Hi Hh Ho Hk.
    destruct (@ByteNetBlock_init_ok _ g d_in d_h d_out k grp dil sn Hg Hd)
      as (b & g' & Hb); try lia.
    exists b, g'. split; [exact Hb|].
    apply ByteNetBlock_init_inv in Hb. apply Hb.
  - intros Hn.
    destruct (ByteNetBlock_init g d_in d_h d_out k dil grp sn)
      as [[b g']|e] eqn:Hb.
    + apply ByteNetBlock_init_inv in Hb. tauto.
    + apply ByteNetBlock_init_raise in Hb.
      destruct Hb as [(-> & _)|(_ & Hg)]; [reflexivity|tauto].
Qed.

Lemma ByteNetBlock_init_groups_witness :
  (exists b g',
     ByteNetBlock_init (RT := ShapeRT) tt 16 8 16 3 (PyInt 1) 4 false
     = Ok (b, g') /\ groups (conv_cfg (bnb_conv b)) = 4) /\
  ByteNetBlock_init (RT := ShapeRT) tt 16 8 16 3 (PyInt 1) 3 false
  = Raise ValueError.
Proof.
  split.
  - apply (proj1 (@ByteNetBlock_init_groups ShapeRT tt 16 8 16 3 4 (PyInt 1)
                    false)); try lia.
    split; [lia|reflexivity].
  - apply (proj2 (@ByteNetBlock_init_groups ShapeRT tt 16 8 16 3 3 (PyInt 1)
                    false)).
    intros (_ & H). discriminate H.
Defined.
